(** * Orthanc core: a shallow embedding of three subsystems

    - [HttpOutput]: the response state machine of
      [Core/HttpServer/HttpOutput.cpp];
    - [ServerIndex]: the remaining-ancestor listener, [DeleteResource],
      [Store] and [GetSeriesStatus] of [OrthancServer/ServerIndex.cpp];
    - [AnonymizeModify]: the request parsing and the per-instance loop of
      [OrthancServer/OrthancRestApi/OrthancRestAnonymizeModify.cpp].

    Unsigned 64-bit quantities ([uint64_t], [size_t]) are values of [N] with
    the wrap-around of their arithmetic written out.  A C++ function that
    can throw returns a [Result]; the object it mutates is threaded
    explicitly, so that what was written before the exception stays
    written. *)

From stdpp Require Import base option list gmap sets strings.
From Stdlib Require Import NArith ZArith Lia Ascii String DecimalString.

Open Scope N_scope.

(** ** Shared vocabulary *)

(** [OrthancException] carries an error code. *)
Inductive ErrorCode : Set :=
| ErrorCode_InternalError
| ErrorCode_BadRequest
| ErrorCode_BadSequenceOfCalls
| ErrorCode_InexistentItem.

Inductive Result (A : Type) : Type :=
| Ok (a : A)
| Throw (e : ErrorCode).
Arguments Ok {A} a.
Arguments Throw {A} e.

(** A method of a stateful object: it returns or throws, and in both cases
    leaves the object as its writes made it. *)
Definition Stateful (S A : Type) : Type := S -> Result A * S.

Definition ret {S A} (a : A) : Stateful S A := fun s => (Ok a, s).
Definition throw {S A} (e : ErrorCode) : Stateful S A := fun s => (Throw e, s).
Definition bind {S A B} (c : Stateful S A) (k : A -> Stateful S B) : Stateful S B :=
  fun s => match c s with
           | (Ok a, s') => k a s'
           | (Throw e, s') => (Throw e, s')
           end.
Definition update {S} (f : S -> S) : Stateful S unit := fun s => (Ok tt, f s).
Definition read {S A} (f : S -> A) : Stateful S A := fun s => (Ok (f s), s).
Definition when {S} (b : bool) (c : Stateful S unit) : Stateful S unit :=
  if b then c else ret tt.

#[global] Instance Stateful_ret {S} : MRet (Stateful S) := fun A => @ret S A.
#[global] Instance Stateful_bind {S} : MBind (Stateful S) :=
  fun A B k c => bind c k.

(** A [for] loop over a container, with one method call per element. *)
Fixpoint for_each {S A} (l : list A) (f : A -> Stateful S unit)
    : Stateful S unit :=
  match l with
  | [] => ret tt
  | x :: rest => f x ;; for_each rest f
  end.

(** [c] started in a state of [pre] returns normally, with a value and a
    state of [post]. *)
Definition returns {S A} (c : Stateful S A) (pre : S -> Prop)
    (post : A -> S -> Prop) : Prop :=
  forall s, pre s -> exists a s', c s = (Ok a, s') /\ post a s'.

(** The four levels; the constructor of the listener asserts
    [Patient < Study < Series < Instance] on the enumeration values. *)
Inductive ResourceType : Set :=
| ResourceType_Patient
| ResourceType_Study
| ResourceType_Series
| ResourceType_Instance.

#[global] Instance ResourceType_eq_dec : EqDecision ResourceType.
Proof. solve_decision. Defined.

(** Rank of a level in the enumeration. *)
Definition level_rank (t : ResourceType) : N :=
  match t with
  | ResourceType_Patient => 1
  | ResourceType_Study => 2
  | ResourceType_Series => 3
  | ResourceType_Instance => 4
  end.

(** [parentType < remainingType_] on the enumeration. *)
Definition ResourceType_ltb (a b : ResourceType) : bool :=
  level_rank a <? level_rank b.

Definition uint64_modulus : N := 2 ^ 64.

(** Addition of two unsigned 64-bit values. *)
Definition add64 (a b : N) : N := (a + b) mod uint64_modulus.

(** [boost::lexical_cast<std::string>] of an unsigned integer. *)
Definition decimal (n : N) : string :=
  NilZero.string_of_uint (N.to_uint n).

Definition CRLF : string :=
  String (ascii_of_nat 13) (String (ascii_of_nat 10) EmptyString).

(** ** The HTTP response state machine *)

Module HttpOutput.

Inductive State : Set :=
| State_WritingHeader
| State_WritingBody
| State_Done.

#[global] Instance State_eq_dec : EqDecision State.
Proof. solve_decision. Defined.

(** An [HttpStatus] is its numeric code. *)
Definition HttpStatus := N.
Definition HttpStatus_200_Ok : HttpStatus := 200.

(** What the machine hands to its [IHttpOutputStream], oldest first.  A
    body chunk is the pair (buffer, length) that [SendBody] received. *)
Inductive StreamEvent : Type :=
| OnHttpStatusReceived (status : HttpStatus)
| Send (isHeader : bool) (buffer : string) (length : N).

Record StateMachine : Type := mkStateMachine {
  stream_ : list StreamEvent;
  state_ : State;
  status_ : HttpStatus;
  hasContentLength_ : bool;
  contentLength_ : N;
  contentPosition_ : N;
  keepAlive_ : bool;
  headers_ : list string
}.

(** The constructor leaves [contentLength_] uninitialised; it is read only
    under [hasContentLength_], which starts false. *)
Definition new (isKeepAlive : bool) : StateMachine :=
  {| stream_ := [];
     state_ := State_WritingHeader;
     status_ := HttpStatus_200_Ok;
     hasContentLength_ := false;
     contentLength_ := 0;
     contentPosition_ := 0;
     keepAlive_ := isKeepAlive;
     headers_ := [] |}.

Definition set_state (s : State) (m : StateMachine) : StateMachine :=
  {| stream_ := stream_ m; state_ := s; status_ := status_ m;
     hasContentLength_ := hasContentLength_ m;
     contentLength_ := contentLength_ m;
     contentPosition_ := contentPosition_ m;
     keepAlive_ := keepAlive_ m; headers_ := headers_ m |}.

Definition set_status (s : HttpStatus) (m : StateMachine) : StateMachine :=
  {| stream_ := stream_ m; state_ := state_ m; status_ := s;
     hasContentLength_ := hasContentLength_ m;
     contentLength_ := contentLength_ m;
     contentPosition_ := contentPosition_ m;
     keepAlive_ := keepAlive_ m; headers_ := headers_ m |}.

Definition set_hasContentLength (b : bool) (m : StateMachine) : StateMachine :=
  {| stream_ := stream_ m; state_ := state_ m; status_ := status_ m;
     hasContentLength_ := b;
     contentLength_ := contentLength_ m;
     contentPosition_ := contentPosition_ m;
     keepAlive_ := keepAlive_ m; headers_ := headers_ m |}.

Definition set_contentLength (n : N) (m : StateMachine) : StateMachine :=
  {| stream_ := stream_ m; state_ := state_ m; status_ := status_ m;
     hasContentLength_ := hasContentLength_ m;
     contentLength_ := n;
     contentPosition_ := contentPosition_ m;
     keepAlive_ := keepAlive_ m; headers_ := headers_ m |}.

Definition set_contentPosition (n : N) (m : StateMachine) : StateMachine :=
  {| stream_ := stream_ m; state_ := state_ m; status_ := status_ m;
     hasContentLength_ := hasContentLength_ m;
     contentLength_ := contentLength_ m;
     contentPosition_ := n;
     keepAlive_ := keepAlive_ m; headers_ := headers_ m |}.

Definition set_headers (h : list string) (m : StateMachine) : StateMachine :=
  {| stream_ := stream_ m; state_ := state_ m; status_ := status_ m;
     hasContentLength_ := hasContentLength_ m;
     contentLength_ := contentLength_ m;
     contentPosition_ := contentPosition_ m;
     keepAlive_ := keepAlive_ m; headers_ := h |}.

Definition emit (e : StreamEvent) (m : StateMachine) : StateMachine :=
  {| stream_ := stream_ m ++ [e]; state_ := state_ m; status_ := status_ m;
     hasContentLength_ := hasContentLength_ m;
     contentLength_ := contentLength_ m;
     contentPosition_ := contentPosition_ m;
     keepAlive_ := keepAlive_ m; headers_ := headers_ m |}.

(** A method of the machine: the outcome and the machine it leaves. *)
Abbreviation Method := (Stateful StateMachine).

(** The guard that opens every header-phase method. *)
Definition require_WritingHeader : Method unit :=
  st ← read state_;
  if decide (st <> State_WritingHeader)
  then throw ErrorCode_BadSequenceOfCalls
  else ret tt.

Definition SetHttpStatus (status : HttpStatus) : Method unit :=
  require_WritingHeader ;;
  update (set_status status).

Definition SetContentLength (length : N) : Method unit :=
  require_WritingHeader ;;
  update (set_hasContentLength true) ;;
  update (set_contentLength length).

Definition AddHeader (header value : string) : Method unit :=
  require_WritingHeader ;;
  h ← read headers_;
  update (set_headers (h ++ [header +:+ ": " +:+ value +:+ CRLF])).

Definition SetContentType (contentType : string) : Method unit :=
  AddHeader "Content-Type" contentType.

Definition double_quote : string := String (ascii_of_nat 34) EmptyString.

Definition SetContentFilename (filename : string) : Method unit :=
  AddHeader "Content-Disposition"
            ("filename=" +:+ double_quote +:+ filename +:+ double_quote).

Definition SetCookie (cookie value : string) : Method unit :=
  require_WritingHeader ;;
  AddHeader "Set-Cookie" (cookie +:+ "=" +:+ value).

Definition ClearHeaders : Method unit :=
  require_WritingHeader ;;
  update (set_headers []).

Section SendBody.

(** [EnumerationToString(HttpStatus)] lives in the enumerations unit. *)
Variable EnumerationToString : HttpStatus -> string.

(** The text built before the Content-Length line: the status line, the
    keep-alive header and the headers added so far. *)
Definition header_prefix (m : StateMachine) : string :=
  let s := "HTTP/1.1 " +:+ decimal (status_ m) +:+ " "
           +:+ EnumerationToString (status_ m) +:+ CRLF in
  let s := if keepAlive_ m then s +:+ "Connection: keep-alive" +:+ CRLF else s in
  fold_left (fun acc h => acc +:+ h) (headers_ m) s.

(** The text flushed before the first body byte, given the value chosen
    for the Content-Length line. *)
Definition header_text (m : StateMachine) (contentLength : N) : string :=
  header_prefix m +:+ "Content-Length: " +:+ decimal contentLength
  +:+ CRLF +:+ CRLF.

(** The [state_ == State_WritingHeader] block of [SendBody]. *)
Definition flush_header (length : N) : Method unit :=
  status ← read status_;
  update (emit (OnHttpStatusReceived status)) ;;
  when (negb (status =? HttpStatus_200_Ok))
       (update (set_hasContentLength false)) ;;
  has ← read hasContentLength_;
  declared ← read contentLength_;
  let contentLength := if (has : bool) then declared else length in
  s ← read (fun m => header_text m contentLength);
  update (emit (Send true s (N.of_nat (String.length s)))) ;;
  update (set_state State_WritingBody).

Definition SendBody (buffer : string) (length : N) : Method unit :=
  st ← read state_;
  if decide (st = State_Done)
  then (if length =? 0
        then ret tt
        else throw ErrorCode_BadSequenceOfCalls)
  else
    when (bool_decide (st = State_WritingHeader)) (flush_header length) ;;
    has ← read hasContentLength_;
    pos ← read contentPosition_;
    declared ← read contentLength_;
    if (has : bool) && (declared <? add64 pos length)
    then throw ErrorCode_BadSequenceOfCalls
    else
      when (0 <? length)
           (update (emit (Send false buffer length)) ;;
            update (set_contentPosition (add64 pos length))) ;;
      has ← read hasContentLength_;
      pos ← read contentPosition_;
      declared ← read contentLength_;
      when (negb (has : bool) || (pos =? declared))
           (update (set_state State_Done)).

(** *** The class [HttpOutput] around the machine *)

Definition HttpStatus_301_MovedPermanently : HttpStatus := 301.
Definition HttpStatus_401_Unauthorized : HttpStatus := 401.
Definition HttpStatus_405_MethodNotAllowed : HttpStatus := 405.

(** The error code of a parameter out of range, an enumerator of the
    enumerations unit. *)
Variable ErrorCode_ParameterOutOfRange : ErrorCode.

(** [SendBody(NULL, 0)]. *)
Definition SendBody_empty : Method unit := SendBody EmptyString 0.

Definition SendMethodNotAllowed (allowed : string) : Method unit :=
  ClearHeaders ;;
  SetHttpStatus HttpStatus_405_MethodNotAllowed ;;
  AddHeader "Allow" allowed ;;
  SendBody_empty.

Definition SendStatus (status : HttpStatus) : Method unit :=
  if (status =? HttpStatus_200_Ok)
     || (status =? HttpStatus_301_MovedPermanently)
     || (status =? HttpStatus_401_Unauthorized)
     || (status =? HttpStatus_405_MethodNotAllowed)
  then throw ErrorCode_ParameterOutOfRange
  else
    ClearHeaders ;;
    SetHttpStatus status ;;
    SendBody_empty.

Definition Redirect (path : string) : Method unit :=
  ClearHeaders ;;
  SetHttpStatus HttpStatus_301_MovedPermanently ;;
  AddHeader "Location" path ;;
  SendBody_empty.

Definition SendUnauthorized (realm : string) : Method unit :=
  ClearHeaders ;;
  SetHttpStatus HttpStatus_401_Unauthorized ;;
  AddHeader "WWW-Authenticate"
            ("Basic realm=" +:+ double_quote +:+ realm +:+ double_quote) ;;
  SendBody_empty.

(** [SendBody(const std::string&)]. *)
Definition SendBody_string (str : string) : Method unit :=
  if N.of_nat (String.length str) =? 0
  then SendBody_empty
  else SendBody str (N.of_nat (String.length str)).

(** Whether the destructor of the machine logs that the body has not the
    declared number of bytes. *)
Definition destructor_logs_error (m : StateMachine) : bool :=
  hasContentLength_ m && negb (contentPosition_ m =? contentLength_ m).

(** A call of a client on its [HttpOutput]. *)
Inductive Call : Type :=
| Call_SetHttpStatus (status : HttpStatus)
| Call_SetContentLength (length : N)
| Call_SetContentType (contentType : string)
| Call_SetContentFilename (filename : string)
| Call_SetCookie (cookie value : string)
| Call_AddHeader (header value : string)
| Call_ClearHeaders
| Call_SendBody (buffer : string) (length : N)
| Call_SendBody_string (str : string)
| Call_SendMethodNotAllowed (allowed : string)
| Call_SendStatus (status : HttpStatus)
| Call_Redirect (path : string)
| Call_SendUnauthorized (realm : string).

Definition perform (c : Call) : Method unit :=
  match c with
  | Call_SetHttpStatus status => SetHttpStatus status
  | Call_SetContentLength length => SetContentLength length
  | Call_SetContentType contentType => SetContentType contentType
  | Call_SetContentFilename filename => SetContentFilename filename
  | Call_SetCookie cookie value => SetCookie cookie value
  | Call_AddHeader header value => AddHeader header value
  | Call_ClearHeaders => ClearHeaders
  | Call_SendBody buffer length => SendBody buffer length
  | Call_SendBody_string str => SendBody_string str
  | Call_SendMethodNotAllowed allowed => SendMethodNotAllowed allowed
  | Call_SendStatus status => SendStatus status
  | Call_Redirect path => Redirect path
  | Call_SendUnauthorized realm => SendUnauthorized realm
  end.

(** The machine after a series of calls, each of which returned or threw. *)
Definition perform_all (calls : list Call) (m : StateMachine) : StateMachine :=
  fold_left (fun m c => (perform c m).2) calls m.

(** The body chunks of a stream, and the number of bytes they announce. *)
Definition body_lengths (stream : list StreamEvent) : list N :=
  omap (fun e => match e with
                 | Send false _ length => Some length
                 | _ => None
                 end) stream.

Definition body_bytes (stream : list StreamEvent) : N :=
  foldr N.add 0 (body_lengths stream).

(** The order of the states of a response. *)
Definition state_rank (s : State) : N :=
  match s with
  | State_WritingHeader => 0
  | State_WritingBody => 1
  | State_Done => 2
  end.

(** The header block went out, after the status and before body chunks
    only, none of them empty. *)
Definition header_sent (m : StateMachine) : Prop :=
  exists text chunks,
    stream_ m = OnHttpStatusReceived (status_ m)
                :: Send true text (N.of_nat (String.length text)) :: chunks /\
    Forall (fun e => exists buffer length,
                       e = Send false buffer length /\ 0 < length) chunks.

(** What holds of a response however its client called it. *)
Definition consistent (m : StateMachine) : Prop :=
  contentPosition_ m = body_bytes (stream_ m) mod uint64_modulus /\
  match state_ m with
  | State_WritingHeader => stream_ m = []
  | State_WritingBody =>
      header_sent m /\
      hasContentLength_ m = true /\
      status_ m = HttpStatus_200_Ok /\
      contentPosition_ m <= contentLength_ m
  | State_Done =>
      header_sent m /\
      (hasContentLength_ m = true ->
       status_ m = HttpStatus_200_Ok /\
       contentPosition_ m = contentLength_ m)
  end.

End SendBody.

End HttpOutput.

(** ** The server index *)

Module ServerIndex.

(** A DICOM tag is its (group, element) pair; a [DicomMap] maps tags to
    values. *)
Definition DicomTag : Type := N * N.
Abbreviation DicomMap := (gmap DicomTag string).

Definition DICOM_TAG_INSTANCE_NUMBER : DicomTag := (0x0020, 0x0013).
Definition DICOM_TAG_IMAGE_INDEX : DicomTag := (0x0054, 0x1330).
Definition DICOM_TAG_NUMBER_OF_SLICES : DicomTag := (0x0054, 0x0081).
Definition DICOM_TAG_IMAGES_IN_ACQUISITION : DicomTag := (0x0020, 0x1002).
Definition DICOM_TAG_CARDIAC_NUMBER_OF_IMAGES : DicomTag := (0x0018, 0x1090).

Definition TestAndGetValue (m : DicomMap) (tag : DicomTag) : option string :=
  m !! tag.

Inductive StoreStatus : Set :=
| StoreStatus_Success
| StoreStatus_AlreadyStored
| StoreStatus_Failure.

#[global] Instance StoreStatus_eq_dec : EqDecision StoreStatus.
Proof. solve_decision. Defined.

Inductive SeriesStatus : Set :=
| SeriesStatus_Complete
| SeriesStatus_Missing
| SeriesStatus_Inconsistent
| SeriesStatus_Unknown.

Inductive MetadataType : Set :=
| MetadataType_Instance_IndexInSeries
| MetadataType_Instance_ReceptionDate
| MetadataType_Instance_RemoteAet
| MetadataType_Series_ExpectedNumberOfInstances
| MetadataType_ModifiedFrom
| MetadataType_AnonymizedFrom.

#[global] Instance MetadataType_eq_dec : EqDecision MetadataType.
Proof. solve_decision. Defined.

Definition MetadataType_code (t : MetadataType) : nat :=
  match t with
  | MetadataType_Instance_IndexInSeries => 0
  | MetadataType_Instance_ReceptionDate => 1
  | MetadataType_Instance_RemoteAet => 2
  | MetadataType_Series_ExpectedNumberOfInstances => 3
  | MetadataType_ModifiedFrom => 4
  | MetadataType_AnonymizedFrom => 5
  end%nat.

Definition MetadataType_of_code (n : nat) : MetadataType :=
  match n with
  | 0 => MetadataType_Instance_IndexInSeries
  | 1 => MetadataType_Instance_ReceptionDate
  | 2 => MetadataType_Instance_RemoteAet
  | 3 => MetadataType_Series_ExpectedNumberOfInstances
  | 4 => MetadataType_ModifiedFrom
  | _ => MetadataType_AnonymizedFrom
  end%nat.

#[global] Instance MetadataType_countable : Countable MetadataType.
Proof.
  refine (inj_countable' MetadataType_code MetadataType_of_code _).
  intros []; reflexivity.
Defined.

Inductive ChangeType : Set :=
| ChangeType_CompletedSeries
| ChangeType_NewInstance
| ChangeType_NewPatient
| ChangeType_NewSeries
| ChangeType_NewStudy.

(** *** The listener of cascading deletes *)

Record ServerIndexListener : Type := mkListener {
  removedFiles_ : list string;
  hasRemainingLevel_ : bool;
  remainingType_ : ResourceType;
  remainingPublicId_ : string
}.

(** The constructor initialises [hasRemainingLevel_] only; the other two
    members are read under it.  [removedFiles_] logs the calls to
    [context_.RemoveFile]. *)
Definition new_listener : ServerIndexListener :=
  {| removedFiles_ := [];
     hasRemainingLevel_ := false;
     remainingType_ := ResourceType_Patient;
     remainingPublicId_ := EmptyString |}.

Definition Reset (l : ServerIndexListener) : ServerIndexListener :=
  {| removedFiles_ := removedFiles_ l;
     hasRemainingLevel_ := false;
     remainingType_ := remainingType_ l;
     remainingPublicId_ := remainingPublicId_ l |}.

Definition set_remaining (parentType : ResourceType) (publicId : string)
    (l : ServerIndexListener) : ServerIndexListener :=
  {| removedFiles_ := removedFiles_ l;
     hasRemainingLevel_ := true;
     remainingType_ := parentType;
     remainingPublicId_ := publicId |}.

Definition SignalRemainingAncestor (parentType : ResourceType)
    (publicId : string) (l : ServerIndexListener) : ServerIndexListener :=
  if hasRemainingLevel_ l
  then
    if ResourceType_ltb parentType (remainingType_ l)
    then set_remaining parentType publicId l
    else l
  else set_remaining parentType publicId l.

Definition SignalFileDeleted (fileUuid : string) (l : ServerIndexListener)
    : ServerIndexListener :=
  {| removedFiles_ := removedFiles_ l ++ [fileUuid];
     hasRemainingLevel_ := hasRemainingLevel_ l;
     remainingType_ := remainingType_ l;
     remainingPublicId_ := remainingPublicId_ l |}.

Definition HasRemainingLevel (l : ServerIndexListener) : bool :=
  hasRemainingLevel_ l.
Definition GetRemainingType (l : ServerIndexListener) : ResourceType :=
  remainingType_ l.
Definition GetRemainingPublicId (l : ServerIndexListener) : string :=
  remainingPublicId_ l.

(** A call that the database makes on its [IServerIndexListener]. *)
Inductive Signal : Type :=
| RemainingAncestor (parentType : ResourceType) (publicId : string)
| FileDeleted (fileUuid : string).

Definition deliver (l : ServerIndexListener) (s : Signal) : ServerIndexListener :=
  match s with
  | RemainingAncestor t p => SignalRemainingAncestor t p l
  | FileDeleted u => SignalFileDeleted u l
  end.

(** The listener after a stream of callbacks, oldest first. *)
Definition deliver_all (l : ServerIndexListener) (signals : list Signal)
    : ServerIndexListener :=
  fold_left deliver signals l.

(** The [SignalRemainingAncestor] callbacks of a stream, oldest first. *)
Definition remaining_ancestors (signals : list Signal)
    : list (ResourceType * string) :=
  omap (fun s => match s with
                 | RemainingAncestor t p => Some (t, p)
                 | FileDeleted _ => None
                 end) signals.

(** The [SignalFileDeleted] callbacks of a stream, oldest first. *)
Definition deleted_files (signals : list Signal) : list string :=
  omap (fun s => match s with
                 | FileDeleted u => Some u
                 | RemainingAncestor _ _ => None
                 end) signals.

(** *** The database behind the index *)

Record ResourceRow : Type := mkResourceRow {
  internalId : Z;
  resourceType : ResourceType;
  publicId : string;
  parentId : option Z
}.

Inductive FileContentType : Set :=
| FileContentType_Dicom
| FileContentType_DicomAsJson.

Inductive CompressionType : Set :=
| CompressionType_None
| CompressionType_Zlib.

Record FileInfo : Type := mkFileInfo {
  uuid : string;
  contentType : FileContentType;
  compressedSize : N;
  uncompressedSize : N;
  compressionType : CompressionType
}.

Definition Attachments : Type := list FileInfo.

Record Change : Type := mkChange {
  changeSeq : Z;
  changeType : ChangeType;
  changeResource : Z;
  changeKind : ResourceType;
  changeDate : string
}.

(** Modelled from the spec: the class DatabaseWrapper (the tables behind
    [db_] and the operations that [Store], [DeleteResource] and
    [GetSeriesStatus] call on it) is missing from the sources.  The tables
    follow the data model of the spec: resources with their kind, public id
    and parent, main DICOM tags per resource, metadata per (resource, key),
    attachments per instance, and the append-only change log with its
    sequence.  The operations are the plain reads and writes on these
    tables; a creation is an observable transition and is logged. *)
Record DatabaseWrapper : Type := mkDatabase {
  Resources : list ResourceRow;
  lastResourceId : Z;
  MainDicomTags : gmap Z DicomMap;
  Metadata : gmap (Z * MetadataType) string;
  AttachedFiles : list (Z * FileInfo);
  Changes : list Change
}.

Definition empty_database : DatabaseWrapper :=
  {| Resources := []; lastResourceId := 0%Z; MainDicomTags := ∅;
     Metadata := ∅; AttachedFiles := []; Changes := [] |}.

Abbreviation Query := (Stateful DatabaseWrapper).

Definition find_resource (p : string) (rows : list ResourceRow)
    : option ResourceRow :=
  List.find (fun r => bool_decide (publicId r = p)) rows.

(** Modelled from the spec: DatabaseWrapper::LookupResource, the internal id
    and the kind of the resource with this public id, if there is one. *)
Definition LookupResource (p : string) : Query (option (Z * ResourceType)) :=
  read (fun db =>
          match find_resource p (Resources db) with
          | Some r => Some (internalId r, resourceType r)
          | None => None
          end).

(** Modelled from the spec: the index holds a resource with this public
    id. *)
Definition known (p : string) (db : DatabaseWrapper) : Prop :=
  is_Some (find_resource p (Resources db)).

(** Modelled from the spec: DatabaseWrapper::LogChange appends to the change
    log under the next sequence number. *)
Definition LogChange (now : string) (c : ChangeType) (id : Z)
    (kind : ResourceType) : Query unit :=
  update (fun db =>
    {| Resources := Resources db; lastResourceId := lastResourceId db;
       MainDicomTags := MainDicomTags db; Metadata := Metadata db;
       AttachedFiles := AttachedFiles db;
       Changes := Changes db ++
         [ {| changeSeq := (Z.of_nat (List.length (Changes db)) + 1)%Z;
              changeType := c; changeResource := id; changeKind := kind;
              changeDate := now |} ] |}).

Definition creation_change (kind : ResourceType) : ChangeType :=
  match kind with
  | ResourceType_Patient => ChangeType_NewPatient
  | ResourceType_Study => ChangeType_NewStudy
  | ResourceType_Series => ChangeType_NewSeries
  | ResourceType_Instance => ChangeType_NewInstance
  end.

(** Modelled from the spec: DatabaseWrapper::CreateResource adds a parentless
    row under a fresh internal id, logs the creation and returns the id. *)
Definition CreateResource (now : string) (p : string) (kind : ResourceType)
    : Query Z :=
  id ← read (fun db => (lastResourceId db + 1)%Z);
  update (fun db =>
    {| Resources := Resources db ++
         [ {| internalId := id; resourceType := kind; publicId := p;
              parentId := None |} ];
       lastResourceId := id;
       MainDicomTags := MainDicomTags db; Metadata := Metadata db;
       AttachedFiles := AttachedFiles db; Changes := Changes db |}) ;;
  LogChange now (creation_change kind) id kind ;;
  mret id.

(** Modelled from the spec: DatabaseWrapper::SetMainDicomTags attaches the
    tags to the resource. *)
Definition SetMainDicomTags (id : Z) (tags : DicomMap) : Query unit :=
  update (fun db =>
    {| Resources := Resources db; lastResourceId := lastResourceId db;
       MainDicomTags := <[ id := tags ]> (MainDicomTags db);
       Metadata := Metadata db;
       AttachedFiles := AttachedFiles db; Changes := Changes db |}).

Definition set_parent (parent child : Z) (r : ResourceRow) : ResourceRow :=
  if bool_decide (internalId r = child)
  then {| internalId := internalId r; resourceType := resourceType r;
          publicId := publicId r; parentId := Some parent |}
  else r.

(** Modelled from the spec: DatabaseWrapper::AttachChild makes [parent] the
    parent of [child]. *)
Definition AttachChild (parent child : Z) : Query unit :=
  update (fun db =>
    {| Resources := map (set_parent parent child) (Resources db);
       lastResourceId := lastResourceId db;
       MainDicomTags := MainDicomTags db; Metadata := Metadata db;
       AttachedFiles := AttachedFiles db; Changes := Changes db |}).

(** Modelled from the spec: DatabaseWrapper::AddAttachment registers the
    attachment against the instance. *)
Definition AddAttachment (id : Z) (f : FileInfo) : Query unit :=
  update (fun db =>
    {| Resources := Resources db; lastResourceId := lastResourceId db;
       MainDicomTags := MainDicomTags db; Metadata := Metadata db;
       AttachedFiles := AttachedFiles db ++ [(id, f)];
       Changes := Changes db |}).

(** Modelled from the spec: DatabaseWrapper::SetMetadata writes the value of
    the pair (resource, key). *)
Definition SetMetadata (id : Z) (key : MetadataType) (value : string)
    : Query unit :=
  update (fun db =>
    {| Resources := Resources db; lastResourceId := lastResourceId db;
       MainDicomTags := MainDicomTags db;
       Metadata := <[ (id, key) := value ]> (Metadata db);
       AttachedFiles := AttachedFiles db; Changes := Changes db |}).

(** Modelled from the spec: the value stored for (resource, key), the empty
    string if there is none. *)
Definition metadata_value (db : DatabaseWrapper) (id : Z) (key : MetadataType)
    : string :=
  default EmptyString (Metadata db !! (id, key)).

(** Modelled from the spec: DatabaseWrapper::GetMetadata, the value of the
    pair (resource, key); a missing pair reads as the empty string, which
    no integer conversion accepts. *)
Definition GetMetadata (id : Z) (key : MetadataType) : Query string :=
  read (fun db => metadata_value db id key).

(** Modelled from the spec: the internal ids of the rows whose parent is
    [id], in table order. *)
Definition children_of (db : DatabaseWrapper) (id : Z) : list Z :=
  map internalId (filter (fun r => parentId r = Some id) (Resources db)).

(** Modelled from the spec: DatabaseWrapper::GetChildrenInternalId, the
    internal ids of the rows whose parent is [id]. *)
Definition GetChildrenInternalId (id : Z) : Query (list Z) :=
  read (fun db => children_of db id).

(** *** The index proper *)

Record ServerIndex : Type := mkServerIndex {
  db_ : DatabaseWrapper;
  listener_ : ServerIndexListener
}.

(** Conversion of a 64-bit identifier to [int], as at the call
    [GetSeriesStatus(series)]. *)
Definition to_int (z : Z) : Z := ((z + 2 ^ 31) mod 2 ^ 32 - 2 ^ 31)%Z.

Section Index.

(** [boost::lexical_cast<size_t>]: the value, or [None] for
    [bad_lexical_cast]. *)
Variable lexical_cast_size_t : string -> option N.

(** The identifiers of [DicomInstanceHasher] and the per-level projections of
    [DicomMap]. *)
Variables HashPatient HashStudy HashSeries HashInstance : DicomMap -> string.
Variables ExtractPatientInformation ExtractStudyInformation
          ExtractSeriesInformation ExtractInstanceInformation
  : DicomMap -> DicomMap.

(** The loop of [GetSeriesStatus] over the children that are left, with the
    set of indices seen so far. *)
Fixpoint GetSeriesStatus_loop (expected : N) (children : list Z)
    (instances : gset N) : Query SeriesStatus :=
  match children with
  | [] =>
      if N.of_nat (size instances) =? expected
      then mret SeriesStatus_Complete
      else mret SeriesStatus_Missing
  | it :: rest =>
      s ← GetMetadata it MetadataType_Instance_IndexInSeries;
      match lexical_cast_size_t s with
      | None => mret SeriesStatus_Unknown
      | Some index =>
          if (index <=? 0) || (expected <? index)
          then mret SeriesStatus_Inconsistent
          else if bool_decide (index ∈ instances)
          then mret SeriesStatus_Inconsistent
          else GetSeriesStatus_loop expected rest ({[ index ]} ∪ instances)
      end
  end.

Definition GetSeriesStatus (id : Z) : Query SeriesStatus :=
  s ← GetMetadata id MetadataType_Series_ExpectedNumberOfInstances;
  match lexical_cast_size_t s with
  | None => mret SeriesStatus_Unknown
  | Some expected =>
      if expected <? 0
      then mret SeriesStatus_Unknown
      else
        children ← GetChildrenInternalId id;
        GetSeriesStatus_loop expected children ∅
  end.

(** The index in its series that the metadata of an instance gives. *)
Definition child_index (db : DatabaseWrapper) (it : Z) : option N :=
  lexical_cast_size_t (metadata_value db it MetadataType_Instance_IndexInSeries).

(** The instances of [children] have the numeric indices [indices], which
    lie in 1..[expected] and are pairwise distinct. *)
Definition well_indexed (db : DatabaseWrapper) (expected : N)
    (children : list Z) (indices : list N) : Prop :=
  map (child_index db) children = map Some indices /\
  Forall (fun i => 0 < i <= expected) indices /\
  NoDup indices.

(** The indices 1, 2, ..., [expected]. *)
Definition indices_upto (expected : N) : list N :=
  map N.of_nat (seq 1 (N.to_nat expected)).

(** [(value = m.TestAndGetValue(a)) != NULL || ...]: the first value found. *)
Fixpoint first_value (m : DicomMap) (tags : list DicomTag) : option string :=
  match tags with
  | [] => None
  | t :: rest =>
      match TestAndGetValue m t with
      | Some value => Some value
      | None => first_value m rest
      end
  end.

(** The creation of the patient/study/series/instance hierarchy in [Store]:
    the series of the new instance, and whether it is new. *)
Definition Store_hierarchy (now : string) (dicomSummary : DicomMap)
    (instance : Z) : Query (Z * bool) :=
  foundSeries ← LookupResource (HashSeries dicomSummary);
  match foundSeries with
  | None =>
      series ← CreateResource now (HashSeries dicomSummary) ResourceType_Series;
      SetMainDicomTags series (ExtractSeriesInformation dicomSummary) ;;
      AttachChild series instance ;;
      foundStudy ← LookupResource (HashStudy dicomSummary);
      match foundStudy with
      | None =>
          study ← CreateResource now (HashStudy dicomSummary) ResourceType_Study;
          SetMainDicomTags study (ExtractStudyInformation dicomSummary) ;;
          AttachChild study series ;;
          foundPatient ← LookupResource (HashPatient dicomSummary);
          match foundPatient with
          | None =>
              patient ← CreateResource now (HashPatient dicomSummary)
                                       ResourceType_Patient;
              SetMainDicomTags patient (ExtractPatientInformation dicomSummary) ;;
              AttachChild patient study
          | Some (patient, _) => AttachChild patient study
          end
      | Some (study, _) => AttachChild study series
      end ;;
      mret (series, true)
  | Some (series, _) =>
      AttachChild series instance ;;
      mret (series, false)
  end.

(** The body of the [try] block of [Store]: the status, and whether the
    transaction was committed. *)
Definition Store_transaction (now : string) (dicomSummary : DicomMap)
    (attachments : Attachments) (remoteAet : string)
    : Query (StoreStatus * bool) :=
  found ← LookupResource (HashInstance dicomSummary);
  match found with
  | Some _ => mret (StoreStatus_AlreadyStored, false)
  | None =>
      instance ← CreateResource now (HashInstance dicomSummary)
                                ResourceType_Instance;
      SetMainDicomTags instance (ExtractInstanceInformation dicomSummary) ;;
      hierarchy ← Store_hierarchy now dicomSummary instance;
      let series : Z := hierarchy.1 in
      let isNewSeries : bool := hierarchy.2 in
      for_each attachments (AddAttachment instance) ;;
      SetMetadata instance MetadataType_Instance_ReceptionDate now ;;
      SetMetadata instance MetadataType_Instance_RemoteAet remoteAet ;;
      match first_value dicomSummary
              [DICOM_TAG_INSTANCE_NUMBER; DICOM_TAG_IMAGE_INDEX] with
      | Some value =>
          SetMetadata instance MetadataType_Instance_IndexInSeries value
      | None => mret tt
      end ;;
      when isNewSeries
        match first_value dicomSummary
                [DICOM_TAG_NUMBER_OF_SLICES; DICOM_TAG_IMAGES_IN_ACQUISITION;
                 DICOM_TAG_CARDIAC_NUMBER_OF_IMAGES] with
        | Some value =>
            SetMetadata series MetadataType_Series_ExpectedNumberOfInstances
                        value
        | None => mret tt
        end ;;
      seriesStatus ← GetSeriesStatus (to_int series);
      match seriesStatus with
      | SeriesStatus_Complete =>
          LogChange now ChangeType_CompletedSeries series ResourceType_Series
      | _ => mret tt
      end ;;
      mret (StoreStatus_Success, true)
  end.

Definition with_db (db : DatabaseWrapper) (index : ServerIndex) : ServerIndex :=
  {| db_ := db; listener_ := listener_ index |}.

(** [Store]: a transaction that is left without [Commit] is rolled back, by
    the early return as by the exception handler.  [now] is the reading of
    the clock. *)
Definition Store (now : string) (dicomSummary : DicomMap)
    (attachments : Attachments) (remoteAet : string) (index : ServerIndex)
    : StoreStatus * ServerIndex :=
  match Store_transaction now dicomSummary attachments remoteAet (db_ index) with
  | (Ok (status, true), db') => (status, with_db db' index)
  | (Ok (status, false), _) => (status, index)
  | (Throw _, _) => (StoreStatus_Failure, index)
  end.

(** The cascade of DatabaseWrapper::DeleteResource, as the database it leaves
    and the callbacks it makes on the listener, oldest first. *)
Variable db_DeleteResource : Z -> DatabaseWrapper -> DatabaseWrapper * list Signal.

Variable GetBasePath : ResourceType -> string -> string.
Variable ToString : ResourceType -> string.

(** The object stored under ["RemainingAncestor"]. *)
Record RemainingAncestorJson : Type := mkRemainingAncestor {
  Path : string;
  Type_ : string;
  ID : string
}.

(** What [DeleteResource] gives back: [false] with [target] untouched, or
    [true] with [target["RemainingAncestor"]] set to an object or to null. *)
Inductive DeleteOutcome : Type :=
| Delete_false
| Delete_true (RemainingAncestor : option RemainingAncestorJson).

Definition DeleteResource (uuid : string) (expectedType : ResourceType)
    (index : ServerIndex) : DeleteOutcome * ServerIndex :=
  let listener := Reset (listener_ index) in
  let found := (LookupResource uuid (db_ index)).1 in
  match found with
  | Ok (Some (id, type)) =>
      if decide (expectedType <> type)
      then (Delete_false, {| db_ := db_ index; listener_ := listener |})
      else
        let deleted := db_DeleteResource id (db_ index) in
        let listener := deliver_all listener deleted.2 in
        let target :=
          if HasRemainingLevel listener
          then
            let type := GetRemainingType listener in
            let uuid := GetRemainingPublicId listener in
            Some {| Path := GetBasePath type uuid;
                    Type_ := ToString type;
                    ID := uuid |}
          else None in
        (Delete_true target, {| db_ := deleted.1; listener_ := listener |})
  | _ => (Delete_false, {| db_ := db_ index; listener_ := listener |})
  end.

End Index.

End ServerIndex.

(** ** Modification and anonymization over REST *)

Module AnonymizeModify.

Import ServerIndex.

Definition DICOM_TAG_PATIENT_NAME : DicomTag := (0x0010, 0x0010).
Definition DICOM_TAG_PATIENT_ID : DicomTag := (0x0010, 0x0020).
Definition DICOM_TAG_STUDY_INSTANCE_UID : DicomTag := (0x0020, 0x000d).
Definition DICOM_TAG_SERIES_INSTANCE_UID : DicomTag := (0x0020, 0x000e).
Definition DICOM_TAG_SOP_INSTANCE_UID : DicomTag := (0x0008, 0x0018).

(** *** JSON values, as the handlers use them *)

#[local] Set Warnings "-register-all".
Inductive Json : Type :=
| Json_null
| Json_bool (b : bool)
| Json_number (z : Z)
| Json_string (s : string)
| Json_array (items : list Json)
| Json_object (members : list (string * Json)).

Definition isObject (j : Json) : bool :=
  match j with Json_object _ => true | _ => false end.

Definition isArray (j : Json) : bool :=
  match j with Json_array _ => true | _ => false end.

Fixpoint assoc (name : string) (members : list (string * Json)) : option Json :=
  match members with
  | [] => None
  | (k, v) :: rest => if bool_decide (k = name) then Some v else assoc name rest
  end.

Definition isMember (name : string) (j : Json) : bool :=
  match j with
  | Json_object members => bool_decide (is_Some (assoc name members))
  | _ => false
  end.

(** [j[name]]: the member, or null. *)
Definition member (name : string) (j : Json) : Json :=
  match j with
  | Json_object members => default Json_null (assoc name members)
  | _ => Json_null
  end.

Definition getMemberNames (j : Json) : list string :=
  match j with
  | Json_object members => map fst members
  | _ => []
  end.

Definition items (j : Json) : list Json :=
  match j with
  | Json_array l => l
  | _ => []
  end.

(** *** The configuration of a modification *)

(** Modelled from the spec: the class DicomModification is missing from the
    sources.  Its configuration is the one the spec lists: the replacements
    (tag to new value), the removals, the keeps, the private-tag switch, the
    level and the manual-identifier switch. *)
Record DicomModification : Type := mkDicomModification {
  replacements_ : gmap DicomTag string;
  removals_ : gset DicomTag;
  keeps_ : gset DicomTag;
  removePrivateTags_ : bool;
  level_ : ResourceType;
  allowManualIdentifiers_ : bool
}.

Abbreviation Modifier := (Stateful DicomModification).

Definition new_modification : DicomModification :=
  {| replacements_ := ∅; removals_ := ∅; keeps_ := ∅;
     removePrivateTags_ := false; level_ := ResourceType_Instance;
     allowManualIdentifiers_ := false |}.

Definition set_replacements (r : gmap DicomTag string) (t : DicomModification)
    : DicomModification :=
  {| replacements_ := r; removals_ := removals_ t; keeps_ := keeps_ t;
     removePrivateTags_ := removePrivateTags_ t; level_ := level_ t;
     allowManualIdentifiers_ := allowManualIdentifiers_ t |}.

(** Modelled from the spec: [keep(tag)] records the tag in the keeps. *)
Definition Keep (tag : DicomTag) : Modifier unit :=
  update (fun t =>
    {| replacements_ := replacements_ t; removals_ := removals_ t;
       keeps_ := {[ tag ]} ∪ keeps_ t;
       removePrivateTags_ := removePrivateTags_ t; level_ := level_ t;
       allowManualIdentifiers_ := allowManualIdentifiers_ t |}).

(** Modelled from the spec: [remove(tag)] records the tag in the removals. *)
Definition Remove (tag : DicomTag) : Modifier unit :=
  update (fun t =>
    {| replacements_ := replacements_ t; removals_ := {[ tag ]} ∪ removals_ t;
       keeps_ := keeps_ t;
       removePrivateTags_ := removePrivateTags_ t; level_ := level_ t;
       allowManualIdentifiers_ := allowManualIdentifiers_ t |}).

(** Modelled from the spec: the level that a tag identifies, for the four
    identifiers of the hierarchy. *)
Definition identifier_level (tag : DicomTag) : option ResourceType :=
  if decide (tag = DICOM_TAG_PATIENT_ID) then Some ResourceType_Patient
  else if decide (tag = DICOM_TAG_STUDY_INSTANCE_UID) then Some ResourceType_Study
  else if decide (tag = DICOM_TAG_SERIES_INSTANCE_UID) then Some ResourceType_Series
  else if decide (tag = DICOM_TAG_SOP_INSTANCE_UID) then Some ResourceType_Instance
  else None.

(** Modelled from the spec: [replace(tag, value, force)] maps the tag to the
    value; unless forced or manual identifiers are allowed, it rejects an
    identifier above the level of the modification. *)
Definition Replace (tag : DicomTag) (value : string) (force : bool)
    : Modifier unit :=
  t ← read (fun t => t);
  let above :=
    match identifier_level tag with
    | Some l => ResourceType_ltb l (level_ t)
    | None => false
    end in
  if negb force && negb (allowManualIdentifiers_ t) && above
  then throw ErrorCode_BadRequest
  else update (fun t => set_replacements (<[ tag := value ]> (replacements_ t)) t).

Definition SetRemovePrivateTags (b : bool) : Modifier unit :=
  update (fun t =>
    {| replacements_ := replacements_ t; removals_ := removals_ t;
       keeps_ := keeps_ t; removePrivateTags_ := b; level_ := level_ t;
       allowManualIdentifiers_ := allowManualIdentifiers_ t |}).

Definition IsReplaced (tag : DicomTag) : Modifier bool :=
  read (fun t => bool_decide (is_Some (replacements_ t !! tag))).

(** Modelled from the spec: the replacement of a tag, an error when the tag
    has none. *)
Definition GetReplacement (tag : DicomTag) : Modifier string :=
  t ← read (fun t => t);
  match replacements_ t !! tag with
  | Some value => mret value
  | None => throw ErrorCode_InexistentItem
  end.

(** Modelled from the spec: [setup_anonymization] populates the replacements
    with the default set, among which a new random patient name and a new
    random patient id, and switches the removal of private tags on. *)
Definition SetupAnonymization (defaults : gmap DicomTag string)
    (randomPatientName randomPatientID : string) : Modifier unit :=
  update (fun t =>
    {| replacements_ :=
         <[ DICOM_TAG_PATIENT_NAME := randomPatientName ]>
           (<[ DICOM_TAG_PATIENT_ID := randomPatientID ]>
              (defaults ∪ replacements_ t));
       removals_ := removals_ t; keeps_ := keeps_ t;
       removePrivateTags_ := true; level_ := level_ t;
       allowManualIdentifiers_ := allowManualIdentifiers_ t |}).

(** Modelled from the spec: [SetLevel] and [SetAllowManualIdentifiers] set
    the level and the manual-identifier switch of the configuration. *)
Definition SetLevel (level : ResourceType) : Modifier unit :=
  update (fun t =>
    {| replacements_ := replacements_ t; removals_ := removals_ t;
       keeps_ := keeps_ t; removePrivateTags_ := removePrivateTags_ t;
       level_ := level;
       allowManualIdentifiers_ := allowManualIdentifiers_ t |}).

Definition SetAllowManualIdentifiers (b : bool) : Modifier unit :=
  update (fun t =>
    {| replacements_ := replacements_ t; removals_ := removals_ t;
       keeps_ := keeps_ t; removePrivateTags_ := removePrivateTags_ t;
       level_ := level_ t; allowManualIdentifiers_ := b |}).

(** *** Parsing the requests *)

Inductive TagOperation : Set :=
| TagOperation_Keep
| TagOperation_Remove.

(** A handler works on its [DicomModification] and on the [ServerContext]. *)
Definition on_target {C A} (c : Modifier A) : Stateful (DicomModification * C) A :=
  fun s => let r := c s.1 in (r.1, (r.2, s.2)).

Definition on_context {C A} (c : Stateful C A) : Stateful (DicomModification * C) A :=
  fun s => let r := c s.2 in (r.1, (s.1, r.2)).

(** An expression that either has a value or throws. *)
Definition eval {S A} (r : Result A) : Stateful S A :=
  fun s => (r, s).

Inductive GlobalProperty : Set :=
| GlobalProperty_FlushSleep
| GlobalProperty_AnonymizationSequence.

(** The response that a handler leaves behind when it returns. *)
Inductive Response : Type :=
| NoAnswer
| AnswerJson (result : list (string * string)).

(** How the loop over the instances ends: by running off the list, with the
    values of [isFirst] and [result], or by the [return] in its body. *)
Inductive LoopExit : Type :=
| Loop_finished (isFirst : bool) (result : list (string * string))
| Loop_returned.

(** What [AnonymizeOrModifyResource] hands to the store: the modified file
    and the metadata added with [AddMetadata], in the order of the calls. *)
Record DicomInstanceToStore (File : Type) : Type := mkToStore {
  parsedDicomFile : File;
  metadata : list (ResourceType * MetadataType * string)
}.
Arguments mkToStore {File}.
Arguments parsedDicomFile {File}.
Arguments metadata {File}.

Section Handlers.

(** The collaborators of the handlers: the server context with its index,
    its DICOM cache and its store, the parsed files with their hasher, and
    the helpers on tags, JSON and paths. *)
Variable ServerContext : Type.
Variable ParsedDicomFile : Type.

Variable asString : Json -> Result string.
Variable ParseTag : string -> Result DicomTag.
Variable IncrementGlobalSequence : GlobalProperty -> Stateful ServerContext N.
Variable GetChildInstances : string -> Stateful ServerContext (list string).
Variable DicomCacheLocker : string -> Stateful ServerContext ParsedDicomFile.
Variable Context_Store
  : DicomInstanceToStore ParsedDicomFile ->
    Stateful ServerContext (StoreStatus * string).
Variable Apply : ParsedDicomFile -> Modifier ParsedDicomFile.
Variables HashPatient HashStudy HashSeries HashInstance
  : ParsedDicomFile -> string.
Variable EnumerationToString : ResourceType -> string.
Variable GetBasePath : ResourceType -> string -> string.

(** The draw of [SetupAnonymization]: its default replacements and its
    random patient name and id. *)
Variable defaults : gmap DicomTag string.
Variables randomPatientName randomPatientID : string.

Abbreviation Handler := (Stateful (DicomModification * ServerContext)).

Definition ParseListOfTags (query : Json) (operation : TagOperation)
    : Modifier unit :=
  if negb (isArray query)
  then throw ErrorCode_BadRequest
  else
    for_each (items query) (fun item =>
      name ← eval (asString item);
      tag ← eval (ParseTag name);
      match operation with
      | TagOperation_Keep => Keep tag
      | TagOperation_Remove => Remove tag
      end).

Definition ParseReplacements (replacements : Json) : Modifier unit :=
  if negb (isObject replacements)
  then throw ErrorCode_BadRequest
  else
    for_each (getMemberNames replacements) (fun name =>
      value ← eval (asString (member name replacements));
      tag ← eval (ParseTag name);
      Replace tag value false).

Definition GeneratePatientName : Stateful ServerContext string :=
  seq ← IncrementGlobalSequence GlobalProperty_AnonymizationSequence;
  mret ("Anonymized" +:+ decimal seq).

(** [request] is what [call.ParseJsonRequest] read from the body, if it is
    JSON. *)
Definition ParseAnonymizationRequest (request : option Json) : Handler bool :=
  on_target (SetupAnonymization defaults randomPatientName randomPatientID) ;;
  patientName ← on_target (GetReplacement DICOM_TAG_PATIENT_NAME);
  match request with
  | Some request =>
      if isObject request
      then
        when (isMember "KeepPrivateTags" request)
             (on_target (SetRemovePrivateTags false)) ;;
        when (isMember "Remove" request)
             (on_target (ParseListOfTags (member "Remove" request)
                                         TagOperation_Remove)) ;;
        when (isMember "Replace" request)
             (on_target (ParseReplacements (member "Replace" request))) ;;
        when (isMember "Keep" request)
             (on_target (ParseListOfTags (member "Keep" request)
                                         TagOperation_Keep)) ;;
        replaced ← on_target (IsReplaced DICOM_TAG_PATIENT_NAME);
        unchanged ←
          (if replaced : bool
           then current ← on_target (GetReplacement DICOM_TAG_PATIENT_NAME);
                mret (bool_decide (current = patientName))
           else mret false);
        when unchanged
             (name ← on_context GeneratePatientName;
              on_target (Replace DICOM_TAG_PATIENT_NAME name true)) ;;
        mret true
      else mret false
  | None => mret false
  end.

(** The identifier of a file at a level, as its hasher gives it. *)
Definition hash_at (level : ResourceType) (file : ParsedDicomFile) : string :=
  match level with
  | ResourceType_Patient => HashPatient file
  | ResourceType_Study => HashStudy file
  | ResourceType_Series => HashSeries file
  | ResourceType_Instance => HashInstance file
  end.

(** The metadata that the loop prepares for one instance, from the hashers
    of the original and of the modified file. *)
Definition prepare_metadata (metadataType : MetadataType)
    (it : string) (original modified : ParsedDicomFile)
    : list (ResourceType * MetadataType * string) :=
  let m := [] in
  let m := if decide (HashSeries original <> HashSeries modified)
           then m ++ [(ResourceType_Series, metadataType, HashSeries original)]
           else m in
  let m := if decide (HashStudy original <> HashStudy modified)
           then m ++ [(ResourceType_Study, metadataType, HashStudy original)]
           else m in
  let m := if decide (HashPatient original <> HashPatient modified)
           then m ++ [(ResourceType_Patient, metadataType, HashPatient original)]
           else m in
  m ++ [(ResourceType_Instance, metadataType, it)].

(** The JSON object that is answered, filled at the first stored instance. *)
Definition first_result (resourceType : ResourceType)
    (modified : ParsedDicomFile) : Result (list (string * string)) :=
  match
    match resourceType with
    | ResourceType_Series => Ok (HashSeries modified)
    | ResourceType_Study => Ok (HashStudy modified)
    | ResourceType_Patient => Ok (HashPatient modified)
    | ResourceType_Instance => Throw ErrorCode_InternalError
    end
  with
  | Ok newId =>
      Ok [ ("Type", EnumerationToString resourceType);
           ("ID", newId);
           ("Path", GetBasePath resourceType newId);
           ("PatientID", HashPatient modified) ]
  | Throw e => Throw e
  end.

(** The loop of [AnonymizeOrModifyResource] over the instances that are
    left. *)
Fixpoint instances_loop (metadataType : MetadataType)
    (resourceType : ResourceType) (instances : list string)
    (isFirst : bool) (result : list (string * string)) : Handler LoopExit :=
  match instances with
  | [] => mret (Loop_finished isFirst result)
  | it :: rest =>
      fun s =>
        match on_context (DicomCacheLocker it) s with
        | (Throw _, s') =>
            instances_loop metadataType resourceType rest isFirst result s'
        | (Ok original, s') =>
            (modified ← on_target (Apply original);
             let toStore :=
               {| parsedDicomFile := modified;
                  metadata := prepare_metadata metadataType it original modified |} in
             stored ← on_context (Context_Store toStore);
             if decide (stored.1 <> StoreStatus_Success)
             then mret Loop_returned
             else
               if isFirst
               then
                 first ← eval (first_result resourceType modified);
                 instances_loop metadataType resourceType rest false first
               else
                 instances_loop metadataType resourceType rest isFirst result) s'
        end
  end.

(** Every lock on [instances] fails, which takes the [continue] of the loop
    each time: the context goes from [c] to [c'] through the failed locks
    alone. *)
Fixpoint locks_fail (instances : list string) (c c' : ServerContext) : Prop :=
  match instances with
  | [] => c' = c
  | it :: rest =>
      exists e c1,
        DicomCacheLocker it c = (Throw e, c1) /\ locks_fail rest c1 c'
  end.

Definition AnonymizeOrModifyResource (metadataType : MetadataType)
    (resourceType : ResourceType) (id : string) : Handler Response :=
  instances ← on_context (GetChildInstances id);
  match instances with
  | [] => mret NoAnswer
  | _ =>
      exit ← instances_loop metadataType resourceType instances true [];
      match exit with
      | Loop_finished _ result => mret (AnswerJson result)
      | Loop_returned => mret NoAnswer
      end
  end.

(** [OrthancRestApi::ParseModifyRequest], on a JSON value. *)
Definition ParseModifyRequest (request : Json) : Modifier bool :=
  if isObject request
  then
    when (isMember "RemovePrivateTags" request) (SetRemovePrivateTags true) ;;
    when (isMember "Remove" request)
         (ParseListOfTags (member "Remove" request) TagOperation_Remove) ;;
    when (isMember "Replace" request)
         (ParseReplacements (member "Replace" request)) ;;
    mret true
  else mret false.

(** The static [ParseModifyRequest], on the body of a call: [request] is
    what [call.ParseJsonRequest] read, if the body is JSON. *)
Definition ParseModifyRequest_call (request : option Json) : Modifier bool :=
  match request with
  | Some request => ParseModifyRequest request
  | None => mret false
  end.

(** [AnonymizeOrModifyInstance]: the value is the file that is answered. *)
Definition AnonymizeOrModifyInstance (id : string) : Handler ParsedDicomFile :=
  original ← on_context (DicomCacheLocker id);
  modified ← on_target (Apply original);
  mret modified.

(** The handlers below declare their [DicomModification] themselves: they
    run on the configuration that its constructor built.  The value of an
    instance handler is the file that it answers, if it answers. *)
Definition ModifyInstance (request : option Json) (id : string)
    : Handler (option ParsedDicomFile) :=
  on_target (SetAllowManualIdentifiers true) ;;
  parsed ← on_target (ParseModifyRequest_call request);
  if parsed : bool
  then
    (patient ← on_target (IsReplaced DICOM_TAG_PATIENT_ID);
     if patient : bool
     then on_target (SetLevel ResourceType_Patient)
     else
       study ← on_target (IsReplaced DICOM_TAG_STUDY_INSTANCE_UID);
       if study : bool
       then on_target (SetLevel ResourceType_Study)
       else
         series ← on_target (IsReplaced DICOM_TAG_SERIES_INSTANCE_UID);
         if series : bool
         then on_target (SetLevel ResourceType_Series)
         else on_target (SetLevel ResourceType_Instance)) ;;
    modified ← AnonymizeOrModifyInstance id;
    mret (Some modified)
  else mret None.

Definition AnonymizeInstance (request : option Json) (id : string)
    : Handler (option ParsedDicomFile) :=
  on_target (SetAllowManualIdentifiers true) ;;
  parsed ← ParseAnonymizationRequest request;
  if parsed : bool
  then
    modified ← AnonymizeOrModifyInstance id;
    mret (Some modified)
  else mret None.

Definition ModifyResource (resourceType : ResourceType)
    (request : option Json) (id : string) : Handler Response :=
  parsed ← on_target (ParseModifyRequest_call request);
  if parsed : bool
  then
    on_target (SetLevel resourceType) ;;
    AnonymizeOrModifyResource MetadataType_ModifiedFrom resourceType id
  else mret NoAnswer.

Definition AnonymizeResource (resourceType : ResourceType)
    (request : option Json) (id : string) : Handler Response :=
  parsed ← ParseAnonymizationRequest request;
  if parsed : bool
  then AnonymizeOrModifyResource MetadataType_AnonymizedFrom resourceType id
  else mret NoAnswer.

End Handlers.

End AnonymizeModify.

(** ** Concrete collaborators, for running the definitions *)

Module Samples.

Import ServerIndex AnonymizeModify.

(** The reason phrases of two statuses. *)
Definition reason_phrase (status : HttpOutput.HttpStatus) : string :=
  if status =? 200 then "OK" else "Not Found".

(** Decimal reading of a [size_t], in the manner of
    [boost::lexical_cast<size_t>]: an optional sign, then digits only, no
    value above [2^64 - 1]; a minus sign negates modulo [2^64]. *)
Definition digit_value (c : ascii) : option N :=
  let n := N_of_ascii c in
  if (48 <=? n) && (n <=? 57) then Some (n - 48) else None.

Fixpoint digits_value (s : string) (acc : N) : option N :=
  match s with
  | EmptyString => Some acc
  | String c rest =>
      match digit_value c with
      | Some d => digits_value rest (10 * acc + d)
      | None => None
      end
  end.

Definition unsigned_value (s : string) : option N :=
  match s with
  | EmptyString => None
  | _ =>
      match digits_value s 0 with
      | Some v => if v <? uint64_modulus then Some v else None
      | None => None
      end
  end.

Definition lexical_cast_size_t (s : string) : option N :=
  match s with
  | String "-" rest =>
      match unsigned_value rest with
      | Some v => Some ((uint64_modulus - v) mod uint64_modulus)
      | None => None
      end
  | String "+" rest => unsigned_value rest
  | _ => unsigned_value s
  end.

(** A hasher that joins the identifying tags. *)
Definition PatientID : DicomTag := DICOM_TAG_PATIENT_ID.
Definition StudyInstanceUID : DicomTag := DICOM_TAG_STUDY_INSTANCE_UID.
Definition SeriesInstanceUID : DicomTag := DICOM_TAG_SERIES_INSTANCE_UID.
Definition SOPInstanceUID : DicomTag := DICOM_TAG_SOP_INSTANCE_UID.

Definition join (tags : list DicomTag) (m : DicomMap) : string :=
  fold_left (fun acc t => acc +:+ "/" +:+ default "?" (m !! t)) tags EmptyString.

Definition Store_sample :=
  Store lexical_cast_size_t
    (join [PatientID])
    (join [PatientID; StudyInstanceUID])
    (join [PatientID; StudyInstanceUID; SeriesInstanceUID])
    (join [PatientID; StudyInstanceUID; SeriesInstanceUID; SOPInstanceUID])
    (fun m => m) (fun m => m) (fun m => m) (fun m => m).

(** The instance of scenario S1. *)
Definition instance_S1 : DicomMap :=
  {[ PatientID := "P1"; StudyInstanceUID := "S1"; SeriesInstanceUID := "Se1";
     SOPInstanceUID := "I1"; DICOM_TAG_INSTANCE_NUMBER := "1";
     DICOM_TAG_NUMBER_OF_SLICES := "1" ]}.

Definition empty_index : ServerIndex :=
  {| db_ := empty_database; listener_ := new_listener |}.

(** A series that expects two instances and has two children: the first
    with index 0, the second without index. *)
Definition odd_series : DatabaseWrapper :=
  {| Resources :=
       [ {| internalId := 1; resourceType := ResourceType_Series;
            publicId := "series"; parentId := None |};
         {| internalId := 2; resourceType := ResourceType_Instance;
            publicId := "first"; parentId := Some 1%Z |};
         {| internalId := 3; resourceType := ResourceType_Instance;
            publicId := "second"; parentId := Some 1%Z |} ];
     lastResourceId := 3;
     MainDicomTags := ∅;
     Metadata :=
       {[ (1%Z, MetadataType_Series_ExpectedNumberOfInstances) := "2";
          (2%Z, MetadataType_Instance_IndexInSeries) := "0" ]};
     AttachedFiles := [];
     Changes := [] |}.

(** A cascade that removes one file and reports first the series, then the
    study and the patient as remaining. *)
Definition cascade (id : Z) (db : DatabaseWrapper)
    : DatabaseWrapper * list Signal :=
  (db, [ FileDeleted "6ba7b810-9dad-11d1-80b4-00c04fd430c8";
         RemainingAncestor ResourceType_Series "series";
         RemainingAncestor ResourceType_Patient "patient";
         RemainingAncestor ResourceType_Study "study" ]).

Definition base_path (t : ResourceType) (p : string) : string :=
  "/" +:+ p.

Definition kind_name (t : ResourceType) : string :=
  match t with
  | ResourceType_Patient => "Patient"
  | ResourceType_Study => "Study"
  | ResourceType_Series => "Series"
  | ResourceType_Instance => "Instance"
  end.

(** A server context: the anonymization sequence, the instances in the DICOM
    cache and the instances handed to the store.  A parsed file is the list
    of its four identifiers, patient first. *)
Record Context : Type := mkContext {
  sequence : N;
  cached : list (string * list string);
  stored : list (DicomInstanceToStore (list string))
}.

Definition increment (key : GlobalProperty) : Stateful Context N :=
  fun c => (Ok (sequence c + 1),
            {| sequence := sequence c + 1; cached := cached c;
               stored := stored c |}).

Definition children (id : string) : Stateful Context (list string) :=
  read (fun c => if bool_decide (id = "empty") then []
                 else ["gone"; "a"; "b"]).

Definition lock (it : string) : Stateful Context (list string) :=
  fun c => match list_find (fun e => e.1 = it) (cached c) with
           | Some found => (Ok found.2.2, c)
           | None => (Throw ErrorCode_InexistentItem, c)
           end.

(** The store refuses the files of patient "refused". *)
Definition store_file (toStore : DicomInstanceToStore (list string))
    : Stateful Context (StoreStatus * string) :=
  fun c =>
    let status :=
      if bool_decide (head (parsedDicomFile toStore) = Some "refused")
      then StoreStatus_Failure else StoreStatus_Success in
    (Ok (status, default EmptyString (last (parsedDicomFile toStore))),
     {| sequence := sequence c; cached := cached c;
        stored := stored c ++ [toStore] |}).

Definition identifier (n : nat) (file : list string) : string :=
  default EmptyString (file !! n).

(** A modification that gives every file a new series. *)
Definition new_series (file : list string) : Modifier (list string) :=
  mret (<[ 2%nat := "new-series" ]> file).

(** A modification that moves every file to the patient "refused". *)
Definition to_refused (file : list string) : Modifier (list string) :=
  mret (<[ 0%nat := "refused" ]> file).

Definition context0 : Context :=
  {| sequence := 6;
     cached := [ ("a", ["P"; "St"; "Se"; "a"]); ("b", ["P"; "St"; "Se"; "b"]) ];
     stored := [] |}.

Definition text_of (j : Json) : Result string :=
  match j with
  | Json_string s => Ok s
  | _ => Throw ErrorCode_BadRequest
  end.

Definition tag_of (name : string) : Result DicomTag :=
  if bool_decide (name = "PatientName") then Ok DICOM_TAG_PATIENT_NAME
  else if bool_decide (name = "PatientID") then Ok DICOM_TAG_PATIENT_ID
  else Throw ErrorCode_BadRequest.

(** The parser of anonymization requests, with a setup that draws the
    given random patient name. *)
Definition parse (randomPatientName : string) (request : Json)
    : Result bool * (DicomModification * Context) :=
  ParseAnonymizationRequest Context text_of tag_of increment ∅
    randomPatientName "random-id" (Some request) (new_modification, context0).

Definition loop_sample (apply : list string -> Modifier (list string)) :=
  instances_loop Context (list string) lock store_file apply
    (identifier 0) (fun f => identifier 0 f +:+ "/" +:+ identifier 1 f)
    (fun f => identifier 0 f +:+ "/" +:+ identifier 1 f +:+ "/" +:+ identifier 2 f)
    kind_name base_path.

Definition handler_sample (apply : list string -> Modifier (list string)) :=
  AnonymizeOrModifyResource Context (list string) children lock store_file apply
    (identifier 0) (fun f => identifier 0 f +:+ "/" +:+ identifier 1 f)
    (fun f => identifier 0 f +:+ "/" +:+ identifier 1 f +:+ "/" +:+ identifier 2 f)
    kind_name base_path.

End Samples.

(** * Properties *)

(** ** Rules for methods that return *)

Section Returns.

Context {S : Type}.

Lemma returns_ret {A} (a : A) (pre : S -> Prop) (post : A -> S -> Prop) :
  (forall s, pre s -> post a s) -> returns (mret a) pre post.
Proof. intros H s Hs. exists a, s. split; [ reflexivity | by apply H ]. Qed.

Lemma returns_bind {A B} (c : Stateful S A) (k : A -> Stateful S B)
    (pre : S -> Prop) (mid : A -> S -> Prop) (post : B -> S -> Prop) :
  returns c pre mid ->
  (forall a, returns (k a) (mid a) post) ->
  returns (c ≫= k) pre post.
Proof.
  intros Hc Hk s Hs. destruct (Hc s Hs) as (a & s' & Hrun & Hmid).
  destruct (Hk a s' Hmid) as (b & s'' & Hrun' & Hpost).
  exists b, s''. split; [| exact Hpost ].
  unfold mbind, Stateful_bind, bind. by rewrite Hrun.
Qed.

Lemma returns_update (f : S -> S) (pre : S -> Prop) (post : unit -> S -> Prop) :
  (forall s, pre s -> post tt (f s)) -> returns (update f) pre post.
Proof. intros H s Hs. exists tt, (f s). split; [ reflexivity | by apply H ]. Qed.

Lemma returns_read {A} (f : S -> A) (pre : S -> Prop) (post : A -> S -> Prop) :
  (forall s, pre s -> post (f s) s) -> returns (read f) pre post.
Proof. intros H s Hs. exists (f s), s. split; [ reflexivity | by apply H ]. Qed.

Lemma returns_when (b : bool) (c : Stateful S unit) (inv : S -> Prop) :
  returns c inv (fun _ => inv) -> returns (when b c) inv (fun _ => inv).
Proof.
  intros Hc. destruct b; [ exact Hc |].
  intros s Hs. exists tt, s. by split.
Qed.

Lemma returns_for_each {A} (l : list A) (f : A -> Stateful S unit)
    (inv : S -> Prop) :
  (forall x, returns (f x) inv (fun _ => inv)) ->
  returns (for_each l f) inv (fun _ => inv).
Proof.
  intros Hf. induction l as [| x l IH]; cbn [for_each].
  - intros s Hs. exists tt, s. by split.
  - eapply returns_bind; [ apply Hf | intros ?; exact IH ].
Qed.

End Returns.

(** ** Inversion of methods that returned *)

Section Inversion.

Context {S : Type}.

Lemma bind_Ok {A B} (c : Stateful S A) (k : A -> Stateful S B)
    (s s'' : S) (b : B) :
  (c ≫= k) s = (Ok b, s'') ->
  exists a s', c s = (Ok a, s') /\ k a s' = (Ok b, s'').
Proof.
  unfold mbind, Stateful_bind, bind.
  destruct (c s) as [[a | e] s']; [ eauto | discriminate ].
Qed.

Lemma for_each_app {A} (l1 l2 : list A) (f : A -> Stateful S unit) (s : S) :
  for_each (l1 ++ l2) f s = (for_each l1 f ;; for_each l2 f) s.
Proof.
  revert s. induction l1 as [| x l1 IH]; intros s; cbn [app for_each].
  - reflexivity.
  - unfold mbind, Stateful_bind, bind in *.
    destruct (f x s) as [[[] | e] s']; [ apply IH | reflexivity ].
Qed.

(** What every successful call of the body keeps, the successful loop
    keeps. *)
Lemma for_each_keeps {A} (l : list A) (f : A -> Stateful S unit)
    (inv : S -> Prop) (s s' : S) (u : unit) :
  (forall x s s', x ∈ l -> f x s = (Ok tt, s') -> inv s -> inv s') ->
  for_each l f s = (Ok u, s') -> inv s -> inv s'.
Proof.
  revert s. induction l as [| x l IH]; intros s Hf Hrun Hs; cbn [for_each] in Hrun.
  - by injection Hrun as _ <-.
  - apply bind_Ok in Hrun as ([] & s1 & Hx & Hrest).
    apply (IH s1); [| exact Hrest |].
    + intros y t t' Hy. apply Hf. apply elem_of_cons. by right.
    + apply (Hf x s s1); [ apply elem_of_cons; by left | exact Hx | exact Hs ].
Qed.

End Inversion.

(** ** The HTTP response state machine *)

Section HttpOutputProperties.

Import HttpOutput.

Variable EnumerationToString : HttpStatus -> string.

#[local] Ltac run :=
  unfold SendBody, flush_header, SetHttpStatus, SetContentLength, AddHeader,
    SetCookie, ClearHeaders, require_WritingHeader, when, mbind, mret,
    Stateful_bind, Stateful_ret, bind, ret, throw, update, read;
  cbn.

#[local] Ltac known :=
  repeat match goal with
         | H : ?c = true |- context [?c] => rewrite H
         | H : ?c = false |- context [?c] => rewrite H
         end.

#[local] Ltac branches :=
  cbn;
  repeat (first
            [ progress known
            | case_decide; try congruence
            | case_bool_decide; try congruence
            | match goal with
              | |- context [if negb ?b then _ else _] => destruct b eqn:?
              | |- context [if ?a && _ then _ else _] => destruct a eqn:?
              | |- context [if ?a || _ then _ else _] => destruct a eqn:?
              | |- context [if ?b then _ else _] => destruct b eqn:?
              end ];
          cbn in *).

Lemma require_WritingHeader_run (m : StateMachine) :
  require_WritingHeader m =
  (match state_ m with
   | State_WritingHeader => Ok tt
   | _ => Throw ErrorCode_BadSequenceOfCalls
   end, m).
Proof. run. destruct (state_ m); branches; reflexivity. Qed.

(** [SendBody] never leaves the machine in [State_WritingHeader], whether it
    returns or throws. *)
Lemma SendBody_leaves_header (buffer : string) (length : N) (m : StateMachine) :
  state_ (SendBody EnumerationToString buffer length m).2 <> State_WritingHeader.
Proof.
  destruct m as [str st status has cl pos ka hs].
  destruct st; run; branches; cbn; congruence.
Qed.

(** C4. Each of the header-phase operations [SetHttpStatus],
    [SetContentLength], [AddHeader], [ClearHeaders] and [SetCookie] returns
    normally when the machine is in [State_WritingHeader] and throws
    [ErrorCode_BadSequenceOfCalls], leaving the machine as it was, in the two
    other states; and [AddHeader] throws it after any [SendBody]. *)
Theorem header_phase_operations (m : StateMachine) :
  let outcome : Result unit :=
    match state_ m with
    | State_WritingHeader => Ok tt
    | _ => Throw ErrorCode_BadSequenceOfCalls
    end in
  let guarded (op : Method unit) : Prop :=
    (op m).1 = outcome /\ (state_ m <> State_WritingHeader -> (op m).2 = m) in
  (forall status, guarded (SetHttpStatus status)) /\
  (forall length, guarded (SetContentLength length)) /\
  (forall header value, guarded (AddHeader header value)) /\
  guarded ClearHeaders /\
  (forall cookie value, guarded (SetCookie cookie value)) /\
  (forall buffer length header value,
     (AddHeader header value
        (SendBody EnumerationToString buffer length m).2).1
     = Throw ErrorCode_BadSequenceOfCalls).
Proof.
  cbn zeta.
  repeat split;
    [ intros; destruct m as [str st status' has cl pos ka hs];
      destruct st; cbn in *; run; branches;
      first [ reflexivity | congruence ] .. | ].
  intros buffer length header value.
  pose proof (SendBody_leaves_header buffer length m) as Hne.
  unfold AddHeader, mbind, Stateful_bind, bind.
  rewrite require_WritingHeader_run.
  destruct (state_ (SendBody EnumerationToString buffer length m).2);
    [ congruence | reflexivity | reflexivity ].
Qed.

(** C6. On the first [SendBody] (machine in [State_WritingHeader]) the
    stream receives the status, then one header block that ends with the
    Content-Length line; the value on that line is the declared length when
    one was set and the status is 200, and the length of this first chunk
    otherwise.  With another status the declared length is dropped.  Nothing
    but body chunks follows the header block. *)
Theorem first_SendBody_content_length
    (m : StateMachine) (buffer : string) (length : N) :
  state_ m = State_WritingHeader ->
  let value :=
    if hasContentLength_ m && (status_ m =? HttpStatus_200_Ok)
    then contentLength_ m
    else length in
  let text :=
    header_prefix EnumerationToString m +:+ "Content-Length: "
    +:+ decimal value +:+ CRLF +:+ CRLF in
  let m' := (SendBody EnumerationToString buffer length m).2 in
  (exists body,
     stream_ m' =
       stream_ m ++
       [OnHttpStatusReceived (status_ m);
        Send true text (N.of_nat (String.length text))] ++ body /\
     Forall (fun e => e = Send false buffer length) body) /\
  (status_ m <> HttpStatus_200_Ok -> hasContentLength_ m' = false).
Proof.
  intros Hst. destruct m as [str st status has cl pos ka hs].
  cbn in Hst. subst st. cbn zeta.
  run. unfold header_text, header_prefix.
  destruct (status =? HttpStatus_200_Ok) eqn:Hs, has;
    cbn [andb hasContentLength_ contentLength_ status_ stream_];
    (split; [| try (apply N.eqb_eq in Hs; congruence) ]);
    branches; rewrite <- ?app_assoc; cbn;
    try reflexivity;
    eexists; (split; [ reflexivity | repeat constructor ]).
Qed.

(** An overrun is refused wherever the unsigned 64-bit sum
    [contentPosition_ + length] of the check is the exact sum. *)
Lemma SendBody_refuses_exact_overrun
    (m : StateMachine) (buffer : string) (length : N) :
  state_ m <> State_Done ->
  hasContentLength_ m = true ->
  status_ m = HttpStatus_200_Ok ->
  contentPosition_ m + length < uint64_modulus ->
  contentLength_ m < contentPosition_ m + length ->
  (SendBody EnumerationToString buffer length m).1
  = Throw ErrorCode_BadSequenceOfCalls.
Proof.
  destruct m as [str st status has cl pos ka hs]. cbn.
  intros Hst Hhas Hstatus Hwrap Hover. subst has status.
  assert (Hlt : (cl <? add64 pos length) = true).
  { unfold add64. rewrite N.mod_small by exact Hwrap.
    apply N.ltb_lt. exact Hover. }
  destruct st; [ | | congruence ]; run; branches;
    first [ reflexivity | congruence ].
Qed.

(** C5. With a declared content length and status 200, a [SendBody] whose
    bytes bring the body written so far above the declared length throws
    [ErrorCode_BadSequenceOfCalls]; this for every chunk that is a buffer
    in memory and every body written so far, both of fewer than 2^63
    bytes.  And a [SendBody] of a non-empty chunk on a machine in
    [State_Done] throws it and leaves the machine as it was. *)
Theorem SendBody_rejects_overrun
    (m : StateMachine) (buffer : string) (length : N) :
  (state_ m <> State_Done ->
   hasContentLength_ m = true ->
   status_ m = HttpStatus_200_Ok ->
   length < 2 ^ 63 ->
   contentPosition_ m < 2 ^ 63 ->
   contentLength_ m < contentPosition_ m + length ->
   (SendBody EnumerationToString buffer length m).1
   = Throw ErrorCode_BadSequenceOfCalls) /\
  (state_ m = State_Done ->
   length <> 0 ->
   SendBody EnumerationToString buffer length m
   = (Throw ErrorCode_BadSequenceOfCalls, m)).
Proof.
  split.
  - intros Hst Hhas Hstatus Hlength Hpos Hover.
    apply SendBody_refuses_exact_overrun; try assumption.
    change uint64_modulus with (2 ^ 63 + 2 ^ 63). lia.
  - destruct m as [str st status has cl pos ka hs]. cbn.
    intros -> Hlen. run.
    apply N.eqb_neq in Hlen. branches; first [ reflexivity | congruence ].
Qed.

End HttpOutputProperties.

(** ** The listener and [DeleteResource] *)

Section ListenerProperties.

Import ServerIndex.

(** What the listener holds after a stream of callbacks: it has a remaining
    level exactly when it had one before or a remaining ancestor was
    signalled; the record it holds is the one it held or a signalled one,
    and no signalled record, nor the one it held, has a smaller kind. *)
Lemma deliver_all_minimum (signals : list Signal) (l : ServerIndexListener) :
  let l' := deliver_all l signals in
  let held := (remainingType_ l', remainingPublicId_ l') in
  hasRemainingLevel_ l'
  = hasRemainingLevel_ l
    || bool_decide (remaining_ancestors signals <> []) /\
  (hasRemainingLevel_ l' = true ->
   (hasRemainingLevel_ l = true /\
    held = (remainingType_ l, remainingPublicId_ l) \/
    held ∈ remaining_ancestors signals) /\
   (hasRemainingLevel_ l = true ->
    level_rank held.1 <= level_rank (remainingType_ l)) /\
   (forall a, a ∈ remaining_ancestors signals ->
              level_rank held.1 <= level_rank a.1)).
Proof.
  revert l. induction signals as [| s signals IH]; intros l; cbn zeta.
  - cbn. split; [ by rewrite orb_false_r |].
    intros Hl. split; [ by left |]. split; [ lia |].
    intros a Ha. by apply elem_of_nil in Ha.
  - unfold deliver_all in *. cbn [fold_left].
    specialize (IH (deliver l s)). cbn zeta in IH.
    destruct IH as [IHhas IHheld].
    destruct s as [t p | u].
    + (* a remaining ancestor is signalled *)
      change (remaining_ancestors (RemainingAncestor t p :: signals))
        with ((t, p) :: remaining_ancestors signals).
      set (l1 := deliver l (RemainingAncestor t p)) in *.
      assert (Hstep :
        hasRemainingLevel_ l1 = true /\
        ((remainingType_ l1 = t /\ remainingPublicId_ l1 = p /\
          (hasRemainingLevel_ l = true ->
           level_rank t <= level_rank (remainingType_ l))) \/
         (hasRemainingLevel_ l = true /\ l1 = l /\
          level_rank (remainingType_ l) <= level_rank t))).
      { unfold l1. cbn. unfold SignalRemainingAncestor, ResourceType_ltb.
        destruct (hasRemainingLevel_ l) eqn:Hl.
        - destruct (level_rank t <? level_rank (remainingType_ l)) eqn:Hlt.
          + apply N.ltb_lt in Hlt. cbn. split; [ done |]. left.
            split; [ done | split; [ done | intros _; lia ] ].
          + apply N.ltb_ge in Hlt. rewrite Hl. split; [ done |]. by right.
        - cbn. split; [ done |]. left.
          split; [ done | split; [ done | discriminate ] ]. }
      clearbody l1.
      destruct Hstep as [Hnow Hcases].
      rewrite Hnow in IHhas. cbn [orb] in IHhas.
      split.
      { rewrite IHhas. rewrite bool_decide_eq_true_2 by discriminate.
        by rewrite orb_true_r. }
      intros Hl'. specialize (IHheld Hl').
      destruct IHheld as [Horigin [Hle Hmin]]. specialize (Hle Hnow).
      destruct Hcases as [[Ht [Hp Hbefore]] | [Hl [Hsame Hrank]]].
      * rewrite Ht in Hle.
        split; [| split ].
        -- right. destruct Horigin as [[_ Heq] | Hin].
           ++ rewrite Heq, Ht, Hp. apply elem_of_cons. by left.
           ++ apply elem_of_cons. by right.
        -- intros Hl. specialize (Hbefore Hl). cbn in *. lia.
        -- intros a Ha. apply elem_of_cons in Ha as [-> | Ha]; cbn in *;
             [ lia |].
           by apply Hmin.
      * subst l1.
        split; [| split ].
        -- destruct Horigin as [[_ Heq] | Hin].
           ++ left. by split.
           ++ right. apply elem_of_cons. by right.
        -- intros _. exact Hle.
        -- intros a Ha. apply elem_of_cons in Ha as [-> | Ha]; cbn in *;
             [ lia |].
           by apply Hmin.
    + (* a deleted file is signalled: the record is untouched *)
      change (remaining_ancestors (FileDeleted u :: signals))
        with (remaining_ancestors signals).
      cbn in IHhas, IHheld. split; [ exact IHhas |].
      intros Hl'. specialize (IHheld Hl'). exact IHheld.
Qed.

Variable db_DeleteResource : Z -> DatabaseWrapper -> DatabaseWrapper * list Signal.
Variable GetBasePath : ResourceType -> string -> string.
Variable ToString : ResourceType -> string.

(** C3. When [DeleteResource] finds the resource with the expected kind, it
    returns true, and with the [SignalRemainingAncestor] callbacks that the
    cascade made: ["RemainingAncestor"] is null exactly when there was no
    such callback, and otherwise it describes one of the signalled records,
    whose kind is minimal among all of them for Patient < Study < Series <
    Instance. *)
Theorem DeleteResource_remaining_ancestor
    (uuid : string) (expectedType : ResourceType) (index : ServerIndex)
    (id : Z) :
  (LookupResource uuid (db_ index)).1 = Ok (Some (id, expectedType)) ->
  let callbacks :=
    remaining_ancestors (db_DeleteResource id (db_ index)).2 in
  exists target,
    (DeleteResource db_DeleteResource GetBasePath ToString
                    uuid expectedType index).1 = Delete_true target /\
    (target = None <-> callbacks = []) /\
    (forall r, target = Some r ->
       exists t p,
         r = {| Path := GetBasePath t p; Type_ := ToString t; ID := p |} /\
         (t, p) ∈ callbacks /\
         (forall t' p', (t', p') ∈ callbacks -> level_rank t <= level_rank t')).
Proof.
  intros Hfound callbacks. unfold DeleteResource. rewrite Hfound.
  destruct (decide (expectedType <> expectedType)) as [Hne | _]; [ done |].
  cbn [fst snd].
  pose proof (deliver_all_minimum (db_DeleteResource id (db_ index)).2
                (Reset (listener_ index))) as [Hhas Hheld].
  cbn zeta in Hhas, Hheld. fold callbacks in Hhas, Hheld.
  change (hasRemainingLevel_ (Reset (listener_ index))) with false in *.
  cbn [orb] in Hhas.
  unfold HasRemainingLevel, GetRemainingType, GetRemainingPublicId.
  destruct (hasRemainingLevel_ (deliver_all (Reset (listener_ index))
              (db_DeleteResource id (db_ index)).2)) eqn:Hl.
  - eexists. split; [ reflexivity |].
    symmetry in Hhas. apply bool_decide_eq_true in Hhas.
    split; [ split; [ discriminate | done ] |].
    intros r [= <-].
    destruct (Hheld eq_refl) as [Horigin [_ Hmin]].
    eexists _, _. split; [ reflexivity |].
    split.
    + destruct Horigin as [[Habs _] | Hin]; [ discriminate | exact Hin ].
    + intros t' p' Hin. exact (Hmin (t', p') Hin).
  - eexists. split; [ reflexivity |].
    symmetry in Hhas. apply bool_decide_eq_false in Hhas.
    split; [| discriminate ].
    split; [ intros _ | done ].
    destruct callbacks; [ done | exfalso; apply Hhas; discriminate ].
Qed.

End ListenerProperties.

(** ** The status of a series *)

Section SeriesStatusProperties.

Import ServerIndex.

Variable lexical_cast_size_t : string -> option N.

Abbreviation loop := (GetSeriesStatus_loop lexical_cast_size_t).
Abbreviation index_of := (child_index lexical_cast_size_t).
Abbreviation indexed := (well_indexed lexical_cast_size_t).

Lemma GetSeriesStatus_loop_nil (db : DatabaseWrapper) (expected : N)
    (instances : gset N) :
  loop expected [] instances db =
  (Ok (if N.of_nat (size instances) =? expected
       then SeriesStatus_Complete else SeriesStatus_Missing), db).
Proof. cbn. by destruct (N.of_nat (size instances) =? expected). Qed.

Lemma GetSeriesStatus_loop_cons (db : DatabaseWrapper) (expected : N)
    (it : Z) (rest : list Z) (instances : gset N) :
  loop expected (it :: rest) instances db =
  match index_of db it with
  | None => (Ok SeriesStatus_Unknown, db)
  | Some index =>
      if (index <=? 0) || (expected <? index)
      then (Ok SeriesStatus_Inconsistent, db)
      else if bool_decide (index ∈ instances)
      then (Ok SeriesStatus_Inconsistent, db)
      else loop expected rest ({[ index ]} ∪ instances) db
  end.
Proof.
  cbn [GetSeriesStatus_loop].
  unfold mbind, Stateful_bind, bind, GetMetadata, read, child_index. cbn.
  destruct (lexical_cast_size_t _) as [index |]; [| reflexivity ].
  destruct ((index <=? 0) || (expected <? index)); [ reflexivity |].
  by destruct (bool_decide (index ∈ instances)).
Qed.

(** The loop only reads the database, and always returns. *)
Lemma GetSeriesStatus_loop_reads (db : DatabaseWrapper) (expected : N)
    (children : list Z) (instances : gset N) :
  exists status, loop expected children instances db = (Ok status, db).
Proof.
  revert instances. induction children as [| it rest IH]; intros instances.
  - rewrite GetSeriesStatus_loop_nil. eauto.
  - rewrite GetSeriesStatus_loop_cons.
    destruct (index_of db it) as [index |]; [| eauto ].
    destruct ((index <=? 0) || (expected <? index)); [ eauto |].
    destruct (bool_decide (index ∈ instances)); eauto.
Qed.

(** Over a well-indexed prefix whose indices are new, the loop only
    collects the indices. *)
Lemma GetSeriesStatus_loop_prefix (db : DatabaseWrapper) (expected : N)
    (pre rest : list Z) (indices : list N) (instances : gset N) :
  indexed db expected pre indices ->
  (forall i, i ∈ indices -> i ∉ instances) ->
  loop expected (pre ++ rest) instances db =
  loop expected rest (list_to_set indices ∪ instances) db.
Proof.
  revert indices instances.
  induction pre as [| it pre IH]; intros indices instances [Hmap [Hrange Hdup]] Hnew.
  - destruct indices; [| discriminate ].
    cbn. by rewrite (left_id_L ∅ (∪)).
  - destruct indices as [| i indices]; [ discriminate |].
    cbn in Hmap. injection Hmap as Hit Hmap.
    apply Forall_cons in Hrange as [Hi Hrange].
    apply NoDup_cons in Hdup as [Hfresh Hdup].
    cbn [app]. rewrite GetSeriesStatus_loop_cons, Hit.
    replace ((i <=? 0) || (expected <? i)) with false
      by (symmetry; apply orb_false_iff; split;
          [ apply N.leb_gt | apply N.ltb_ge ]; lia).
    rewrite bool_decide_eq_false_2
      by (apply Hnew; apply elem_of_cons; by left).
    rewrite (IH indices).
    + f_equal. rewrite list_to_set_cons.
      apply set_eq. intros x. rewrite !elem_of_union. tauto.
    + done.
    + intros j Hj. apply not_elem_of_union. split.
      * intros ->%elem_of_singleton. done.
      * apply Hnew. apply elem_of_cons. by right.
Qed.

Lemma GetSeriesStatus_run (db : DatabaseWrapper) (id : Z) :
  GetSeriesStatus lexical_cast_size_t id db =
  match lexical_cast_size_t
          (metadata_value db id MetadataType_Series_ExpectedNumberOfInstances)
  with
  | None => (Ok SeriesStatus_Unknown, db)
  | Some expected => loop expected (children_of db id) ∅ db
  end.
Proof.
  unfold GetSeriesStatus, mbind, Stateful_bind, bind, GetMetadata,
    GetChildrenInternalId, read.
  cbn.
  destruct (lexical_cast_size_t _) as [expected |]; [| reflexivity ].
  replace (expected <? 0) with false
    by (symmetry; apply N.ltb_ge; apply N.le_0_l).
  reflexivity.
Qed.

(** [GetSeriesStatus] only reads the database, and always returns. *)
Lemma GetSeriesStatus_reads (db : DatabaseWrapper) (id : Z) :
  exists status, GetSeriesStatus lexical_cast_size_t id db = (Ok status, db).
Proof.
  rewrite GetSeriesStatus_run.
  destruct (lexical_cast_size_t _); [ apply GetSeriesStatus_loop_reads | eauto ].
Qed.

(** C2 (amended). [GetSeriesStatus] returns, without writing, a status that
    is Unknown when the expected number of instances is missing or not
    numeric.  Otherwise the children are examined in order and the first
    child whose index is missing, not numeric, out of 1..expected or equal
    to the index of an earlier child decides: Unknown in the first two
    cases, Inconsistent in the two others.  When no child is of that kind,
    the status is Complete if the number of (distinct) indices equals the
    expected number, and Missing if not. *)
Theorem GetSeriesStatus_cases (db : DatabaseWrapper) (id : Z) :
  exists status,
    GetSeriesStatus lexical_cast_size_t id db = (Ok status, db) /\
    match lexical_cast_size_t
            (metadata_value db id MetadataType_Series_ExpectedNumberOfInstances)
    with
    | None => status = SeriesStatus_Unknown
    | Some expected =>
        (forall pre it post indices,
           children_of db id = pre ++ it :: post ->
           indexed db expected pre indices ->
           index_of db it = None ->
           status = SeriesStatus_Unknown) /\
        (forall pre it post indices i,
           children_of db id = pre ++ it :: post ->
           indexed db expected pre indices ->
           index_of db it = Some i ->
           i = 0 \/ expected < i \/ i ∈ indices ->
           status = SeriesStatus_Inconsistent) /\
        (forall indices,
           indexed db expected (children_of db id) indices ->
           status = if N.of_nat (List.length indices) =? expected
                    then SeriesStatus_Complete
                    else SeriesStatus_Missing)
    end.
Proof.
  destruct (GetSeriesStatus_reads db id) as [status Hrun].
  exists status. split; [ exact Hrun |].
  rewrite GetSeriesStatus_run in Hrun.
  destruct (lexical_cast_size_t _) as [expected |];
    [| by injection Hrun as <- ].
  split; [| split ].
  - intros pre it post indices Hchildren Hpre Hit.
    rewrite Hchildren in Hrun.
    rewrite (GetSeriesStatus_loop_prefix db expected pre (it :: post) indices)
      in Hrun; [| exact Hpre | intros; apply not_elem_of_empty ].
    rewrite GetSeriesStatus_loop_cons, Hit in Hrun.
    by injection Hrun as <-.
  - intros pre it post indices i Hchildren Hpre Hit Hbad.
    rewrite Hchildren in Hrun.
    rewrite (GetSeriesStatus_loop_prefix db expected pre (it :: post) indices)
      in Hrun; [| exact Hpre | intros; apply not_elem_of_empty ].
    rewrite GetSeriesStatus_loop_cons, Hit in Hrun.
    destruct ((i <=? 0) || (expected <? i)) eqn:Hrange;
      [ by injection Hrun as <- |].
    apply orb_false_iff in Hrange as [Hlow Hhigh].
    apply N.leb_gt in Hlow. apply N.ltb_ge in Hhigh.
    destruct Hbad as [-> | [Hbad | Hbad]]; [ lia | lia |].
    rewrite bool_decide_eq_true_2 in Hrun
      by (apply elem_of_union; left; by apply elem_of_list_to_set).
    by injection Hrun as <-.
  - intros indices Hall.
    pose proof Hall as [_ [_ Hdup]].
    rewrite <- (app_nil_r (children_of db id)) in Hrun.
    rewrite (GetSeriesStatus_loop_prefix db expected _ [] indices)
      in Hrun; [| exact Hall | intros; apply not_elem_of_empty ].
    rewrite GetSeriesStatus_loop_nil in Hrun.
    rewrite (right_id_L ∅ (∪)), size_list_to_set in Hrun by exact Hdup.
    by injection Hrun as <-.
Qed.

End SeriesStatusProperties.

(** ** [Store] *)

Section StoreProperties.

Import ServerIndex.

Variable lexical_cast_size_t : string -> option N.
Variables HashPatient HashStudy HashSeries HashInstance : DicomMap -> string.
Variables ExtractPatientInformation ExtractStudyInformation
          ExtractSeriesInformation ExtractInstanceInformation
  : DicomMap -> DicomMap.

Abbreviation transaction :=
  (Store_transaction lexical_cast_size_t
     HashPatient HashStudy HashSeries HashInstance
     ExtractPatientInformation ExtractStudyInformation
     ExtractSeriesInformation ExtractInstanceInformation).
Abbreviation store :=
  (Store lexical_cast_size_t
     HashPatient HashStudy HashSeries HashInstance
     ExtractPatientInformation ExtractStudyInformation
     ExtractSeriesInformation ExtractInstanceInformation).

(** The public ids of the resources never change once they are created. *)
Lemma find_resource_app (p : string) (rows more : list ResourceRow) :
  is_Some (find_resource p rows) -> is_Some (find_resource p (rows ++ more)).
Proof.
  unfold find_resource. induction rows as [| r rows IH]; cbn.
  - by intros [? ?].
  - destruct (bool_decide (publicId r = p)); [ eauto | exact IH ].
Qed.

Lemma find_resource_new (p : string) (rows : list ResourceRow)
    (r : ResourceRow) :
  publicId r = p -> is_Some (find_resource p (rows ++ [r])).
Proof.
  intros Hp. unfold find_resource. induction rows as [| r' rows IH]; cbn.
  - rewrite bool_decide_eq_true_2 by exact Hp. eauto.
  - destruct (bool_decide (publicId r' = p)); [ eauto | exact IH ].
Qed.

Lemma find_resource_set_parent (p : string) (parent child : Z)
    (rows : list ResourceRow) :
  is_Some (find_resource p rows) ->
  is_Some (find_resource p (map (set_parent parent child) rows)).
Proof.
  unfold find_resource. induction rows as [| r rows IH]; cbn.
  - by intros [? ?].
  - replace (publicId (set_parent parent child r)) with (publicId r)
      by (unfold set_parent; by destruct (bool_decide _)).
    destruct (bool_decide (publicId r = p)); [ eauto | exact IH ].
Qed.

Section Known.

Variable p : string.

Abbreviation keeps c := (returns c (known p) (fun _ => known p)).

Lemma LookupResource_keeps (q : string) : keeps (LookupResource q).
Proof. apply returns_read. auto. Qed.

Lemma LogChange_keeps now c id kind : keeps (LogChange now c id kind).
Proof. apply returns_update. auto. Qed.

Lemma CreateResource_keeps now q kind : keeps (CreateResource now q kind).
Proof.
  unfold CreateResource.
  apply (returns_bind _ _ _ (fun _ => known p));
    [ apply returns_read; auto |].
  intros id. apply (returns_bind _ _ _ (fun _ => known p)).
  - apply returns_update. intros s Hs. unfold known in *. cbn.
    apply find_resource_app, Hs.
  - intros ?. apply (returns_bind _ _ _ (fun _ => known p));
      [ apply LogChange_keeps |].
    intros ?. apply returns_ret. auto.
Qed.

Lemma CreateResource_creates now kind :
  returns (CreateResource now p kind) (fun _ => True) (fun _ => known p).
Proof.
  unfold CreateResource.
  apply (returns_bind _ _ _ (fun _ _ => True));
    [ apply returns_read; auto |].
  intros id. apply (returns_bind _ _ _ (fun _ => known p)).
  - apply returns_update. intros s _.
    unfold known. cbn. by apply find_resource_new.
  - intros ?. apply (returns_bind _ _ _ (fun _ => known p));
      [ apply LogChange_keeps |].
    intros ?. apply returns_ret. auto.
Qed.

Lemma SetMainDicomTags_keeps id tags : keeps (SetMainDicomTags id tags).
Proof. apply returns_update. auto. Qed.

Lemma AttachChild_keeps parent child : keeps (AttachChild parent child).
Proof.
  apply returns_update. intros s Hs. unfold known in *. cbn.
  apply find_resource_set_parent, Hs.
Qed.

Lemma AddAttachment_keeps id f : keeps (AddAttachment id f).
Proof. apply returns_update. auto. Qed.

Lemma SetMetadata_keeps id key value : keeps (SetMetadata id key value).
Proof. apply returns_update. auto. Qed.

Lemma GetSeriesStatus_keeps id :
  returns (GetSeriesStatus lexical_cast_size_t id) (known p) (fun _ => known p).
Proof.
  intros s Hs.
  destruct (GetSeriesStatus_reads lexical_cast_size_t s id) as [status Hrun].
  exists status, s. by split.
Qed.

#[local] Ltac keeps_step :=
  first
    [ apply returns_ret; solve [ auto ]
    | apply LookupResource_keeps
    | apply CreateResource_keeps
    | apply SetMainDicomTags_keeps
    | apply AttachChild_keeps
    | apply AddAttachment_keeps
    | apply SetMetadata_keeps
    | apply LogChange_keeps
    | apply GetSeriesStatus_keeps
    | apply returns_when
    | apply returns_for_each; intros ?
    | apply (returns_bind _ _ _ (fun _ => known p)); [| intros ? ]
    | match goal with
      | |- returns (match ?x with _ => _ end) _ _ => destruct x
      | |- returns (let (_, _) := ?x in _) _ _ => destruct x
      end ].

Lemma Store_hierarchy_keeps now dicomSummary instance :
  keeps (Store_hierarchy HashPatient HashStudy HashSeries
           ExtractPatientInformation ExtractStudyInformation
           ExtractSeriesInformation now dicomSummary instance).
Proof. unfold Store_hierarchy. repeat keeps_step. Qed.

(** After the creation of the instance, the rest of the transaction runs to
    its [Commit] and keeps the resource. *)
Lemma Store_transaction_fresh now dicomSummary attachments remoteAet :
  p = HashInstance dicomSummary ->
  returns (transaction now dicomSummary attachments remoteAet)
    (fun db => ~ known p db)
    (fun a db => a = (StoreStatus_Success, true) /\ known p db).
Proof.
  intros Hp.
  unfold Store_transaction.
  apply (returns_bind _ _ _ (fun found _ => found = None)).
  { apply returns_read. intros db Hfresh. rewrite Hp in Hfresh.
    unfold known in Hfresh.
    destruct (find_resource _ _); [ exfalso; eauto | done ]. }
  intros found db ->.
  match goal with
  | |- exists a s', ?c db = _ /\ _ =>
      enough (Hrest : returns c (fun _ => True)
                (fun a db => a = (StoreStatus_Success, true) /\ known p db))
        by exact (Hrest db I)
  end.
  apply (returns_bind _ _ _ (fun _ => known p));
    [ rewrite <- Hp; apply CreateResource_creates |].
  intros instance.
  repeat (apply (returns_bind _ _ _ (fun _ => known p));
          [ solve [ repeat keeps_step ] | intros ? ]).
  apply returns_ret. auto.
Qed.

End Known.

(** C1. If the index already holds a resource whose public id is the
    instance hash of [dicomSummary], the transaction of [Store] writes
    nothing before it returns, and [Store] answers AlreadyStored and leaves
    the index exactly as it was.  If it holds none, [Store] answers Success,
    and any [Store] of the same summary that follows immediately answers
    AlreadyStored and leaves the index as the first call made it. *)
Theorem Store_already_stored
    (now : string) (dicomSummary : DicomMap) (attachments : Attachments)
    (remoteAet : string) (index : ServerIndex) :
  (known (HashInstance dicomSummary) (db_ index) ->
   transaction now dicomSummary attachments remoteAet (db_ index)
   = (Ok (StoreStatus_AlreadyStored, false), db_ index) /\
   store now dicomSummary attachments remoteAet index
   = (StoreStatus_AlreadyStored, index)) /\
  (~ known (HashInstance dicomSummary) (db_ index) ->
   exists index',
     store now dicomSummary attachments remoteAet index
     = (StoreStatus_Success, index') /\
     forall now' attachments' remoteAet',
       store now' dicomSummary attachments' remoteAet' index'
       = (StoreStatus_AlreadyStored, index')).
Proof.
  assert (Hstored : forall now attachments remoteAet index,
    known (HashInstance dicomSummary) (db_ index) ->
    transaction now dicomSummary attachments remoteAet (db_ index)
    = (Ok (StoreStatus_AlreadyStored, false), db_ index) /\
    store now dicomSummary attachments remoteAet index
    = (StoreStatus_AlreadyStored, index)).
  { clear. intros now attachments remoteAet index [r Hr].
    assert (Hrun :
      transaction now dicomSummary attachments remoteAet (db_ index)
      = (Ok (StoreStatus_AlreadyStored, false), db_ index)).
    { unfold Store_transaction, mbind, Stateful_bind, bind, LookupResource,
        read. by rewrite Hr. }
    split; [ exact Hrun |]. unfold Store. by rewrite Hrun. }
  split; [ apply Hstored |].
  intros Hfresh.
  destruct (Store_transaction_fresh (HashInstance dicomSummary)
              now dicomSummary attachments remoteAet eq_refl
              (db_ index) Hfresh) as (a & db' & Hrun & -> & Hknown).
  exists (with_db db' index). split.
  - unfold Store. by rewrite Hrun.
  - intros now' attachments' remoteAet'.
    apply (Hstored now' attachments' remoteAet' (with_db db' index)).
    exact Hknown.
Qed.

End StoreProperties.

(** ** The metadata of a modified instance *)

Section MetadataProperties.

Import ServerIndex AnonymizeModify.

Variable ParsedDicomFile : Type.
Variables HashPatient HashStudy HashSeries HashInstance
  : ParsedDicomFile -> string.

Abbreviation prepared :=
  (prepare_metadata ParsedDicomFile HashPatient HashStudy HashSeries).
Abbreviation hash :=
  (hash_at ParsedDicomFile HashPatient HashStudy HashSeries HashInstance).

(** The entries at the ancestor levels, among the metadata prepared from
    the hashers of the original and of the modified file: one at each level
    where the two identifiers differ, and no other. *)
Lemma prepare_metadata_ancestors
    (metadataType : MetadataType) (it : string)
    (original modified : ParsedDicomFile)
    (level : ResourceType) (kind : MetadataType) (value : string) :
  level <> ResourceType_Instance ->
  ((level, kind, value) ∈ prepared metadataType it original modified <->
   hash level original <> hash level modified /\
   kind = metadataType /\ value = hash level original).
Proof.
  intros Hlevel. unfold prepare_metadata.
  destruct (decide (HashSeries original <> HashSeries modified)) as [Hse | Hse];
    destruct (decide (HashStudy original <> HashStudy modified)) as [Hst | Hst];
    destruct (decide (HashPatient original <> HashPatient modified)) as [Hp | Hp];
    cbn [app];
    rewrite ?elem_of_cons, elem_of_nil;
    destruct level; cbn [hash_at]; try done;
    (split;
     [ intros H; repeat destruct H as [H | H]; simplify_eq; done
     | intros (Hne & -> & ->); try done; tauto ]).
Qed.

End MetadataProperties.

(** ** The loop over the instances of a resource *)

Section ResourceLoopProperties.

Import ServerIndex AnonymizeModify.

Variable ServerContext : Type.
Variable ParsedDicomFile : Type.
Variable GetChildInstances : string -> Stateful ServerContext (list string).
Variable DicomCacheLocker : string -> Stateful ServerContext ParsedDicomFile.
Variable Context_Store
  : DicomInstanceToStore ParsedDicomFile ->
    Stateful ServerContext (StoreStatus * string).
Variable Apply : ParsedDicomFile -> Stateful DicomModification ParsedDicomFile.
Variables HashPatient HashStudy HashSeries HashInstance
  : ParsedDicomFile -> string.
Variable EnumerationToString : ResourceType -> string.
Variable GetBasePath : ResourceType -> string -> string.

Abbreviation instance_loop :=
  (instances_loop ServerContext ParsedDicomFile DicomCacheLocker Context_Store
     Apply HashPatient HashStudy HashSeries EnumerationToString GetBasePath).
Abbreviation resource_handler :=
  (AnonymizeOrModifyResource ServerContext ParsedDicomFile GetChildInstances
     DicomCacheLocker Context_Store Apply HashPatient HashStudy HashSeries
     EnumerationToString GetBasePath).
Abbreviation prepared_metadata :=
  (prepare_metadata ParsedDicomFile HashPatient HashStudy HashSeries).
Abbreviation first_json :=
  (first_result ParsedDicomFile HashPatient HashStudy HashSeries
     EnumerationToString GetBasePath).
Abbreviation hash_of_file :=
  (hash_at ParsedDicomFile HashPatient HashStudy HashSeries HashInstance).

(** The loop from the call of the store on: [toStore] is handed to the
    store in the context [context1]; another status than Success returns,
    Success fills the answer at the first stored instance and goes on with
    the instances that are left. *)
Abbreviation stores_and_goes_on metadataType resourceType rest isFirst result
    modified t' context1 toStore :=
  (match Context_Store toStore context1 with
   | (Ok stored, context2) =>
       if decide (stored.1 <> StoreStatus_Success)
       then (Ok Loop_returned, (t', context2))
       else
         if isFirst : bool
         then
           match first_json resourceType modified with
           | Ok first =>
               instance_loop metadataType resourceType rest false first
                 (t', context2)
           | Throw e => (Throw e, (t', context2))
           end
         else
           instance_loop metadataType resourceType rest isFirst result
             (t', context2)
   | (Throw e, context2) => (Throw e, (t', context2))
   end).

(** The loop over a list in two parts: the second part starts where the
    first one ends, unless the first one returned or threw. *)
Lemma instances_loop_app (metadataType : MetadataType)
    (resourceType : ResourceType) (pre rest : list string) (isFirst : bool)
    (result : list (string * string)) (s : DicomModification * ServerContext) :
  instance_loop metadataType resourceType (pre ++ rest) isFirst result s =
  match instance_loop metadataType resourceType pre isFirst result s with
  | (Ok (Loop_finished isFirst' result'), s') =>
      instance_loop metadataType resourceType rest isFirst' result' s'
  | other => other
  end.
Proof.
  revert isFirst result s.
  induction pre as [| it pre IH]; intros isFirst result s; [ reflexivity |].
  cbn [app instances_loop].
  destruct (on_context (DicomCacheLocker it) s) as [[original | e] s1];
    [| apply IH ].
  unfold mbind, Stateful_bind, bind.
  destruct (on_target (Apply original) s1) as [[modified | e] s2];
    [| reflexivity ].
  destruct (on_context (Context_Store _) s2) as [[stored | e] s3];
    [| reflexivity ].
  destruct (decide (stored.1 <> StoreStatus_Success)); [ reflexivity |].
  destruct isFirst; [| apply IH ].
  unfold eval.
  destruct (first_result _ _ _ _ _ _ _ _) as [first | e]; [ apply IH | reflexivity ].
Qed.

(** The child instance [it], reached after the instances [pre], locked and
    modified: the loop hands the modified file to the store with the
    metadata prepared from the two hashers. *)
Lemma instances_loop_stores (metadataType : MetadataType)
    (resourceType : ResourceType) (pre rest : list string) (it : string)
    (isFirst0 isFirst : bool) (result0 result : list (string * string))
    (s1 : DicomModification * ServerContext)
    (t t' : DicomModification) (context context1 : ServerContext)
    (original modified : ParsedDicomFile) :
  instance_loop metadataType resourceType pre isFirst0 result0 s1
  = (Ok (Loop_finished isFirst result), (t, context)) ->
  DicomCacheLocker it context = (Ok original, context1) ->
  Apply original t = (Ok modified, t') ->
  instance_loop metadataType resourceType (pre ++ it :: rest)
    isFirst0 result0 s1
  = stores_and_goes_on metadataType resourceType rest isFirst result
      modified t' context1
      {| parsedDicomFile := modified;
         metadata := prepared_metadata metadataType it original modified |}.
Proof.
  intros Hpre Hlock Happly.
  rewrite instances_loop_app, Hpre.
  cbn [instances_loop]. unfold on_context at 1. cbn [fst snd].
  rewrite Hlock. cbn [fst snd].
  unfold mbind at 1. unfold Stateful_bind at 1. unfold bind at 1.
  unfold on_target at 1. cbn [fst snd]. rewrite Happly. cbn [fst snd].
  unfold mbind at 1. unfold Stateful_bind at 1. unfold bind at 1.
  unfold on_context at 1. cbn [fst snd].
  destruct (Context_Store _ context1) as [[stored | e] context2];
    cbn [fst snd]; [| reflexivity ].
  destruct (decide (stored.1 <> StoreStatus_Success)); [ reflexivity |].
  destruct isFirst; [| reflexivity ].
  unfold mbind, Stateful_bind, bind, eval.
  by destruct (first_result _ _ _ _ _ _ _ _).
Qed.

(** C8. In the loop over the instances, each child instance that is locked
    and modified is handed to the store with a list of metadata in which
    there is an entry at an ancestor level (Series, Study or Patient)
    exactly when the identifier of the original file at that level differs
    from the one of the modified file; the entry has the kind given to the
    handler (ModifiedFrom or AnonymizedFrom) and the original identifier as
    its value.  The child is any instance of the list: [pre] are the
    instances before it, [isFirst] and [result] what the loop holds when it
    reaches the child. *)
Theorem instances_loop_metadata (metadataType : MetadataType)
    (resourceType : ResourceType) (pre rest : list string) (it : string)
    (isFirst0 isFirst : bool) (result0 result : list (string * string))
    (s1 : DicomModification * ServerContext)
    (t t' : DicomModification) (context context1 : ServerContext)
    (original modified : ParsedDicomFile) :
  instance_loop metadataType resourceType pre isFirst0 result0 s1
  = (Ok (Loop_finished isFirst result), (t, context)) ->
  DicomCacheLocker it context = (Ok original, context1) ->
  Apply original t = (Ok modified, t') ->
  exists attached : list (ResourceType * MetadataType * string),
    (forall level kind value,
       level <> ResourceType_Instance ->
       ((level, kind, value) ∈ attached <->
        hash_of_file level original <> hash_of_file level modified /\
        kind = metadataType /\ value = hash_of_file level original)) /\
    instance_loop metadataType resourceType (pre ++ it :: rest)
      isFirst0 result0 s1
    = stores_and_goes_on metadataType resourceType rest isFirst result
        modified t' context1
        {| parsedDicomFile := modified; metadata := attached |}.
Proof.
  intros Hpre Hlock Happly.
  exists (prepared_metadata metadataType it original modified). split.
  - intros level kind value Hlevel.
    by apply prepare_metadata_ancestors.
  - by apply (instances_loop_stores _ _ _ _ _ _ _ _ _ _ t _ context).
Qed.

(** C9. In the loop over the instances: when the lock on a child instance
    cannot be acquired, the loop goes on with the next instance and with the
    same [isFirst] and [result]; when the store of a modified instance
    answers anything but Success, the loop returns at once, in the state
    that this store left, and the handler answers nothing. *)
Theorem instances_loop_failures
    (metadataType : MetadataType) (resourceType : ResourceType)
    (it : string) (rest : list string) (isFirst : bool)
    (result : list (string * string))
    (t : DicomModification) (context : ServerContext) :
  (forall e context',
     DicomCacheLocker it context = (Throw e, context') ->
     instance_loop metadataType resourceType (it :: rest) isFirst result
                   (t, context)
     = instance_loop metadataType resourceType rest isFirst result
                     (t, context')) /\
  (forall original context1 modified t' status newId context2,
     DicomCacheLocker it context = (Ok original, context1) ->
     Apply original t = (Ok modified, t') ->
     Context_Store
       {| parsedDicomFile := modified;
          metadata := prepared_metadata metadataType it original modified |}
       context1
     = (Ok (status, newId), context2) ->
     status <> StoreStatus_Success ->
     instance_loop metadataType resourceType (it :: rest) isFirst result
                   (t, context)
     = (Ok Loop_returned, (t', context2)) /\
     forall id pre s0 s1,
       on_context (GetChildInstances id) s0 = (Ok (pre ++ it :: rest), s1) ->
       instance_loop metadataType resourceType pre true [] s1
       = (Ok (Loop_finished isFirst result), (t, context)) ->
       resource_handler metadataType resourceType id s0
       = (Ok NoAnswer, (t', context2))).
Proof.
  split.
  - intros e context' Hlock. cbn [instances_loop].
    unfold on_context at 1. cbn. by rewrite Hlock.
  - intros original context1 modified t' status newId context2
      Hlock Happly Hstore Hstatus.
    assert (Hloop :
      instance_loop metadataType resourceType (it :: rest) isFirst result
                    (t, context)
      = (Ok Loop_returned, (t', context2))).
    { cbn [instances_loop]. unfold on_context at 1. cbn. rewrite Hlock. cbn.
      unfold mbind, Stateful_bind, bind, on_target. cbn. rewrite Happly. cbn.
      unfold on_context. cbn. rewrite Hstore. cbn.
      destruct (decide (status <> StoreStatus_Success)); done. }
    split; [ exact Hloop |].
    intros id pre s0 s1 Hlist Hpre.
    unfold AnonymizeOrModifyResource, mbind, Stateful_bind, bind.
    rewrite Hlist.
    destruct (pre ++ it :: rest) as [| x l] eqn:Hl;
      [ by destruct pre |].
    rewrite <- Hl, instances_loop_app, Hpre, Hloop. reflexivity.
Qed.

(** C10. When the resource has no child instance, the handler returns before
    the loop: it answers nothing, and leaves the modification and the
    context as they were after the instances were listed, so that nothing
    was locked or stored. *)
Theorem AnonymizeOrModifyResource_no_instance
    (metadataType : MetadataType) (resourceType : ResourceType) (id : string)
    (t : DicomModification) (context context' : ServerContext) :
  GetChildInstances id context = (Ok [], context') ->
  resource_handler metadataType resourceType id (t, context)
  = (Ok NoAnswer, (t, context')).
Proof.
  intros Hlist.
  unfold AnonymizeOrModifyResource, mbind, Stateful_bind, bind, on_context.
  cbn. by rewrite Hlist.
Qed.

End ResourceLoopProperties.

(** ** The patient name of an anonymization *)

Section AnonymizationProperties.

Import ServerIndex AnonymizeModify.

Variable ServerContext : Type.
Variable asString : Json -> Result string.
Variable ParseTag : string -> Result DicomTag.
Variable IncrementGlobalSequence : GlobalProperty -> Stateful ServerContext N.
Variable defaults : gmap DicomTag string.
Variables randomPatientName randomPatientID : string.

Abbreviation parse_list := (ParseListOfTags asString ParseTag).
Abbreviation parse_replacements := (ParseReplacements asString ParseTag).
Abbreviation parse_anonymization :=
  (ParseAnonymizationRequest ServerContext asString ParseTag
     IncrementGlobalSequence defaults randomPatientName randomPatientID).

Abbreviation patient_name t := (replacements_ t !! DICOM_TAG_PATIENT_NAME).

(** The member of a Replace object does not name the patient name. *)
Abbreviation other_tag name := (ParseTag name <> Ok DICOM_TAG_PATIENT_NAME).

Lemma ParseListOfTags_replacements (query : Json) (operation : TagOperation)
    (t t' : DicomModification) (u : unit) :
  parse_list query operation t = (Ok u, t') ->
  replacements_ t' = replacements_ t.
Proof.
  unfold ParseListOfTags. destruct (negb (isArray query)); [ discriminate |].
  intros Hrun.
  apply (for_each_keeps _ _ (fun x => replacements_ x = replacements_ t)
           _ _ _) in Hrun; [ exact Hrun | | reflexivity ].
  intros item s s' _ Hitem Hs.
  apply bind_Ok in Hitem as (name & s1 & Hname & Hitem).
  apply bind_Ok in Hitem as (tag & s2 & Htag & Hitem).
  unfold eval in Hname, Htag. injection Hname as _ <-. injection Htag as _ <-.
  destruct operation; injection Hitem as <-; exact Hs.
Qed.

(** One member of a Replace object, when it is accepted. *)
Lemma replace_member_Ok (replacements : Json) (name : string)
    (t t' : DicomModification) :
  (value ← eval (asString (member name replacements));
   tag ← eval (ParseTag name);
   Replace tag value false) t = (Ok tt, t') ->
  exists value tag,
    asString (member name replacements) = Ok value /\
    ParseTag name = Ok tag /\
    replacements_ t' = <[ tag := value ]> (replacements_ t).
Proof.
  intros Hrun.
  apply bind_Ok in Hrun as (value & s1 & Hvalue & Hrun).
  apply bind_Ok in Hrun as (tag & s2 & Htag & Hrun).
  unfold eval in Hvalue, Htag.
  injection Hvalue as Hvalue <-. injection Htag as Htag <-.
  exists value, tag. split; [ done |]. split; [ done |].
  unfold Replace in Hrun.
  apply bind_Ok in Hrun as (t0 & s3 & Hread & Hrun).
  injection Hread as <- <-.
  destruct (negb false && negb (allowManualIdentifiers_ t) && _);
    [ discriminate |].
  by injection Hrun as <-.
Qed.

Lemma replace_members_other (replacements : Json) (names : list string)
    (t t' : DicomModification) (u : unit) :
  Forall (fun name => other_tag name) names ->
  for_each names (fun name =>
    value ← eval (asString (member name replacements));
    tag ← eval (ParseTag name);
    Replace tag value false) t = (Ok u, t') ->
  patient_name t' = patient_name t.
Proof.
  intros Hother Hrun.
  apply (for_each_keeps _ _ (fun x => patient_name x = patient_name t)
           _ _ _) in Hrun; [ exact Hrun | | reflexivity ].
  intros name s s' Hin Hstep Hs.
  apply replace_member_Ok in Hstep as (value & tag & _ & Htag & ->).
  rewrite lookup_insert_ne; [ exact Hs |].
  intros ->. rewrite Forall_forall in Hother. by apply (Hother name Hin).
Qed.

Lemma replace_members_last (replacements : Json)
    (before after : list string) (name value : string)
    (t t' : DicomModification) (u : unit) :
  ParseTag name = Ok DICOM_TAG_PATIENT_NAME ->
  asString (member name replacements) = Ok value ->
  Forall (fun name => other_tag name) after ->
  for_each (before ++ name :: after) (fun name =>
    value ← eval (asString (member name replacements));
    tag ← eval (ParseTag name);
    Replace tag value false) t = (Ok u, t') ->
  patient_name t' = Some value.
Proof.
  intros Htag Hvalue Hafter Hrun.
  rewrite for_each_app in Hrun.
  apply bind_Ok in Hrun as ([] & t1 & _ & Hrun).
  cbn [for_each] in Hrun.
  apply bind_Ok in Hrun as ([] & t2 & Hstep & Hrun).
  apply replace_member_Ok in Hstep as (value' & tag & Hvalue' & Htag' & Ht2).
  rewrite Hvalue in Hvalue'. injection Hvalue' as <-.
  rewrite Htag in Htag'. injection Htag' as <-.
  rewrite (replace_members_other _ _ _ _ _ Hafter Hrun), Ht2.
  apply lookup_insert_eq.
Qed.

Lemma on_target_Ok {A} (c : Modifier A) (a : A)
    (s s' : DicomModification * ServerContext) :
  on_target c s = (Ok a, s') -> c s.1 = (Ok a, s'.1) /\ s'.2 = s.2.
Proof.
  unfold on_target. destruct (c s.1) as [r t'] eqn:Hc. cbn.
  intros [= -> <-]. done.
Qed.

Lemma when_on_target_Ok (b : bool) (c : Modifier unit) (u : unit)
    (s s' : DicomModification * ServerContext) :
  when b (on_target c) s = (Ok u, s') ->
  s'.2 = s.2 /\
  (b = true /\ c s.1 = (Ok tt, s'.1) \/ b = false /\ s'.1 = s.1).
Proof.
  destruct u, b; cbn.
  - intros Hrun. apply on_target_Ok in Hrun as [Hc Hs].
    split; [ done | left; done ].
  - intros Hrun. injection Hrun as <-. split; [ done | right; done ].
Qed.

(** What the guard of [ParseAnonymizationRequest] makes of the patient
    name, when the request is parsed into a configuration: if no
    member of its Replace object names the patient name, the configuration
    replaces the patient name with "Anonymized" followed by the value that
    [IncrementGlobalSequence] returned for the anonymization sequence; if
    the Replace object gives the patient name a value other than the random
    name drawn by [SetupAnonymization], the configuration keeps that value
    and the sequence is left alone. *)
Theorem ParseAnonymizationRequest_patient_name
    (request : Json) (t t' : DicomModification)
    (context context' : ServerContext) :
  parse_anonymization (Some request) (t, context) = (Ok true, (t', context')) ->
  let replace := member "Replace" request in
  (Forall (fun name => other_tag name) (getMemberNames replace) ->
   exists seq,
     IncrementGlobalSequence GlobalProperty_AnonymizationSequence context
     = (Ok seq, context') /\
     patient_name t' = Some ("Anonymized" +:+ decimal seq)) /\
  (forall before name after value,
     getMemberNames replace = before ++ name :: after ->
     ParseTag name = Ok DICOM_TAG_PATIENT_NAME ->
     Forall (fun name => other_tag name) after ->
     asString (member name replace) = Ok value ->
     value <> randomPatientName ->
     patient_name t' = Some value /\ context' = context).
Proof.
  intros Hrun replace.
  unfold ParseAnonymizationRequest in Hrun.
  apply bind_Ok in Hrun as ([] & s1 & Hsetup & Hrun).
  apply on_target_Ok in Hsetup as [Hsetup Hc1]. cbn in Hsetup, Hc1.
  injection Hsetup as Ht1.
  assert (Hname1 : patient_name s1.1 = Some randomPatientName).
  { rewrite <- Ht1. cbn. apply lookup_insert_eq. }
  apply bind_Ok in Hrun as (patientName & s1' & Hget & Hrun).
  apply on_target_Ok in Hget as [Hget Hc1'].
  unfold GetReplacement in Hget.
  apply bind_Ok in Hget as (t0 & t0' & Hread & Hget).
  injection Hread as <- <-. rewrite Hname1 in Hget.
  injection Hget as <- Ht1'.
  assert (s1' = s1) as -> by (destruct s1, s1'; cbn in *; congruence).
  clear Ht1' Hc1'.
  destruct (isObject request); [| discriminate ].
  apply bind_Ok in Hrun as ([] & s2 & Hprivate & Hrun).
  apply when_on_target_Ok in Hprivate as [Hc2 Hprivate].
  assert (Hname2 : patient_name s2.1 = Some randomPatientName).
  { destruct Hprivate as [[_ Hp] | [_ ->]]; [| exact Hname1 ].
    injection Hp as <-. exact Hname1. }
  apply bind_Ok in Hrun as ([] & s3 & Hremove & Hrun).
  apply when_on_target_Ok in Hremove as [Hc3 Hremove].
  assert (Hname3 : patient_name s3.1 = Some randomPatientName).
  { destruct Hremove as [[_ Hp] | [_ ->]]; [| exact Hname2 ].
    by rewrite (ParseListOfTags_replacements _ _ _ _ _ Hp). }
  apply bind_Ok in Hrun as ([] & s4 & Hreplace & Hrun).
  apply when_on_target_Ok in Hreplace as [Hc4 Hreplace].
  apply bind_Ok in Hrun as ([] & s5 & Hkeep & Hrun).
  apply when_on_target_Ok in Hkeep as [Hc5 Hkeep].
  assert (Hname5 : patient_name s5.1 = patient_name s4.1).
  { destruct Hkeep as [[_ Hp] | [_ ->]]; [| reflexivity ].
    by rewrite (ParseListOfTags_replacements _ _ _ _ _ Hp). }
  assert (Hc : s5.2 = context) by congruence.
  apply bind_Ok in Hrun as (replaced & s5' & Hreplaced & Hrun).
  apply on_target_Ok in Hreplaced as [Hreplaced Hc5'].
  injection Hreplaced as <- Ht5'.
  assert (s5' = s5) as -> by (destruct s5, s5'; cbn in *; congruence).
  clear Ht5' Hc5'.
  (* what the Replace object made of the patient name *)
  assert (Hcases :
    (Forall (fun name => other_tag name) (getMemberNames replace) ->
     patient_name s5.1 = Some randomPatientName) /\
    (forall before name after value,
       getMemberNames replace = before ++ name :: after ->
       ParseTag name = Ok DICOM_TAG_PATIENT_NAME ->
       Forall (fun name => other_tag name) after ->
       asString (member name replace) = Ok value ->
       patient_name s5.1 = Some value)).
  { rewrite Hname5. fold replace in Hreplace.
    destruct Hreplace as [[_ Hp] | [Hno ->]].
    - unfold ParseReplacements in Hp.
      destruct (negb (isObject replace)); [ discriminate |].
      split.
      + intros Hother.
        by rewrite (replace_members_other _ _ _ _ _ Hother Hp).
      + intros before name after value Hnames Htag Hafter Hvalue.
        rewrite Hnames in Hp.
        exact (replace_members_last _ _ _ _ _ _ _ _ Htag Hvalue Hafter Hp).
    - split; [ by intros _ |].
      intros before name after value Hnames.
      exfalso. unfold replace, member, isMember in *.
      destruct request as [| | | | | members]; try by destruct before.
      destruct (assoc "Replace" members) eqn:Hassoc.
      + rewrite bool_decide_eq_true_2 in Hno by eauto. discriminate.
      + by destruct before. }
  destruct Hcases as [Habsent Hgiven].
  (* the comparison with the name that the setup drew *)
  assert (Hfinal : forall current,
    patient_name s5.1 = Some current ->
    (current = randomPatientName ->
     exists seq,
       IncrementGlobalSequence GlobalProperty_AnonymizationSequence context
       = (Ok seq, context') /\
       patient_name t' = Some ("Anonymized" +:+ decimal seq)) /\
    (current <> randomPatientName ->
     patient_name t' = Some current /\ context' = context)).
  { intros current Hcurrent. rewrite Hcurrent in Hrun.
    rewrite bool_decide_eq_true_2 in Hrun by eauto.
    apply bind_Ok in Hrun as (unchanged & s6 & Hcompare & Hrun).
    apply bind_Ok in Hcompare as (current' & s6' & Hget & Hcompare).
    apply on_target_Ok in Hget as [Hget Hc6'].
    unfold GetReplacement in Hget.
    apply bind_Ok in Hget as (t0 & t0' & Hread & Hget).
    injection Hread as <- <-. rewrite Hcurrent in Hget.
    injection Hget as <- Ht6'.
    assert (s6' = s5) as -> by (destruct s5, s6'; cbn in *; congruence).
    injection Hcompare as <- <-.
    apply bind_Ok in Hrun as ([] & s7 & Hwhen & Hrun).
    injection Hrun as Hs7. subst s7.
    split.
    - intros ->. rewrite bool_decide_eq_true_2 in Hwhen by reflexivity.
      cbn [when] in Hwhen.
      apply bind_Ok in Hwhen as (name & s6 & Hgen & Hreplace6).
      unfold on_context, GeneratePatientName in Hgen.
      rewrite Hc in Hgen.
      unfold mbind, Stateful_bind, bind in Hgen.
      destruct (IncrementGlobalSequence _ context) as [[seq | e] context6];
        [| discriminate ].
      cbn in Hgen. injection Hgen as <- <-.
      apply on_target_Ok in Hreplace6 as [Hreplace6 Hc7]. cbn in Hreplace6, Hc7.
      unfold Replace in Hreplace6.
      apply bind_Ok in Hreplace6 as (t0 & t0' & Hread & Hreplace6).
      injection Hread as <- <-. cbn in Hreplace6.
      injection Hreplace6 as Ht7.
      exists seq. split; [ by rewrite <- Hc7 |].
      rewrite <- Ht7. cbn. apply lookup_insert_eq.
    - intros Hne. rewrite bool_decide_eq_false_2 in Hwhen by exact Hne.
      injection Hwhen as Hs5. subst s5. cbn in *. by split. }
  split.
  - intros Hother.
    exact (proj1 (Hfinal _ (Habsent Hother)) eq_refl).
  - intros before name after value Hnames Htag Hafter Hvalue Hne.
    exact (proj2 (Hfinal _ (Hgiven _ _ _ _ Hnames Htag Hafter Hvalue)) Hne).
Qed.

End AnonymizationProperties.

(** ** The properties at concrete inputs *)

(** A fresh response accepts [AddHeader]; once a body was sent it throws. *)
Lemma header_phase_operations_witness :
  (HttpOutput.AddHeader "Allow" "GET" (HttpOutput.new false)).1 = Ok tt /\
  (HttpOutput.AddHeader "Allow" "GET"
     (HttpOutput.SendBody Samples.reason_phrase "body" 4
        (HttpOutput.new false)).2).1
  = Throw ErrorCode_BadSequenceOfCalls.
Proof.
  pose proof (header_phase_operations Samples.reason_phrase
                (HttpOutput.new false)) as H.
  cbn zeta in H. destruct H as (_ & _ & Hadd & _ & _ & Hafter).
  split.
  - exact (proj1 (Hadd "Allow" "GET")).
  - exact (Hafter "body" 4 "Allow" "GET").
Defined.

(** The first [SendBody] of a response with status 404 and a declared length
    of 100 writes the length of its chunk. *)
Lemma first_SendBody_content_length_witness :
  let m := HttpOutput.new false in
  let m := (HttpOutput.SetHttpStatus 404 m).2 in
  let m := (HttpOutput.SetContentLength 100 m).2 in
  let text := "HTTP/1.1 404 Not Found" +:+ CRLF +:+
              "Content-Length: 9" +:+ CRLF +:+ CRLF in
  HttpOutput.state_ m = HttpOutput.State_WritingHeader /\
  exists body,
    HttpOutput.stream_ (HttpOutput.SendBody Samples.reason_phrase "Not found" 9 m).2 =
      [HttpOutput.OnHttpStatusReceived 404; HttpOutput.Send true text 45]
      ++ body.
Proof.
  cbn zeta. split; [ reflexivity |].
  destruct (first_SendBody_content_length Samples.reason_phrase
              (HttpOutput.SetContentLength 100
                 (HttpOutput.SetHttpStatus 404 (HttpOutput.new false)).2).2
              "Not found" 9 eq_refl) as [[body [Hstream Hbody]] _].
  exists body. exact Hstream.
Defined.

(** [SetContentLength(10)] followed by a [SendBody] of 12 bytes throws; so
    does a second non-empty [SendBody] after a complete single-shot body. *)
Lemma SendBody_rejects_overrun_witness :
  let m := (HttpOutput.SetContentLength 10 (HttpOutput.new true)).2 in
  let done := (HttpOutput.SendBody Samples.reason_phrase "body" 4 (HttpOutput.new true)).2 in
  (HttpOutput.SendBody Samples.reason_phrase "twelve bytes" 12 m).1
  = Throw ErrorCode_BadSequenceOfCalls /\
  HttpOutput.state_ done = HttpOutput.State_Done /\
  HttpOutput.SendBody Samples.reason_phrase "more" 4 done
  = (Throw ErrorCode_BadSequenceOfCalls, done).
Proof.
  cbn zeta.
  pose proof (SendBody_rejects_overrun Samples.reason_phrase
                (HttpOutput.SetContentLength 10 (HttpOutput.new true)).2
                "twelve bytes" 12) as [Hover _].
  pose proof (SendBody_rejects_overrun Samples.reason_phrase
                (HttpOutput.SendBody Samples.reason_phrase "body" 4
                   (HttpOutput.new true)).2
                "more" 4) as [_ Hdone].
  split; [| split ].
  - apply Hover; [ discriminate | reflexivity | reflexivity | reflexivity
                 | reflexivity | reflexivity ].
  - reflexivity.
  - apply Hdone; [ reflexivity | discriminate ].
Defined.

(** Scenario S2: the instance of S1 is stored twice. *)
Lemma Store_already_stored_witness :
  exists index',
    Samples.Store_sample "20140506T120000" Samples.instance_S1 [] "AET"
                         Samples.empty_index
    = (ServerIndex.StoreStatus_Success, index') /\
    Samples.Store_sample "20140506T120001" Samples.instance_S1 [] "AET" index'
    = (ServerIndex.StoreStatus_AlreadyStored, index').
Proof.
  destruct (Store_already_stored Samples.lexical_cast_size_t
              (Samples.join [Samples.PatientID])
              (Samples.join [Samples.PatientID; Samples.StudyInstanceUID])
              (Samples.join [Samples.PatientID; Samples.StudyInstanceUID;
                             Samples.SeriesInstanceUID])
              (Samples.join [Samples.PatientID; Samples.StudyInstanceUID;
                             Samples.SeriesInstanceUID; Samples.SOPInstanceUID])
              (fun m => m) (fun m => m) (fun m => m) (fun m => m)
              "20140506T120000" Samples.instance_S1 [] "AET"
              Samples.empty_index) as [_ Hfresh].
  destruct Hfresh as (index' & Hfirst & Hsecond).
  - intros [r Hr]. vm_compute in Hr. discriminate Hr.
  - exists index'. split; [ exact Hfirst |].
    exact (Hsecond "20140506T120001" [] "AET").
Defined.

(** The first child of [odd_series] has index 0: the series is
    Inconsistent. *)
Lemma GetSeriesStatus_cases_witness :
  (ServerIndex.GetSeriesStatus Samples.lexical_cast_size_t 1
     Samples.odd_series).1
  = Ok ServerIndex.SeriesStatus_Inconsistent.
Proof.
  destruct (GetSeriesStatus_cases Samples.lexical_cast_size_t
              Samples.odd_series 1) as (status & Hrun & Hcases).
  rewrite Hrun. cbn [fst]. f_equal.
  change (Samples.lexical_cast_size_t
            (ServerIndex.metadata_value Samples.odd_series 1
               ServerIndex.MetadataType_Series_ExpectedNumberOfInstances))
    with (Some 2) in Hcases.
  destruct Hcases as (_ & Hinconsistent & _).
  apply (Hinconsistent [] 2%Z [3%Z] [] 0).
  - reflexivity.
  - repeat split; constructor.
  - reflexivity.
  - left. reflexivity.
Defined.

(** C2 as stated fails: the second child of [odd_series] has no index, which
    the claim answers with Unknown, and the status is Inconsistent, because
    the first child, with index 0, is examined before. *)
Lemma GetSeriesStatus_inconsistent_before_unknown :
  (exists it,
     it ∈ ServerIndex.children_of Samples.odd_series 1 /\
     ServerIndex.child_index Samples.lexical_cast_size_t Samples.odd_series it
     = None) /\
  (ServerIndex.GetSeriesStatus Samples.lexical_cast_size_t 1
     Samples.odd_series).1
  <> Ok ServerIndex.SeriesStatus_Unknown.
Proof.
  split.
  - exists 3%Z. split; [| reflexivity ].
    change (ServerIndex.children_of Samples.odd_series 1) with [2%Z; 3%Z].
    apply elem_of_cons. right. apply elem_of_cons. by left.
  - vm_compute. discriminate.
Qed.

(** The cascade of the sample signals the series, the patient and the
    study: the patient is reported. *)
Lemma DeleteResource_remaining_ancestor_witness :
  let index := {| ServerIndex.db_ := Samples.odd_series;
                  ServerIndex.listener_ := ServerIndex.new_listener |} in
  (ServerIndex.LookupResource "series" (ServerIndex.db_ index)).1
  = Ok (Some (1%Z, ResourceType_Series)) /\
  exists target,
    (ServerIndex.DeleteResource Samples.cascade Samples.base_path
       Samples.kind_name "series" ResourceType_Series index).1
    = ServerIndex.Delete_true target /\
    (target = None <->
     ServerIndex.remaining_ancestors
       (Samples.cascade 1 Samples.odd_series).2 = []).
Proof.
  cbn zeta. split; [ reflexivity |].
  destruct (DeleteResource_remaining_ancestor Samples.cascade
              Samples.base_path Samples.kind_name "series" ResourceType_Series
              {| ServerIndex.db_ := Samples.odd_series;
                 ServerIndex.listener_ := ServerIndex.new_listener |}
              1%Z eq_refl) as (target & Hrun & Hnull & _).
  exists target. split; [ exact Hrun | exact Hnull ].
Defined.

(** A request that names the patient keeps the name and leaves the sequence
    at 6; a request without Replace gets the name of sequence value 7. *)
Lemma ParseAnonymizationRequest_patient_name_witness :
  let named :=
    AnonymizeModify.Json_object
      [("Replace", AnonymizeModify.Json_object
                     [("PatientName", AnonymizeModify.Json_string "Jane")])] in
  let plain :=
    AnonymizeModify.Json_object
      [("Keep", AnonymizeModify.Json_array
                  [AnonymizeModify.Json_string "PatientID"])] in
  (AnonymizeModify.replacements_ (Samples.parse "random" named).2.1
     !! AnonymizeModify.DICOM_TAG_PATIENT_NAME = Some "Jane" /\
   (Samples.parse "random" named).2.2 = Samples.context0) /\
  AnonymizeModify.replacements_ (Samples.parse "random" plain).2.1
    !! AnonymizeModify.DICOM_TAG_PATIENT_NAME = Some "Anonymized7".
Proof.
  cbn zeta.
  set (named := AnonymizeModify.Json_object
         [("Replace", AnonymizeModify.Json_object
                        [("PatientName", AnonymizeModify.Json_string "Jane")])]).
  set (plain := AnonymizeModify.Json_object
         [("Keep", AnonymizeModify.Json_array
                     [AnonymizeModify.Json_string "PatientID"])]).
  assert (Hnamed :
    AnonymizeModify.ParseAnonymizationRequest Samples.Context Samples.text_of
      Samples.tag_of Samples.increment ∅ "random" "random-id" (Some named)
      (AnonymizeModify.new_modification, Samples.context0)
    = (Ok true, ((Samples.parse "random" named).2.1,
                 (Samples.parse "random" named).2.2)))
    by (vm_compute; reflexivity).
  assert (Hplain :
    AnonymizeModify.ParseAnonymizationRequest Samples.Context Samples.text_of
      Samples.tag_of Samples.increment ∅ "random" "random-id" (Some plain)
      (AnonymizeModify.new_modification, Samples.context0)
    = (Ok true, ((Samples.parse "random" plain).2.1,
                 (Samples.parse "random" plain).2.2)))
    by (vm_compute; reflexivity).
  split.
  - apply (proj2 (ParseAnonymizationRequest_patient_name
                    Samples.Context Samples.text_of Samples.tag_of
                    Samples.increment ∅ "random" "random-id"
                    named AnonymizeModify.new_modification _
                    Samples.context0 _ Hnamed)
                 [] "PatientName" [] "Jane").
    + reflexivity.
    + reflexivity.
    + constructor.
    + reflexivity.
    + discriminate.
  - destruct (proj1 (ParseAnonymizationRequest_patient_name
                       Samples.Context Samples.text_of Samples.tag_of
                       Samples.increment ∅ "random" "random-id"
                       plain AnonymizeModify.new_modification _
                       Samples.context0 _ Hplain))
      as (seq & Hseq & Hname); [ constructor |].
    vm_compute in Hseq. injection Hseq as <-. exact Hname.
Defined.


(** The series "series" gets a new series identifier: the instance "a",
    reached after the instance "gone", is handed to the store with an entry
    for the series and none for the study. *)
Lemma instances_loop_metadata_witness :
  let start := (AnonymizeModify.new_modification, Samples.context0) in
  let run := Samples.loop_sample Samples.new_series
               ServerIndex.MetadataType_ModifiedFrom ResourceType_Series
               ["gone"; "a"; "b"] true [] start in
  exists attached,
    (ResourceType_Series, ServerIndex.MetadataType_ModifiedFrom, "P/St/Se")
    ∈ attached /\
    ~ (ResourceType_Study, ServerIndex.MetadataType_ModifiedFrom, "P/St")
      ∈ attached /\
    head (Samples.stored run.2.2)
    = Some {| AnonymizeModify.parsedDicomFile := ["P"; "St"; "new-series"; "a"];
              AnonymizeModify.metadata := attached |}.
Proof.
  cbn zeta.
  destruct (instances_loop_metadata Samples.Context (list string)
              Samples.lock Samples.store_file Samples.new_series
              (Samples.identifier 0)
              (fun f => Samples.identifier 0 f +:+ "/" +:+ Samples.identifier 1 f)
              (fun f => Samples.identifier 0 f +:+ "/" +:+ Samples.identifier 1 f
                        +:+ "/" +:+ Samples.identifier 2 f)
              (Samples.identifier 3) Samples.kind_name Samples.base_path
              ServerIndex.MetadataType_ModifiedFrom ResourceType_Series
              ["gone"] ["b"] "a" true true [] []
              (AnonymizeModify.new_modification, Samples.context0)
              AnonymizeModify.new_modification AnonymizeModify.new_modification
              Samples.context0 Samples.context0
              ["P"; "St"; "Se"; "a"] ["P"; "St"; "new-series"; "a"]
              eq_refl eq_refl eq_refl) as (attached & Hentries & Hrun).
  exists attached. split; [| split ].
  - apply (Hentries ResourceType_Series); [ discriminate |].
    split; [ discriminate | split; reflexivity ].
  - intros Hin.
    apply (Hentries ResourceType_Study) in Hin; [| discriminate ].
    destruct Hin as [Hne _]. apply Hne. reflexivity.
  - unfold Samples.loop_sample. cbn [app] in Hrun. rewrite Hrun.
    reflexivity.
Defined.

(** The instance "gone" is not in the cache and is skipped; the store
    refuses the modified instance "a", and the handler answers nothing,
    with one instance handed to the store. *)
Lemma instances_loop_failures_witness :
  let start := (AnonymizeModify.new_modification, Samples.context0) in
  Samples.loop_sample Samples.to_refused ServerIndex.MetadataType_ModifiedFrom
    ResourceType_Series ["gone"; "a"; "b"] true [] start
  = Samples.loop_sample Samples.to_refused ServerIndex.MetadataType_ModifiedFrom
      ResourceType_Series ["a"; "b"] true [] start /\
  exists context',
    Samples.handler_sample Samples.to_refused
      ServerIndex.MetadataType_ModifiedFrom ResourceType_Series "series" start
    = (Ok AnonymizeModify.NoAnswer,
       (AnonymizeModify.new_modification, context')) /\
    List.length (Samples.stored context') = 1%nat.
Proof.
  cbn zeta. split.
  - apply (proj1 (instances_loop_failures Samples.Context (list string)
                    Samples.children Samples.lock Samples.store_file
                    Samples.to_refused (Samples.identifier 0) _ _
                    Samples.kind_name Samples.base_path
                    ServerIndex.MetadataType_ModifiedFrom ResourceType_Series
                    "gone" ["a"; "b"] true []
                    AnonymizeModify.new_modification Samples.context0)
                 ErrorCode_InexistentItem Samples.context0).
    reflexivity.
  - eexists. split.
    + refine (proj2 (proj2 (instances_loop_failures Samples.Context
                (list string)
                Samples.children Samples.lock Samples.store_file
                Samples.to_refused (Samples.identifier 0) _ _
                Samples.kind_name Samples.base_path
                ServerIndex.MetadataType_ModifiedFrom ResourceType_Series
                "a" ["b"] true []
                AnonymizeModify.new_modification Samples.context0)
              ["P"; "St"; "Se"; "a"] Samples.context0
              ["refused"; "St"; "Se"; "a"] AnonymizeModify.new_modification
              ServerIndex.StoreStatus_Failure "a" _ _ _ _ _)
            "series" ["gone"] _ _ _ _).
      * reflexivity.
      * reflexivity.
      * reflexivity.
      * discriminate.
      * reflexivity.
      * reflexivity.
    + reflexivity.
Defined.

(** The resource "empty" has no instance: nothing is answered, nothing is
    stored. *)
Lemma AnonymizeOrModifyResource_no_instance_witness :
  Samples.handler_sample Samples.new_series
    ServerIndex.MetadataType_AnonymizedFrom ResourceType_Study "empty"
    (AnonymizeModify.new_modification, Samples.context0)
  = (Ok AnonymizeModify.NoAnswer,
     (AnonymizeModify.new_modification, Samples.context0)).
Proof.
  apply (AnonymizeOrModifyResource_no_instance Samples.Context (list string)
           Samples.children Samples.lock Samples.store_file Samples.new_series
           (Samples.identifier 0)
           (fun f => Samples.identifier 0 f +:+ "/" +:+ Samples.identifier 1 f)
           (fun f => Samples.identifier 0 f +:+ "/" +:+ Samples.identifier 1 f
                     +:+ "/" +:+ Samples.identifier 2 f)
           Samples.kind_name Samples.base_path).
  reflexivity.
Defined.

(** ** Runs of the definitions *)

(** A declared length met in two chunks ends in [State_Done]. *)
Example two_chunks_done :
  let m := (HttpOutput.SetContentLength 10 (HttpOutput.new false)).2 in
  let m := (HttpOutput.SendBody Samples.reason_phrase "hello" 5 m).2 in
  let r := HttpOutput.SendBody Samples.reason_phrase "world" 5 m in
  r.1 = Ok tt /\ HttpOutput.state_ r.2 = HttpOutput.State_Done.
Proof. vm_compute. repeat split. Qed.

(** Scenario S1: the four resources are created and the series is
    complete. *)
Example S1_changes :
  let r := Samples.Store_sample "20140506T120000" Samples.instance_S1 [] "AET"
             Samples.empty_index in
  r.1 = ServerIndex.StoreStatus_Success /\
  map ServerIndex.changeType (ServerIndex.Changes (ServerIndex.db_ r.2))
  = [ ServerIndex.ChangeType_NewInstance; ServerIndex.ChangeType_NewSeries;
      ServerIndex.ChangeType_NewStudy; ServerIndex.ChangeType_NewPatient;
      ServerIndex.ChangeType_CompletedSeries ] /\
  (ServerIndex.GetSeriesStatus Samples.lexical_cast_size_t 2
     (ServerIndex.db_ r.2)).1
  = Ok ServerIndex.SeriesStatus_Complete.
Proof. vm_compute. repeat split. Qed.

(** The readings of [size_t] that the sample conversion accepts. *)
Example lexical_cast_size_t_readings :
  map Samples.lexical_cast_size_t
      ["0"; "12"; EmptyString; "abc"; "1x"; "+7"; "-1";
       "18446744073709551615"; "18446744073709551616"]
  = [Some 0; Some 12; None; None; None; Some 7;
     Some 18446744073709551615; Some 18446744073709551615; None].
Proof. reflexivity. Qed.

(** A series handler over the cache of the sample: "gone" is skipped, the
    two others are stored under the new series, which is answered. *)
Example modify_series_answer :
  let r := Samples.handler_sample Samples.new_series
             ServerIndex.MetadataType_ModifiedFrom ResourceType_Series "series"
             (AnonymizeModify.new_modification, Samples.context0) in
  r.1 = Ok (AnonymizeModify.AnswerJson
              [ ("Type", "Series"); ("ID", "P/St/new-series");
                ("Path", "/P/St/new-series"); ("PatientID", "P") ]) /\
  map AnonymizeModify.metadata (Samples.stored r.2.2)
  = [ [ (ResourceType_Series, ServerIndex.MetadataType_ModifiedFrom, "P/St/Se");
        (ResourceType_Instance, ServerIndex.MetadataType_ModifiedFrom, "a") ];
      [ (ResourceType_Series, ServerIndex.MetadataType_ModifiedFrom, "P/St/Se");
        (ResourceType_Instance, ServerIndex.MetadataType_ModifiedFrom, "b") ] ].
Proof. vm_compute. repeat split. Qed.

(** * Further properties *)

(** ** Any series of calls on a response *)

Section HttpOutputCalls.

Import HttpOutput.

Variable EnumerationToString : HttpStatus -> string.
Variable ErrorCode_ParameterOutOfRange : ErrorCode.

Abbreviation send_body := (SendBody EnumerationToString).
Abbreviation do_call := (perform EnumerationToString ErrorCode_ParameterOutOfRange).
Abbreviation do_calls :=
  (perform_all EnumerationToString ErrorCode_ParameterOutOfRange).

#[local] Ltac run :=
  unfold SendBody_string, SendMethodNotAllowed, SendStatus,
    Redirect, SendUnauthorized, SetContentType, SetContentFilename,
    SetCookie, SendBody_empty, SendBody, flush_header, SetHttpStatus,
    SetContentLength, AddHeader, ClearHeaders, require_WritingHeader, when,
    mbind, mret, Stateful_bind, Stateful_ret, bind, ret, throw, update, read;
  cbn.

#[local] Ltac known :=
  repeat match goal with
         | H : ?c = true |- context [?c] => rewrite H
         | H : ?c = false |- context [?c] => rewrite H
         end.

#[local] Ltac branches :=
  cbn;
  repeat (first
            [ progress known
            | case_decide; try congruence
            | case_bool_decide; try congruence
            | match goal with
              | |- context [if negb ?b then _ else _] => destruct b eqn:?
              | |- context [if ?a && _ then _ else _] => destruct a eqn:?
              | |- context [if ?a || _ then _ else _] => destruct a eqn:?
              | |- context [if ?b then _ else _] => destruct b eqn:?
              end ];
          cbn in *).

Lemma call_never_goes_back (c : Call) (m : StateMachine) :
  state_rank (state_ m) <= state_rank (state_ (do_call c m).2).
Proof.
  destruct m as [str st status has cl pos ka hs].
  destruct c, st; cbn [perform]; run; branches; cbn; lia.
Qed.

(** X1. Whatever the calls and whether they return or throw, the state of
    the response never goes back: from [State_WritingHeader] towards
    [State_Done]; in particular a response that is done stays done. *)
Theorem state_never_goes_back (calls : list Call) (m : StateMachine) :
  state_rank (state_ m) <= state_rank (state_ (do_calls calls m)) /\
  (state_ m = State_Done -> state_ (do_calls calls m) = State_Done).
Proof.
  assert (Hrank : forall calls m,
    state_rank (state_ m) <= state_rank (state_ (do_calls calls m))).
  { clear. intros calls. induction calls as [| c calls IH]; intros m.
    - cbn. lia.
    - cbn [perform_all fold_left].
      etransitivity; [ apply (call_never_goes_back c) | apply IH ]. }
  split; [ apply Hrank |].
  intros Hdone. specialize (Hrank calls m). rewrite Hdone in Hrank.
  destruct (state_ (do_calls calls m)); cbn in Hrank; [ lia | lia | done ].
Qed.

Lemma body_bytes_snoc (stream : list StreamEvent) (e : StreamEvent) :
  body_bytes (stream ++ [e]) =
  body_bytes stream + match e with
                      | Send false _ length => length
                      | _ => 0
                      end.
Proof.
  unfold body_bytes, body_lengths. rewrite omap_app.
  induction (omap _ stream) as [| x l IH]; cbn.
  - destruct e as [| [] ? ?]; cbn; lia.
  - cbn in IH. rewrite IH. lia.
Qed.

Lemma consistent_new (isKeepAlive : bool) : consistent (new isKeepAlive).
Proof. split; reflexivity. Qed.

#[local] Ltac to_arith :=
  repeat match goal with
         | H : (_ =? _) = true |- _ => apply N.eqb_eq in H
         | H : (_ =? _) = false |- _ => apply N.eqb_neq in H
         | H : (_ <? _) = true |- _ => apply N.ltb_lt in H
         | H : (_ <? _) = false |- _ => apply N.ltb_ge in H
         | H : match ?x with 0 => _ | N.pos _ => _ end = _ |- _ =>
             destruct x; try discriminate H
         end.

#[local] Ltac chunk_list :=
  repeat first
    [ apply Forall_nil_2
    | apply Forall_cons_2
    | apply Forall_app_2
    | eassumption
    | (eexists _, _; split; [ reflexivity | lia ]) ].

#[local] Arguments body_bytes : simpl never.

#[local] Ltac header :=
  match goal with
  | H : exists text chunks, _ /\ _ |- exists text chunks, _ /\ _ =>
      let text := fresh "text" in
      let chunks := fresh "chunks" in
      let Hchunks := fresh "Hchunks" in
      destruct H as (text & chunks & -> & Hchunks);
      first [ (exists text, chunks; split; [ reflexivity | chunk_list ])
            | (eexists text, (chunks ++ [_]);
               split; [ reflexivity | chunk_list ]) ]
  | |- exists text chunks, _ /\ _ =>
      eexists _, _; split; [ reflexivity | chunk_list ]
  end.

Lemma SendBody_consistent (buffer : string) (length : N) (m : StateMachine) :
  consistent m -> consistent (send_body buffer length m).2.
Proof.
  destruct m as [str st status has cl pos ka hs].
  unfold consistent, header_sent. cbn. intros [Hpos Hst].
  destruct st.
  - (* the header goes out first *)
    subst str. unfold body_bytes in Hpos. cbn in Hpos.
    rewrite N.Div0.mod_0_l in Hpos. subst pos.
    run; branches; to_arith; unfold add64 in *;
      rewrite ?body_bytes_snoc;
      rewrite ?N.add_0_l, ?N.add_0_r in *;
      repeat split; try congruence; try lia; try header;
      unfold body_bytes; cbn; rewrite ?N.add_0_r, ?N.Div0.mod_0_l;
      reflexivity.
  - (* more of the body *)
    destruct Hst as (Hhdr & -> & -> & Hle).
    run; branches; to_arith; unfold add64 in *;
      rewrite ?body_bytes_snoc;
      repeat split; try congruence; try lia; try header;
      try (rewrite Hpos, N.Div0.add_mod_idemp_l; reflexivity).
  - (* the response is done *)
    run; branches; split; assumption.
Qed.



Abbreviation keeps_consistent c :=
  (forall m, consistent m -> consistent (c m).2).

Lemma bind_keeps_consistent {A B} (c : Method A) (k : A -> Method B) :
  keeps_consistent c -> (forall a, keeps_consistent (k a)) ->
  keeps_consistent (c ≫= k).
Proof.
  intros Hc Hk m Hm. specialize (Hc m Hm).
  unfold mbind, Stateful_bind, bind.
  destruct (c m) as [[a | e] m']; [ by apply Hk | exact Hc ].
Qed.

Lemma header_operations_consistent :
  (forall status, keeps_consistent (SetHttpStatus status)) /\
  (forall length, keeps_consistent (SetContentLength length)) /\
  (forall header value, keeps_consistent (AddHeader header value)) /\
  keeps_consistent ClearHeaders.
Proof.
  repeat split; intros;
    match goal with
    | H : consistent ?m |- _ =>
        destruct m as [str st status' has cl pos ka hs];
        unfold consistent, header_sent in *; cbn in H |- *;
        destruct H as [Hpos Hst]
    end;
    destruct st; run; branches; cbn;
    first [ assumption | split; assumption ].
Qed.

Lemma call_consistent (c : Call) : keeps_consistent (do_call c).
Proof.
  destruct header_operations_consistent as (Hstatus & Hlength & Hadd & Hclear).
  assert (Hempty : keeps_consistent (SendBody_empty EnumerationToString))
    by (intros m; apply SendBody_consistent).
  destruct c; cbn [perform];
    unfold SetContentType, SetContentFilename, SetCookie, SendBody_string,
      SendMethodNotAllowed, SendStatus, Redirect, SendUnauthorized;
    repeat first
      [ apply Hstatus | apply Hlength | apply Hadd | apply Hclear
      | exact Hempty
      | (intros m; apply SendBody_consistent)
      | match goal with
        | |- forall m, _ -> consistent ((if ?b then _ else _) m).2 =>
            destruct b
        | |- forall m, _ -> consistent (throw _ m).2 =>
            intros m Hm; exact Hm
        | |- forall m, _ -> consistent (require_WritingHeader m).2 =>
            intros m Hm; rewrite require_WritingHeader_run; exact Hm
        end
      | (apply bind_keeps_consistent; [| intros ? ]) ].
Qed.

Lemma calls_consistent (calls : list Call) (m : StateMachine) :
  consistent m -> consistent (do_calls calls m).
Proof.
  revert m. induction calls as [| c calls IH]; intros m Hm; [ exact Hm |].
  cbn [perform_all fold_left]. apply IH. by apply call_consistent.
Qed.

(** X2. However a fresh response is called, nothing reaches the stream while
    it is in [State_WritingHeader]; afterwards the stream holds the status,
    then exactly one header block, then body chunks only, none of them
    empty. *)
Theorem response_stream_shape (isKeepAlive : bool) (calls : list Call) :
  let m := do_calls calls (new isKeepAlive) in
  match state_ m with
  | State_WritingHeader => stream_ m = []
  | _ => header_sent m
  end.
Proof.
  cbn zeta.
  pose proof (calls_consistent calls _ (consistent_new isKeepAlive)) as [_ H].
  destruct (state_ _); [ exact H | exact (proj1 H) | exact (proj1 H) ].
Qed.

(** X3. However a fresh response is called, [contentPosition_] is the number
    of body bytes handed to the stream, modulo 2^64; once the header is out
    it never exceeds a declared length; and a response in [State_Done] with
    a declared length has exactly that position, so that its destructor
    logs no error. *)
Theorem response_byte_count (isKeepAlive : bool) (calls : list Call) :
  let m := do_calls calls (new isKeepAlive) in
  contentPosition_ m = body_bytes (stream_ m) mod uint64_modulus /\
  (state_ m <> State_WritingHeader -> hasContentLength_ m = true ->
   status_ m = HttpStatus_200_Ok /\ contentPosition_ m <= contentLength_ m) /\
  (state_ m = State_WritingBody -> hasContentLength_ m = true) /\
  (state_ m = State_Done -> destructor_logs_error m = false).
Proof.
  cbn zeta.
  pose proof (calls_consistent calls _ (consistent_new isKeepAlive))
    as [Hpos H].
  split; [ exact Hpos |].
  unfold destructor_logs_error.
  destruct (state_ _); (split; [| split ]); try done.
  - intros _ Hhas. destruct H as (_ & _ & ? & ?). done.
  - intros _. by destruct H as (_ & ? & _).
  - intros _ Hhas. destruct H as [_ H]. destruct (H Hhas) as [? ->].
    split; [ done | lia ].
  - intros _. destruct H as [_ H].
    destruct (hasContentLength_ _); [| reflexivity ].
    destruct (H eq_refl) as [_ ->]. by rewrite N.eqb_refl.
Qed.

(** X4. Without a usable declared length (none was set, or the status is not
    200) the first [SendBody] sends the whole body: it returns and leaves
    the response in [State_Done], and every later [SendBody] of a non-empty
    chunk throws [ErrorCode_BadSequenceOfCalls]. *)
Theorem single_shot_body
    (m : StateMachine) (buffer more : string) (length length' : N) :
  state_ m = State_WritingHeader ->
  hasContentLength_ m = false \/ status_ m <> HttpStatus_200_Ok ->
  let first := send_body buffer length m in
  first.1 = Ok tt /\
  state_ first.2 = State_Done /\
  (length' <> 0 ->
   send_body more length' first.2
   = (Throw ErrorCode_BadSequenceOfCalls, first.2)).
Proof.
  destruct m as [str st status has cl pos ka hs]. cbn.
  intros -> Hsingle.
  assert (Hflag : has && (status =? HttpStatus_200_Ok) = false).
  { destruct Hsingle as [-> | Hne]; [ reflexivity |].
    apply N.eqb_neq in Hne. rewrite Hne. apply andb_false_r. }
  assert (Hfirst :
    (send_body buffer length
       (mkStateMachine str State_WritingHeader status has cl pos ka hs)).1
    = Ok tt /\
    state_ (send_body buffer length
       (mkStateMachine str State_WritingHeader status has cl pos ka hs)).2
    = State_Done).
  { destruct has; cbn in Hflag; run; branches; split; reflexivity. }
  destruct Hfirst as [Hok Hdone].
  split; [ exact Hok |]. split; [ exact Hdone |].
  intros Hlength. apply N.eqb_neq in Hlength.
  destruct (send_body buffer length _) as [r m']. cbn in *.
  destruct m'. cbn in Hdone. subst. run. by rewrite Hlength.
Qed.

(** X5. [SendStatus] refuses the four statuses that have a dedicated method
    with the out-of-range error, and a response that left
    [State_WritingHeader] with [ErrorCode_BadSequenceOfCalls], both without
    touching the response.  Otherwise it returns with the response in
    [State_Done], having sent the status and a header block made of the
    status line, the keep-alive line if any and [Content-Length: 0]: the
    headers added before and a declared length are dropped, and there is no
    body chunk. *)
Theorem SendStatus_outcome (status : HttpStatus) (m : StateMachine) :
  let reserved :=
    status = HttpStatus_200_Ok \/ status = HttpStatus_301_MovedPermanently \/
    status = HttpStatus_401_Unauthorized \/
    status = HttpStatus_405_MethodNotAllowed in
  let line := "HTTP/1.1 " +:+ decimal status +:+ " "
              +:+ EnumerationToString status +:+ CRLF in
  let line := if keepAlive_ m
              then line +:+ "Connection: keep-alive" +:+ CRLF else line in
  let text := line +:+ "Content-Length: " +:+ decimal 0 +:+ CRLF +:+ CRLF in
  let answer :=
    SendStatus EnumerationToString ErrorCode_ParameterOutOfRange status m in
  (reserved -> answer = (Throw ErrorCode_ParameterOutOfRange, m)) /\
  (~ reserved -> state_ m <> State_WritingHeader ->
   answer = (Throw ErrorCode_BadSequenceOfCalls, m)) /\
  (~ reserved -> state_ m = State_WritingHeader ->
   answer.1 = Ok tt /\
   state_ answer.2 = State_Done /\
   stream_ answer.2 =
     stream_ m ++ [OnHttpStatusReceived status;
                   Send true text (N.of_nat (String.length text))]).
Proof.
  cbn zeta. unfold SendStatus.
  destruct ((status =? HttpStatus_200_Ok)
            || (status =? HttpStatus_301_MovedPermanently)
            || (status =? HttpStatus_401_Unauthorized)
            || (status =? HttpStatus_405_MethodNotAllowed)) eqn:Hreserved.
  - split; [ reflexivity |].
    apply orb_true_iff in Hreserved as [Hreserved | ?%N.eqb_eq];
      [| split; intros []; tauto ].
    apply orb_true_iff in Hreserved as [Hreserved | ?%N.eqb_eq];
      [| split; intros []; tauto ].
    apply orb_true_iff in Hreserved as [?%N.eqb_eq | ?%N.eqb_eq];
      split; intros []; tauto.
  - apply orb_false_iff in Hreserved as [Hreserved H405].
    apply orb_false_iff in Hreserved as [Hreserved H401].
    apply orb_false_iff in Hreserved as [H200 H301].
    split.
    { intros [-> | [-> | [-> | ->]]]; discriminate. }
    destruct m as [str st status' has cl pos ka hs].
    split; intros _ Hst; cbn in Hst.
    + destruct st; [ done | |]; run; branches; reflexivity.
    + subst st. run; branches; try congruence;
        unfold header_text, header_prefix; cbn;
        rewrite <- ?app_assoc; done.
Qed.

(** X6. [Redirect], [SendUnauthorized] and [SendMethodNotAllowed] throw
    [ErrorCode_BadSequenceOfCalls] and leave the response untouched once it
    left [State_WritingHeader].  In [State_WritingHeader] they return with
    the response in [State_Done], having sent their status (301, 401, 405)
    and a header block made of the status line, the keep-alive line if any,
    their one header (Location, WWW-Authenticate, Allow) and
    [Content-Length: 0]: earlier headers and a declared length are
    dropped. *)
Theorem dedicated_answers (m : StateMachine) :
  let answers (c : Method unit) (status : HttpStatus) (header : string)
      : Prop :=
    let line := "HTTP/1.1 " +:+ decimal status +:+ " "
                +:+ EnumerationToString status +:+ CRLF in
    let line := if keepAlive_ m
                then line +:+ "Connection: keep-alive" +:+ CRLF else line in
    let text := (line +:+ header) +:+ "Content-Length: " +:+ decimal 0
                +:+ CRLF +:+ CRLF in
    match state_ m with
    | State_WritingHeader =>
        (c m).1 = Ok tt /\
        state_ (c m).2 = State_Done /\
        stream_ (c m).2 =
          stream_ m ++ [OnHttpStatusReceived status;
                        Send true text (N.of_nat (String.length text))]
    | _ => c m = (Throw ErrorCode_BadSequenceOfCalls, m)
    end in
  (forall path,
     answers (Redirect EnumerationToString path)
       HttpStatus_301_MovedPermanently
       ("Location" +:+ ": " +:+ path +:+ CRLF)) /\
  (forall realm,
     answers (SendUnauthorized EnumerationToString realm)
       HttpStatus_401_Unauthorized
       ("WWW-Authenticate" +:+ ": "
        +:+ ("Basic realm=" +:+ double_quote +:+ realm +:+ double_quote)
        +:+ CRLF)) /\
  (forall allowed,
     answers (SendMethodNotAllowed EnumerationToString allowed)
       HttpStatus_405_MethodNotAllowed
       ("Allow" +:+ ": " +:+ allowed +:+ CRLF)).
Proof.
  cbn zeta. destruct m as [str st status' has cl pos ka hs].
  repeat split; intros; destruct st; run; branches; try reflexivity;
    try congruence;
    unfold header_text, header_prefix; cbn;
    rewrite <- ?app_assoc; done.
Qed.

Lemma fold_left_append (lines : list string) (line start : string) :
  fold_left (fun acc h => acc +:+ h) (lines ++ [line]) start
  = fold_left (fun acc h => acc +:+ h) lines start +:+ line.
Proof. by rewrite fold_left_app. Qed.

(** X7. While the response is in [State_WritingHeader], [AddHeader],
    [SetCookie], [SetContentType] and [SetContentFilename] each append one
    line to the text that [SendBody] will send before the Content-Length
    line, after the lines added before; [ClearHeaders] brings that text back
    to the status line and the keep-alive line. *)
Theorem header_lines (m : StateMachine) :
  state_ m = State_WritingHeader ->
  let prefix := header_prefix EnumerationToString in
  (forall header value,
     prefix (AddHeader header value m).2
     = prefix m +:+ (header +:+ ": " +:+ value +:+ CRLF)) /\
  (forall cookie value,
     prefix (SetCookie cookie value m).2
     = prefix m +:+ ("Set-Cookie" +:+ ": " +:+ (cookie +:+ "=" +:+ value)
                     +:+ CRLF)) /\
  (forall contentType,
     prefix (SetContentType contentType m).2
     = prefix m +:+ ("Content-Type" +:+ ": " +:+ contentType +:+ CRLF)) /\
  (forall filename,
     prefix (SetContentFilename filename m).2
     = prefix m +:+ ("Content-Disposition" +:+ ": "
                     +:+ ("filename=" +:+ double_quote +:+ filename
                          +:+ double_quote) +:+ CRLF)) /\
  prefix (ClearHeaders m).2 = prefix (set_headers [] m) /\
  headers_ (ClearHeaders m).2 = [].
Proof.
  destruct m as [str st status has cl pos ka hs]. cbn. intros ->.
  repeat split; intros; run; branches; unfold header_prefix; cbn;
    rewrite ?fold_left_append; reflexivity.
Qed.

(** One chunk of a body whose header is out, within the declared length. *)
Lemma SendBody_within (buffer : string) (length : N) (m : StateMachine) :
  state_ m <> State_WritingHeader ->
  hasContentLength_ m = true ->
  contentLength_ m < uint64_modulus ->
  contentPosition_ m + length <= contentLength_ m ->
  (state_ m = State_Done -> contentPosition_ m = contentLength_ m) ->
  let r := send_body buffer length m in
  r.1 = Ok tt /\
  hasContentLength_ r.2 = true /\
  contentLength_ r.2 = contentLength_ m /\
  contentPosition_ r.2 = contentPosition_ m + length /\
  state_ r.2 = (if contentPosition_ m + length =? contentLength_ m
                then State_Done else state_ m) /\
  stream_ r.2 = stream_ m ++ (if 0 <? length
                              then [Send false buffer length] else []).
Proof.
  destruct m as [str st status has cl pos ka hs]. cbn.
  intros Hst -> Hcl Hle Hdone.
  assert (Hsmall : (pos + length) mod uint64_modulus = pos + length)
    by (apply N.mod_small; lia).
  destruct st; [ done | |].
  - run; branches; to_arith; unfold add64 in *; rewrite ?Hsmall in *;
      repeat split; try lia; try congruence;
      rewrite ?app_nil_r; try reflexivity;
      repeat match goal with
             | |- context [?a =? ?b] =>
                 first [ rewrite (proj2 (N.eqb_eq a b)) by lia
                       | rewrite (proj2 (N.eqb_neq a b)) by lia ]
             end; try reflexivity.
  - specialize (Hdone eq_refl). subst cl.
    assert (length = 0) as -> by lia.
    run. rewrite N.add_0_r, N.eqb_refl, app_nil_r. done.
Qed.

Lemma SendBody_after_header (buffer : string) (length : N) (m : StateMachine) :
  state_ m = State_WritingHeader ->
  send_body buffer length m
  = send_body buffer length (flush_header EnumerationToString length m).2.
Proof.
  destruct m as [str st status has cl pos ka hs]. cbn. intros ->.
  run; branches; first [ reflexivity | congruence ].
Qed.

Lemma body_lengths_app (s1 s2 : list StreamEvent) :
  body_lengths (s1 ++ s2) = body_lengths s1 ++ body_lengths s2.
Proof. apply omap_app. Qed.

(** The chunks of a body whose header is out, when they add up to what is
    left of the declared length. *)
Lemma chunks_within (chunks : list (string * N)) (m : StateMachine) :
  state_ m <> State_WritingHeader ->
  hasContentLength_ m = true ->
  contentLength_ m < uint64_modulus ->
  contentPosition_ m + foldr (fun c acc => c.2 + acc) 0 chunks
  = contentLength_ m ->
  (state_ m = State_Done -> contentPosition_ m = contentLength_ m) ->
  let r := for_each chunks (fun c => send_body c.1 c.2) m in
  r.1 = Ok tt /\
  contentPosition_ r.2 = contentLength_ m /\
  (chunks <> [] -> state_ r.2 = State_Done) /\
  stream_ r.2
  = stream_ m ++ map (fun c => Send false c.1 c.2)
                     (filter (fun c => 0 < c.2) chunks).
Proof.
  revert m. induction chunks as [| [buffer length] chunks IH];
    intros m Hst Hhas Hcl Hsum Hdone; cbn zeta.
  - cbn in *. rewrite N.add_0_r in Hsum.
    repeat split; [ done | done | by rewrite app_nil_r ].
  - cbn [for_each foldr snd fst] in *.
    destruct (SendBody_within buffer length m Hst Hhas Hcl) as
      (Hok & Hhas' & Hcl' & Hpos' & Hst' & Hstream'); [ lia | exact Hdone |].
    unfold mbind, Stateful_bind, bind.
    destruct (send_body buffer length m) as [[[] | e] m'] eqn:Hsend;
      [| discriminate ].
    cbn [fst snd] in *.
    assert (Hne : state_ m' <> State_WritingHeader).
    { rewrite Hst'. destruct (_ =? _); [ discriminate | exact Hst ]. }
    assert (Hdone' : state_ m' = State_Done ->
                     contentPosition_ m' = contentLength_ m').
    { rewrite Hst', Hpos', Hcl'.
      destruct (_ =? _) eqn:Heq; [ intros _; by apply N.eqb_eq |].
      intros Hd. rewrite (Hdone Hd) in Heq. apply N.eqb_neq in Heq.
      rewrite (Hdone Hd) in Hsum. lia. }
    destruct (IH m' Hne Hhas') as (Hok'' & Hpos'' & Hst'' & Hstream'');
      [ by rewrite Hcl' | rewrite Hpos', Hcl'; lia | exact Hdone' |].
    cbn zeta in Hok'', Hpos'', Hst'', Hstream''.
    split; [ exact Hok'' |]. split; [ by rewrite Hpos'', Hcl' |].
    split.
    + intros _. destruct chunks as [| c chunks'].
      * cbn. cbn in Hsum. rewrite N.add_0_r in Hsum.
        rewrite Hst'. rewrite (proj2 (N.eqb_eq _ _)) by lia. reflexivity.
      * apply Hst''. discriminate.
    + rewrite Hstream'', Hstream', <- app_assoc.
      f_equal. rewrite filter_cons. cbn [snd].
      destruct (0 <? length) eqn:Hl.
      * apply N.ltb_lt in Hl. rewrite decide_True by exact Hl. reflexivity.
      * apply N.ltb_ge in Hl. rewrite decide_False by lia. reflexivity.
Qed.

(** The lengths of the body chunks on a stream that received the chunks
    [chunks]. *)
Lemma body_lengths_chunks (chunks : list (string * N)) :
  body_lengths (map (fun c => Send false c.1 c.2) chunks) = map snd chunks.
Proof.
  induction chunks as [| c chunks IH]; [ reflexivity |].
  cbn. unfold body_lengths in IH. by rewrite IH.
Qed.

(** X8. With a declared length below 2^64 and status 200, a body sent in any
    number of chunks (at least one) whose lengths add up to the declared
    length goes through: every [SendBody] returns, the response ends in
    [State_Done] with [contentPosition_] at the declared length, and the
    stream received the status, the header block with the declared length,
    and then the non-empty chunks, each with its buffer and its length, in
    the order of the calls, and nothing else. *)
Theorem chunks_meet_declared_length
    (chunks : list (string * N)) (m : StateMachine) :
  state_ m = State_WritingHeader ->
  hasContentLength_ m = true ->
  status_ m = HttpStatus_200_Ok ->
  contentPosition_ m = 0 ->
  contentLength_ m < uint64_modulus ->
  chunks <> [] ->
  foldr (fun c acc => c.2 + acc) 0 chunks = contentLength_ m ->
  let r := for_each chunks (fun c => send_body c.1 c.2) m in
  let text := header_text EnumerationToString m (contentLength_ m) in
  r.1 = Ok tt /\
  state_ r.2 = State_Done /\
  contentPosition_ r.2 = contentLength_ m /\
  stream_ r.2
  = stream_ m ++
    OnHttpStatusReceived HttpStatus_200_Ok
    :: Send true text (N.of_nat (String.length text))
    :: map (fun c => Send false c.1 c.2) (filter (fun c => 0 < c.2) chunks) /\
  body_lengths (stream_ r.2)
  = body_lengths (stream_ m) ++ filter (fun l => 0 < l) (map snd chunks).
Proof.
  intros Hst Hhas Hstatus Hpos Hcl Hne Hsum.
  destruct chunks as [| [buffer length] chunks]; [ done |].
  assert (Hflushed :
    let f := (flush_header EnumerationToString length m).2 in
    state_ f = State_WritingBody /\ hasContentLength_ f = true /\
    contentLength_ f = contentLength_ m /\ contentPosition_ f = 0 /\
    stream_ f
    = stream_ m ++
      [ OnHttpStatusReceived HttpStatus_200_Ok;
        Send true (header_text EnumerationToString m (contentLength_ m))
          (N.of_nat (String.length
                       (header_text EnumerationToString m
                          (contentLength_ m)))) ]).
  { destruct m as [str st status has cl pos ka hs]. cbn in *. subst.
    run; branches; cbn; repeat split; try congruence;
      rewrite <- ?app_assoc; reflexivity. }
  cbn zeta in Hflushed.
  destruct Hflushed as (Hst' & Hhas' & Hcl' & Hpos' & Hstream').
  pose proof (chunks_within ((buffer, length) :: chunks)
                (flush_header EnumerationToString length m).2) as H.
  cbn zeta in H |- *. cbn [for_each fst snd] in H |- *.
  unfold mbind, Stateful_bind, bind in H |- *.
  rewrite (SendBody_after_header buffer length m Hst).
  rewrite Hcl', Hpos', Hstream' in H.
  destruct H as (Hok & Hend & Hdone & Hstream).
  - rewrite Hst'. discriminate.
  - exact Hhas'.
  - exact Hcl.
  - rewrite N.add_0_l. exact Hsum.
  - rewrite Hst'. discriminate.
  - assert (Hsent :
      stream_ (let (r, s') :=
                 send_body buffer length
                   (flush_header EnumerationToString length m).2 in
               match r with
               | Ok a => for_each chunks (fun c => send_body c.1 c.2) s'
               | Throw e => (Throw e, s')
               end).2
      = stream_ m ++
        OnHttpStatusReceived HttpStatus_200_Ok
        :: Send true (header_text EnumerationToString m (contentLength_ m))
             (N.of_nat (String.length
                          (header_text EnumerationToString m
                             (contentLength_ m))))
        :: map (fun c => Send false c.1 c.2)
             (filter (fun c => 0 < c.2) ((buffer, length) :: chunks))).
    { rewrite Hstream, <- app_assoc. reflexivity. }
    split; [ exact Hok |]. split; [ by apply Hdone |].
    split; [ exact Hend |]. split; [ exact Hsent |].
    rewrite Hsent, body_lengths_app. f_equal.
    match goal with
    | |- body_lengths (?status :: ?header :: ?body) = _ =>
        change (body_lengths (status :: header :: body))
          with (body_lengths body)
    end.
    rewrite body_lengths_chunks.
    generalize ((buffer, length) :: chunks). clear.
    intros l. induction l as [| c l IH]; [ reflexivity |].
    cbn [map]. rewrite !filter_cons. cbn [snd].
    destruct (decide (0 < c.2)); cbn [map]; by rewrite IH.
Qed.

End HttpOutputCalls.

(** ** Deletions and the listener *)

Section DeleteResourceEffects.

Import ServerIndex.

Lemma deliver_all_files (signals : list Signal) (l : ServerIndexListener) :
  removedFiles_ (deliver_all l signals)
  = removedFiles_ l ++ deleted_files signals.
Proof.
  revert l. induction signals as [| s signals IH]; intros l.
  - cbn. by rewrite app_nil_r.
  - unfold deliver_all in *. cbn [fold_left]. rewrite IH.
    destruct s as [t p | u]; cbn.
    + unfold SignalRemainingAncestor.
      destruct (hasRemainingLevel_ l); [| reflexivity ].
      by destruct (ResourceType_ltb t (remainingType_ l)).
    + by rewrite <- app_assoc.
Qed.

Variable db_DeleteResource : Z -> DatabaseWrapper -> DatabaseWrapper * list Signal.
Variable GetBasePath : ResourceType -> string -> string.
Variable ToString : ResourceType -> string.

(** X9. [DeleteResource] returns true exactly when the public id is that of
    a resource of the expected kind.  Then the database is the one that the
    cascade left and the files handed to [RemoveFile] are those that the
    cascade signalled as deleted, in the order of the signals.  Otherwise
    the database is untouched, no file is removed and the listener holds no
    remaining level. *)
Theorem DeleteResource_effects
    (uuid : string) (expectedType : ResourceType) (index : ServerIndex) :
  let r := DeleteResource db_DeleteResource GetBasePath ToString
             uuid expectedType index in
  let refused :=
    r.1 = Delete_false /\
    db_ r.2 = db_ index /\
    removedFiles_ (listener_ r.2) = removedFiles_ (listener_ index) /\
    hasRemainingLevel_ (listener_ r.2) = false in
  match find_resource uuid (Resources (db_ index)) with
  | Some row =>
      if decide (resourceType row = expectedType)
      then
        let cascade := db_DeleteResource (internalId row) (db_ index) in
        r.1 <> Delete_false /\
        db_ r.2 = cascade.1 /\
        removedFiles_ (listener_ r.2)
        = removedFiles_ (listener_ index) ++ deleted_files cascade.2
      else refused
  | None => refused
  end.
Proof.
  cbn zeta. unfold DeleteResource, LookupResource, read. cbn [fst].
  destruct (find_resource uuid (Resources (db_ index))) as [row |];
    [| by repeat split ].
  destruct (decide (resourceType row = expectedType)) as [Heq | Hne].
  - destruct (decide (expectedType <> resourceType row)) as [Hne | _];
      [ by destruct Hne |].
    cbn [fst snd db_ listener_].
    split; [ discriminate |]. split; [ reflexivity |].
    by rewrite deliver_all_files.
  - destruct (decide (expectedType <> resourceType row)) as [_ | Heq];
      [ by repeat split |].
    exfalso. apply Hne. symmetry. by apply dec_stable.
Qed.

(** X10. Among several remaining ancestors of the same, minimal kind the
    listener keeps the one that was signalled first: a callback whose kind
    is strictly below all earlier ones and not above any later one is the
    record that a reset listener holds after the stream. *)
Theorem listener_keeps_first_minimum
    (before after : list Signal) (t : ResourceType) (p : string)
    (l : ServerIndexListener) :
  Forall (fun a => level_rank t < level_rank a.1) (remaining_ancestors before) ->
  Forall (fun a => level_rank t <= level_rank a.1) (remaining_ancestors after) ->
  let l' := deliver_all (Reset l)
              (before ++ RemainingAncestor t p :: after) in
  HasRemainingLevel l' = true /\
  GetRemainingType l' = t /\
  GetRemainingPublicId l' = p.
Proof.
  intros Hbefore Hafter. cbn zeta.
  unfold deliver_all. rewrite fold_left_app. cbn [fold_left].
  fold (deliver_all (Reset l) before).
  set (l1 := deliver_all (Reset l) before).
  assert (Hl1 : hasRemainingLevel_ l1 = true ->
                level_rank t < level_rank (remainingType_ l1)).
  { intros Hhas.
    pose proof (deliver_all_minimum before (Reset l)) as [_ Hheld].
    destruct (Hheld Hhas) as [[[Habs _] | Hin] _]; [ discriminate |].
    rewrite Forall_forall in Hbefore. exact (Hbefore _ Hin). }
  set (l2 := deliver l1 (RemainingAncestor t p)).
  assert (Hl2 : hasRemainingLevel_ l2 = true /\ remainingType_ l2 = t /\
                remainingPublicId_ l2 = p).
  { unfold l2. cbn. unfold SignalRemainingAncestor, ResourceType_ltb.
    destruct (hasRemainingLevel_ l1); [| done ].
    rewrite (proj2 (N.ltb_lt _ _) (Hl1 eq_refl)). done. }
  clearbody l2. clear Hl1 l1 Hbefore.
  revert l2 Hl2. induction after as [| s after IH]; intros l2 Hl2; [ exact Hl2 |].
  cbn [fold_left]. apply IH.
  - destruct s; [| exact Hafter ].
    cbn in Hafter. by apply Forall_cons in Hafter as [_ ?].
  - destruct Hl2 as (Hhas & Ht & Hp).
    destruct s as [t' p' | u]; cbn; [| done ].
    unfold SignalRemainingAncestor, ResourceType_ltb. rewrite Hhas, Ht.
    cbn in Hafter. apply Forall_cons in Hafter as [Hle _]. cbn in Hle.
    rewrite (proj2 (N.ltb_ge _ _) Hle). done.
Qed.

End DeleteResourceEffects.

(** ** Complete and incomplete series *)

Section SeriesStatusMeaning.

Import ServerIndex.

Variable lexical_cast_size_t : string -> option N.

Abbreviation series_loop := (GetSeriesStatus_loop lexical_cast_size_t).
Abbreviation index_in_series := (child_index lexical_cast_size_t).
Abbreviation cleanly_indexed := (well_indexed lexical_cast_size_t).

Lemma elem_of_indices_upto (expected i : N) :
  i ∈ indices_upto expected <-> 0 < i <= expected.
Proof.
  unfold indices_upto. rewrite list_elem_of_fmap. split.
  - intros (n & -> & Hn%elem_of_seq). lia.
  - intros Hi. exists (N.to_nat i). split; [ lia |].
    apply elem_of_seq. lia.
Qed.

Lemma NoDup_indices_upto (expected : N) : NoDup (indices_upto expected).
Proof.
  unfold indices_upto. apply NoDup_fmap_2; [| apply NoDup_seq ].
  intros x y. lia.
Qed.

Lemma length_indices_upto (expected : N) :
  List.length (indices_upto expected) = N.to_nat expected.
Proof. unfold indices_upto. by rewrite length_map, length_seq. Qed.

(** Distinct indices within 1..expected are at most [expected] many, and
    all of 1..expected when they are that many. *)
Lemma distinct_indices (expected : N) (indices : list N) :
  Forall (fun i => 0 < i <= expected) indices -> NoDup indices ->
  (List.length indices <= N.to_nat expected)%nat /\
  (List.length indices = N.to_nat expected ->
   indices ≡ₚ indices_upto expected).
Proof.
  intros Hrange Hdup.
  assert (Hsub : indices ⊆+ indices_upto expected).
  { apply NoDup_submseteq; [ exact Hdup |].
    intros i Hi. apply elem_of_indices_upto.
    rewrite Forall_forall in Hrange. by apply Hrange. }
  split.
  - rewrite <- length_indices_upto. by apply submseteq_length.
  - intros Hlen. apply submseteq_length_Permutation; [ exact Hsub |].
    rewrite length_indices_upto. lia.
Qed.

(** A loop that ends in Complete or Missing met only numeric, in-range and
    new indices. *)
Lemma GetSeriesStatus_loop_clean (db db' : DatabaseWrapper) (expected : N)
    (children : list Z) (instances : gset N) (status : SeriesStatus) :
  series_loop expected children instances db = (Ok status, db') ->
  status = SeriesStatus_Complete \/ status = SeriesStatus_Missing ->
  exists indices,
    cleanly_indexed db expected children indices /\
    (forall i, i ∈ indices -> i ∉ instances) /\
    status = if N.of_nat (size instances + List.length indices) =? expected
             then SeriesStatus_Complete else SeriesStatus_Missing.
Proof.
  revert instances.
  induction children as [| it rest IH]; intros instances Hrun Hstatus.
  - rewrite GetSeriesStatus_loop_nil in Hrun. injection Hrun as <- _.
    exists []. repeat split; try constructor.
    + intros i Hi. by apply elem_of_nil in Hi.
    + cbn. by rewrite Nat.add_0_r.
  - rewrite GetSeriesStatus_loop_cons in Hrun.
    destruct (index_in_series db it) as [i |] eqn:Hit;
      [| injection Hrun as <- _; by destruct Hstatus ].
    destruct ((i <=? 0) || (expected <? i)) eqn:Hrange;
      [ injection Hrun as <- _; by destruct Hstatus |].
    destruct (bool_decide (i ∈ instances)) eqn:Hseen;
      [ injection Hrun as <- _; by destruct Hstatus |].
    apply bool_decide_eq_false in Hseen.
    apply orb_false_iff in Hrange as [Hlow%N.leb_gt Hhigh%N.ltb_ge].
    destruct (IH _ Hrun Hstatus) as (indices & (Hmap & Hin & Hdup) & Hnew & ->).
    exists (i :: indices). split; [| split ].
    + split; [| split ].
      * cbn. by rewrite Hit, Hmap.
      * apply Forall_cons. split; [ lia | exact Hin ].
      * apply NoDup_cons. split; [| exact Hdup ].
        intros Hi. apply (Hnew i Hi). apply elem_of_union. left.
        by apply elem_of_singleton.
    + intros j [-> | Hj]%elem_of_cons; [ exact Hseen |].
      intros Hj'. apply (Hnew j Hj). apply elem_of_union. by right.
    + rewrite size_union by (apply disjoint_singleton_l; exact Hseen).
      rewrite size_singleton. cbn [List.length].
      by replace (1 + size instances + List.length indices)%nat
        with (size instances + S (List.length indices))%nat by lia.
Qed.

(** X11. [GetSeriesStatus] answers Complete exactly when the expected number
    of instances is numeric and the indices of the child instances are all
    numeric and are, in some order, 1, 2, ..., expected, each once. *)
Theorem GetSeriesStatus_complete_iff (db : DatabaseWrapper) (id : Z) :
  (GetSeriesStatus lexical_cast_size_t id db).1 = Ok SeriesStatus_Complete <->
  exists expected indices,
    lexical_cast_size_t
      (metadata_value db id MetadataType_Series_ExpectedNumberOfInstances)
    = Some expected /\
    map (index_in_series db) (children_of db id) = map Some indices /\
    indices ≡ₚ indices_upto expected.
Proof.
  rewrite GetSeriesStatus_run.
  destruct (lexical_cast_size_t _) as [expected |] eqn:Hexpected.
  2: { split; [ discriminate | by intros (? & ? & ? & _) ]. }
  split.
  - intros Hrun.
    destruct (series_loop expected (children_of db id) ∅ db)
      as [r db'] eqn:Hloop.
    cbn in Hrun. subst r.
    destruct (GetSeriesStatus_loop_clean _ _ _ _ _ _ Hloop (or_introl eq_refl))
      as (indices & (Hmap & Hin & Hdup) & _ & Hcount).
    exists expected, indices. split; [ done |]. split; [ exact Hmap |].
    apply distinct_indices; [ exact Hin | exact Hdup |].
    rewrite size_empty in Hcount. cbn in Hcount.
    destruct (N.of_nat (List.length indices) =? expected) eqn:Heq;
      [| discriminate ].
    apply N.eqb_eq in Heq. lia.
  - intros (expected' & indices & [= <-] & Hmap & Hperm).
    assert (Hclean : cleanly_indexed db expected (children_of db id) indices).
    { split; [ exact Hmap |]. split.
      - apply Forall_forall. intros i Hi. apply elem_of_indices_upto.
        by rewrite <- Hperm.
      - rewrite Hperm. apply NoDup_indices_upto. }
    rewrite <- (app_nil_r (children_of db id)).
    rewrite (GetSeriesStatus_loop_prefix _ db expected _ [] indices)
      by (exact Hclean || (intros; apply not_elem_of_empty)).
    rewrite GetSeriesStatus_loop_nil. cbn [fst]. f_equal.
    rewrite (right_id_L ∅ (∪)), size_list_to_set by apply Hclean.
    rewrite (Permutation_length Hperm), length_indices_upto.
    rewrite N2Nat.id, N.eqb_refl. reflexivity.
Qed.

(** X12. [GetSeriesStatus] answers Missing exactly when the expected number
    is numeric, the indices of the child instances are numeric, within
    1..expected and pairwise distinct, and there are fewer child instances
    than expected; it never stands for too many instances. *)
Theorem GetSeriesStatus_missing_iff (db : DatabaseWrapper) (id : Z) :
  (GetSeriesStatus lexical_cast_size_t id db).1 = Ok SeriesStatus_Missing <->
  exists expected indices,
    lexical_cast_size_t
      (metadata_value db id MetadataType_Series_ExpectedNumberOfInstances)
    = Some expected /\
    cleanly_indexed db expected (children_of db id) indices /\
    N.of_nat (List.length (children_of db id)) < expected.
Proof.
  rewrite GetSeriesStatus_run.
  destruct (lexical_cast_size_t _) as [expected |] eqn:Hexpected.
  2: { split; [ discriminate | by intros (? & ? & ? & _) ]. }
  split.
  - intros Hrun.
    destruct (series_loop expected (children_of db id) ∅ db)
      as [r db'] eqn:Hloop.
    cbn in Hrun. subst r.
    destruct (GetSeriesStatus_loop_clean _ _ _ _ _ _ Hloop (or_intror eq_refl))
      as (indices & Hclean & _ & Hcount).
    exists expected, indices. split; [ done |]. split; [ exact Hclean |].
    destruct Hclean as (Hmap & Hin & Hdup).
    assert (Hlen : List.length (children_of db id) = List.length indices).
    { rewrite <- (length_map (index_in_series db)), Hmap. apply length_map. }
    destruct (distinct_indices expected indices Hin Hdup) as [Hle _].
    rewrite size_empty in Hcount. cbn in Hcount.
    destruct (N.of_nat (List.length indices) =? expected) eqn:Heq;
      [ discriminate |].
    apply N.eqb_neq in Heq. lia.
  - intros (expected' & indices & [= <-] & Hclean & Hfew).
    assert (Hlen : List.length (children_of db id) = List.length indices).
    { destruct Hclean as (Hmap & _).
      rewrite <- (length_map (index_in_series db)), Hmap. apply length_map. }
    rewrite <- (app_nil_r (children_of db id)).
    rewrite (GetSeriesStatus_loop_prefix _ db expected _ [] indices)
      by (exact Hclean || (intros; apply not_elem_of_empty)).
    rewrite GetSeriesStatus_loop_nil. cbn [fst]. f_equal.
    rewrite (right_id_L ∅ (∪)), size_list_to_set by apply Hclean.
    rewrite (proj2 (N.eqb_neq _ _)) by lia. reflexivity.
Qed.

End SeriesStatusMeaning.

(** ** The handlers of resources *)

Section ResourceHandlers.

Import ServerIndex AnonymizeModify.

Variable ServerContext : Type.
Variable ParsedDicomFile : Type.
Variable asString : Json -> Result string.
Variable ParseTag : string -> Result DicomTag.
Variable IncrementGlobalSequence : GlobalProperty -> Stateful ServerContext N.
Variable GetChildInstances : string -> Stateful ServerContext (list string).
Variable DicomCacheLocker : string -> Stateful ServerContext ParsedDicomFile.
Variable Context_Store
  : DicomInstanceToStore ParsedDicomFile ->
    Stateful ServerContext (StoreStatus * string).
Variable Apply : ParsedDicomFile -> Stateful DicomModification ParsedDicomFile.
Variables HashPatient HashStudy HashSeries HashInstance
  : ParsedDicomFile -> string.
Variable EnumerationToString : ResourceType -> string.
Variable GetBasePath : ResourceType -> string -> string.
Variable defaults : gmap DicomTag string.
Variables randomPatientName randomPatientID : string.

Abbreviation loop :=
  (instances_loop ServerContext ParsedDicomFile DicomCacheLocker Context_Store
     Apply HashPatient HashStudy HashSeries EnumerationToString GetBasePath).
Abbreviation handler :=
  (AnonymizeOrModifyResource ServerContext ParsedDicomFile GetChildInstances
     DicomCacheLocker Context_Store Apply HashPatient HashStudy HashSeries
     EnumerationToString GetBasePath).
Abbreviation first_answer :=
  (first_result ParsedDicomFile HashPatient HashStudy HashSeries
     EnumerationToString GetBasePath).
Abbreviation metadata_of :=
  (prepare_metadata ParsedDicomFile HashPatient HashStudy HashSeries).
Abbreviation hash_of :=
  (hash_at ParsedDicomFile HashPatient HashStudy HashSeries HashInstance).
Abbreviation every_lock_fails :=
  (locks_fail ServerContext ParsedDicomFile DicomCacheLocker).

(** The loop from the call of the store on, as in [instances_loop_stores]. *)
Abbreviation store_and_go_on metadataType resourceType rest isFirst result
    modified t' context1 toStore :=
  (match Context_Store toStore context1 with
   | (Ok stored, context2) =>
       if decide (stored.1 <> StoreStatus_Success)
       then (Ok Loop_returned, (t', context2))
       else
         if isFirst : bool
         then
           match first_answer resourceType modified with
           | Ok first =>
               loop metadataType resourceType rest false first (t', context2)
           | Throw e => (Throw e, (t', context2))
           end
         else
           loop metadataType resourceType rest isFirst result (t', context2)
   | (Throw e, context2) => (Throw e, (t', context2))
   end).

(** The metadata prepared from the two hashers ends with the entry that
    links the instance itself; every entry has the kind given to the
    handler; no level has two entries; and an entry at the Instance level is
    that last one. *)
Lemma prepare_metadata_shape (metadataType : MetadataType) (it : string)
    (original modified : ParsedDicomFile) :
  let m := metadata_of metadataType it original modified in
  last m = Some (ResourceType_Instance, metadataType, it) /\
  Forall (fun entry => entry.1.2 = metadataType) m /\
  NoDup (map (fun entry => entry.1.1) m) /\
  (forall kind value,
     (ResourceType_Instance, kind, value) ∈ m <->
     kind = metadataType /\ value = it).
Proof.
  clear - ParsedDicomFile HashPatient HashStudy HashSeries metadataType it
    original modified.
  unfold prepare_metadata.
  destruct (decide (HashSeries original <> HashSeries modified));
    destruct (decide (HashStudy original <> HashStudy modified));
    destruct (decide (HashPatient original <> HashPatient modified));
    cbn [app last map fst snd];
    (split; [ reflexivity |]);
    (split; [ repeat (apply Forall_cons; split; [ reflexivity |]);
             apply Forall_nil_2 |]);
    (split;
     [ repeat (apply NoDup_cons; split;
               [ rewrite ?elem_of_cons, elem_of_nil; intros H;
                 repeat destruct H as [H | H]; done |]);
       apply NoDup_nil_2
     | intros kind value; rewrite ?elem_of_cons, elem_of_nil; split;
       [ intros H; repeat destruct H as [H | H]; simplify_eq; done
       | intros [-> ->]; tauto ] ]).
Qed.

(** X13. In the loop over the instances, each child instance that is locked
    and modified is handed to the store with a list of metadata that ends
    with the entry linking the instance itself to the original instance;
    every entry of the list has the kind given to the handler, no level has
    two entries, and the entry at the Instance level is that last one. *)
Theorem instances_loop_metadata_shape (metadataType : MetadataType)
    (resourceType : ResourceType) (pre rest : list string) (it : string)
    (isFirst0 isFirst : bool) (result0 result : list (string * string))
    (s1 : DicomModification * ServerContext)
    (t t' : DicomModification) (context context1 : ServerContext)
    (original modified : ParsedDicomFile) :
  loop metadataType resourceType pre isFirst0 result0 s1
  = (Ok (Loop_finished isFirst result), (t, context)) ->
  DicomCacheLocker it context = (Ok original, context1) ->
  Apply original t = (Ok modified, t') ->
  exists attached : list (ResourceType * MetadataType * string),
    last attached = Some (ResourceType_Instance, metadataType, it) /\
    Forall (fun entry => entry.1.2 = metadataType) attached /\
    NoDup (map (fun entry => entry.1.1) attached) /\
    (forall kind value,
       (ResourceType_Instance, kind, value) ∈ attached <->
       kind = metadataType /\ value = it) /\
    loop metadataType resourceType (pre ++ it :: rest) isFirst0 result0 s1
    = store_and_go_on metadataType resourceType rest isFirst result
        modified t' context1
        {| parsedDicomFile := modified; metadata := attached |}.
Proof.
  intros Hpre Hlock Happly.
  exists (metadata_of metadataType it original modified).
  destruct (prepare_metadata_shape metadataType it original modified)
    as (Hlast & Hkind & Hlevels & Hinstance).
  split; [ exact Hlast |]. split; [ exact Hkind |].
  split; [ exact Hlevels |]. split; [ exact Hinstance |].
  exact (instances_loop_stores ServerContext ParsedDicomFile DicomCacheLocker
           Context_Store Apply HashPatient HashStudy HashSeries
           EnumerationToString GetBasePath metadataType resourceType
           pre rest it isFirst0 isFirst result0 result s1 t t'
           context context1 original modified Hpre Hlock Happly).
Qed.

(** Once the answer is filled, the loop keeps it; before, it stays empty
    until an instance is stored, and is then the description of that
    instance. *)
Lemma instances_loop_result (metadataType : MetadataType)
    (resourceType : ResourceType) (instances : list string) (isFirst isFirst' : bool)
    (result result' : list (string * string))
    (s s' : DicomModification * ServerContext) :
  loop metadataType resourceType instances isFirst result s
  = (Ok (Loop_finished isFirst' result'), s') ->
  (isFirst' = isFirst /\ result' = result) \/
  (isFirst = true /\ isFirst' = false /\
   exists modified, first_answer resourceType modified = Ok result').
Proof.
  revert isFirst result s.
  induction instances as [| it rest IH]; intros isFirst result s Hrun.
  - injection Hrun as <- <- <-. by left.
  - cbn [instances_loop] in Hrun.
    destruct (on_context (DicomCacheLocker it) s) as [[original | e] s1];
      [| exact (IH _ _ _ Hrun) ].
    apply bind_Ok in Hrun as (modified & s2 & _ & Hrun).
    apply bind_Ok in Hrun as (stored & s3 & _ & Hrun).
    destruct (decide (stored.1 <> StoreStatus_Success)); [ discriminate |].
    destruct isFirst; [| exact (IH _ _ _ Hrun) ].
    apply bind_Ok in Hrun as (first & s4 & Hfirst & Hrun).
    unfold eval in Hfirst. injection Hfirst as Hfirst <-.
    right. split; [ done |].
    destruct (IH _ _ _ Hrun) as [[-> ->] | (? & _)]; [| done ].
    split; [ done |]. by exists modified.
Qed.

(** Once the answer is filled, the loop keeps it. *)
Lemma instances_loop_filled (metadataType : MetadataType)
    (resourceType : ResourceType) (instances : list string) (isFirst' : bool)
    (result result' : list (string * string))
    (s s' : DicomModification * ServerContext) :
  loop metadataType resourceType instances false result s
  = (Ok (Loop_finished isFirst' result'), s') ->
  isFirst' = false /\ result' = result.
Proof.
  intros Hrun.
  apply instances_loop_result in Hrun as [[-> ->] | (? & _)]; done.
Qed.

(** A loop that ends with [isFirst] still true stored nothing: every lock
    failed. *)
Lemma instances_loop_nothing_stored (metadataType : MetadataType)
    (resourceType : ResourceType) (instances : list string)
    (result result' : list (string * string))
    (s s' : DicomModification * ServerContext) :
  loop metadataType resourceType instances true result s
  = (Ok (Loop_finished true result'), s') ->
  result' = result /\ s'.1 = s.1 /\ every_lock_fails instances s.2 s'.2.
Proof.
  revert s. induction instances as [| it rest IH]; intros s Hrun.
  - injection Hrun as <- <-. done.
  - cbn [instances_loop] in Hrun. unfold on_context at 1 in Hrun.
    cbn [fst snd] in Hrun.
    destruct (DicomCacheLocker it s.2) as [[original | e] c1] eqn:Hlock;
      cbn [fst snd] in Hrun.
    + apply bind_Ok in Hrun as (modified & s2 & _ & Hrun).
      apply bind_Ok in Hrun as (stored & s3 & _ & Hrun).
      destruct (decide (stored.1 <> StoreStatus_Success)); [ discriminate |].
      apply bind_Ok in Hrun as (first & s4 & _ & Hrun).
      by apply instances_loop_filled in Hrun as [? _].
    + destruct (IH _ Hrun) as (-> & Ht & Hlocks). cbn [fst snd] in *.
      split; [ done |]. split; [ done |]. by exists e, c1.
Qed.

(** A loop that ends with a filled answer stored a first instance: the
    locks before it failed, it was locked, modified and stored with
    Success, and the answer describes its modified file. *)
Lemma instances_loop_first_stored (metadataType : MetadataType)
    (resourceType : ResourceType) (instances : list string)
    (result result' : list (string * string))
    (s s' : DicomModification * ServerContext) :
  loop metadataType resourceType instances true result s
  = (Ok (Loop_finished false result'), s') ->
  exists pre it rest context original context1 modified t' newId context2,
    instances = pre ++ it :: rest /\
    every_lock_fails pre s.2 context /\
    DicomCacheLocker it context = (Ok original, context1) /\
    Apply original s.1 = (Ok modified, t') /\
    Context_Store
      {| parsedDicomFile := modified;
         metadata := metadata_of metadataType it original modified |}
      context1
    = (Ok (StoreStatus_Success, newId), context2) /\
    first_answer resourceType modified = Ok result'.
Proof.
  revert s. induction instances as [| it rest IH]; intros s Hrun.
  - discriminate.
  - cbn [instances_loop] in Hrun. unfold on_context at 1 in Hrun.
    cbn [fst snd] in Hrun.
    destruct (DicomCacheLocker it s.2) as [[original | e] c1] eqn:Hlock;
      cbn [fst snd] in Hrun.
    + apply bind_Ok in Hrun as (modified & s2 & Happly & Hrun).
      apply bind_Ok in Hrun as (stored & s3 & Hstore & Hrun).
      destruct (decide (stored.1 <> StoreStatus_Success)) as [| Hsuccess];
        [ discriminate |].
      apply dec_stable in Hsuccess.
      apply bind_Ok in Hrun as (first & s4 & Hfirst & Hrun).
      unfold eval in Hfirst. injection Hfirst as Hfirst <-.
      apply instances_loop_filled in Hrun as [_ ->].
      unfold on_target in Happly. cbn [fst snd] in Happly.
      destruct (Apply original s.1) as [r t'] eqn:Ht.
      cbn [fst snd] in Happly. injection Happly as -> <-.
      unfold on_context in Hstore. cbn [fst snd] in Hstore.
      destruct (Context_Store _ c1) as [r context2] eqn:Hc.
      cbn [fst snd] in Hstore. injection Hstore as -> _.
      destruct stored as [status newId]. cbn in Hsuccess. subst status.
      exists [], it, rest, s.2, original, c1, modified, t', newId, context2.
      done.
    + destruct (IH _ Hrun)
        as (pre & it' & rest' & context & original & context1 & modified
            & t' & newId & context2 & -> & Hlocks & Hlock' & Happly & Hstore
            & Hfirst).
      cbn [fst snd] in *.
      exists (it :: pre), it', rest', context, original, context1, modified,
        t', newId, context2.
      split; [ done |]. split; [ by exists e, c1 |]. done.
Qed.

(** X14. When [AnonymizeOrModifyResource] answers, the resource has
    instances, and either the JSON object is empty, every lock failed and
    nothing was modified or stored (the modification is as before, the
    context as the failed locks left it); or a first instance was locked
    after failed locks only, the file that [Apply] made of it was stored
    with Success, and the JSON object describes this modified file: the
    kind asked for, which is not Instance, the identifier of the modified
    file at that level, its path, and the identifier of its patient. *)
Theorem AnonymizeOrModifyResource_answer (metadataType : MetadataType)
    (resourceType : ResourceType) (id : string)
    (result : list (string * string))
    (s s' : DicomModification * ServerContext) :
  handler metadataType resourceType id s = (Ok (AnswerJson result), s') ->
  exists instances context0,
    GetChildInstances id s.2 = (Ok instances, context0) /\
    instances <> [] /\
    ((result = [] /\ s'.1 = s.1 /\
      every_lock_fails instances context0 s'.2) \/
     (exists pre it rest context original context1 modified t' newId context2,
        instances = pre ++ it :: rest /\
        every_lock_fails pre context0 context /\
        DicomCacheLocker it context = (Ok original, context1) /\
        Apply original s.1 = (Ok modified, t') /\
        Context_Store
          {| parsedDicomFile := modified;
             metadata := metadata_of metadataType it original modified |}
          context1
        = (Ok (StoreStatus_Success, newId), context2) /\
        resourceType <> ResourceType_Instance /\
        result = [ ("Type", EnumerationToString resourceType);
                   ("ID", hash_of resourceType modified);
                   ("Path", GetBasePath resourceType
                              (hash_of resourceType modified));
                   ("PatientID", HashPatient modified) ])).
Proof.
  intros Hrun. unfold AnonymizeOrModifyResource in Hrun.
  apply bind_Ok in Hrun as (instances & s1 & Hlist & Hrun).
  unfold on_context in Hlist. cbn [fst snd] in Hlist.
  destruct (GetChildInstances id s.2) as [r context0] eqn:Hchildren.
  cbn [fst snd] in Hlist. injection Hlist as -> <-.
  exists instances, context0. split; [ reflexivity |].
  destruct instances as [| it0 rest0]; [ discriminate |].
  split; [ discriminate |].
  apply bind_Ok in Hrun as (exit & s2 & Hloop & Hrun).
  destruct exit as [isFirst' result' |]; [| discriminate ].
  injection Hrun as <- <-.
  destruct isFirst'.
  - left. apply instances_loop_nothing_stored in Hloop as (-> & Ht & Hlocks).
    done.
  - right. apply instances_loop_first_stored in Hloop
      as (pre & it & rest & context & original & context1 & modified & t'
          & newId & context2 & Hsplit & Hlocks & Hlock & Happly & Hstore
          & Hfirst).
    cbn [fst snd] in *.
    exists pre, it, rest, context, original, context1, modified, t', newId,
      context2.
    split; [ exact Hsplit |]. split; [ exact Hlocks |].
    split; [ exact Hlock |]. split; [ exact Happly |].
    split; [ exact Hstore |].
    unfold first_result in Hfirst.
    destruct resourceType; cbn in Hfirst; try discriminate;
      injection Hfirst as <-; done.
Qed.

(** X15. When the resource has instances but the lock on each of them
    fails, leaving the context alone, the handler still answers: with the
    empty JSON object, and without any effect on the modification or the
    context. *)
Theorem AnonymizeOrModifyResource_all_removed (metadataType : MetadataType)
    (resourceType : ResourceType) (id : string) (instances : list string)
    (t : DicomModification) (context context1 : ServerContext) :
  GetChildInstances id context = (Ok instances, context1) ->
  instances <> [] ->
  (forall it, it ∈ instances ->
     exists e, DicomCacheLocker it context1 = (Throw e, context1)) ->
  handler metadataType resourceType id (t, context)
  = (Ok (AnswerJson []), (t, context1)).
Proof.
  intros Hlist Hsome Hlocks.
  assert (Hloop : forall isFirst result,
    loop metadataType resourceType instances isFirst result (t, context1)
    = (Ok (Loop_finished isFirst result), (t, context1))).
  { clear Hlist Hsome. intros isFirst result.
    induction instances as [| it rest IH]; [ reflexivity |].
    cbn [instances_loop]. unfold on_context at 1. cbn [fst snd].
    destruct (Hlocks it) as [e He]; [ apply elem_of_cons; by left |].
    rewrite He. cbn [fst snd]. apply IH.
    intros it' Hit'. apply Hlocks. apply elem_of_cons. by right. }
  unfold AnonymizeOrModifyResource, mbind, Stateful_bind, bind, on_context.
  cbn [fst snd]. rewrite Hlist. cbn [fst snd].
  destruct instances as [| it rest]; [ done |].
  by rewrite Hloop.
Qed.

(** X16. Asked for the kind Instance, the handler throws InternalError --
    but only once the first instance that it could lock has been modified
    and stored: the error leaves the context as that store made it. *)
Theorem AnonymizeOrModifyResource_instance_level
    (metadataType : MetadataType) (id it : string) (pre rest : list string)
    (result : list (string * string))
    (s0 s1 : DicomModification * ServerContext)
    (t t' : DicomModification) (context context1 context2 : ServerContext)
    (original modified : ParsedDicomFile) (newId : string) :
  on_context (GetChildInstances id) s0 = (Ok (pre ++ it :: rest), s1) ->
  loop metadataType ResourceType_Instance pre true [] s1
  = (Ok (Loop_finished true result), (t, context)) ->
  DicomCacheLocker it context = (Ok original, context1) ->
  Apply original t = (Ok modified, t') ->
  Context_Store
    {| parsedDicomFile := modified;
       metadata := metadata_of metadataType it original modified |}
    context1
  = (Ok (StoreStatus_Success, newId), context2) ->
  handler metadataType ResourceType_Instance id s0
  = (Throw ErrorCode_InternalError, (t', context2)).
Proof.
  intros Hlist Hpre Hlock Happly Hstore.
  unfold AnonymizeOrModifyResource, mbind, Stateful_bind, bind.
  rewrite Hlist.
  destruct (pre ++ it :: rest) as [| x l] eqn:Hl; [ by destruct pre |].
  rewrite <- Hl, instances_loop_app, Hpre.
  cbn [instances_loop]. unfold on_context at 1. cbn [fst snd].
  rewrite Hlock. cbn [fst snd].
  unfold mbind, Stateful_bind, bind, on_target. cbn [fst snd].
  rewrite Happly. cbn [fst snd]. unfold on_context. cbn [fst snd].
  rewrite Hstore. cbn [fst snd].
  destruct (decide (StoreStatus_Success <> StoreStatus_Success)); [ done |].
  reflexivity.
Qed.

End ResourceHandlers.

(** ** The parsers of requests *)

Section RequestParsers.

Import ServerIndex AnonymizeModify.

Variable ServerContext : Type.
Variable ParsedDicomFile : Type.
Variable asString : Json -> Result string.
Variable ParseTag : string -> Result DicomTag.
Variable IncrementGlobalSequence : GlobalProperty -> Stateful ServerContext N.
Variable GetChildInstances : string -> Stateful ServerContext (list string).
Variable DicomCacheLocker : string -> Stateful ServerContext ParsedDicomFile.
Variable Context_Store
  : DicomInstanceToStore ParsedDicomFile ->
    Stateful ServerContext (StoreStatus * string).
Variable Apply : ParsedDicomFile -> Stateful DicomModification ParsedDicomFile.
Variables HashPatient HashStudy HashSeries HashInstance
  : ParsedDicomFile -> string.
Variable EnumerationToString : ResourceType -> string.
Variable GetBasePath : ResourceType -> string -> string.
Variable defaults : gmap DicomTag string.
Variables randomPatientName randomPatientID : string.

Abbreviation tags_parser := (ParseListOfTags asString ParseTag).
Abbreviation replacements_parser := (ParseReplacements asString ParseTag).
Abbreviation modify_parser := (ParseModifyRequest asString ParseTag).
Abbreviation modify_call_parser := (ParseModifyRequest_call asString ParseTag).
Abbreviation anonymization_parser :=
  (ParseAnonymizationRequest ServerContext asString ParseTag
     IncrementGlobalSequence defaults randomPatientName randomPatientID).
Abbreviation setup :=
  (SetupAnonymization defaults randomPatientName randomPatientID).
Abbreviation modify_instance :=
  (ModifyInstance ServerContext ParsedDicomFile asString ParseTag
     DicomCacheLocker Apply).
Abbreviation anonymize_instance :=
  (AnonymizeInstance ServerContext ParsedDicomFile asString ParseTag
     IncrementGlobalSequence DicomCacheLocker Apply defaults
     randomPatientName randomPatientID).
Abbreviation modify_resource :=
  (ModifyResource ServerContext ParsedDicomFile asString ParseTag
     GetChildInstances DicomCacheLocker Context_Store Apply
     HashPatient HashStudy HashSeries EnumerationToString GetBasePath).
Abbreviation anonymize_resource :=
  (AnonymizeResource ServerContext ParsedDicomFile asString ParseTag
     IncrementGlobalSequence GetChildInstances DicomCacheLocker Context_Store
     Apply HashPatient HashStudy HashSeries EnumerationToString GetBasePath
     defaults randomPatientName randomPatientID).

(** The name of a tag, as an element of a Keep or Remove array. *)
Abbreviation names_tag item tag :=
  (exists name, asString item = Ok name /\ ParseTag name = Ok tag).

(** The switches of a configuration: what no parser of tags touches. *)
Abbreviation same_switches t t' :=
  (removePrivateTags_ t' = removePrivateTags_ t /\
   level_ t' = level_ t /\
   allowManualIdentifiers_ t' = allowManualIdentifiers_ t).

Lemma tag_step_Ok (operation : TagOperation) (item : Json)
    (t t' : DicomModification) :
  (name ← eval (asString item);
   tag ← eval (ParseTag name);
   match operation with
   | TagOperation_Keep => Keep tag
   | TagOperation_Remove => Remove tag
   end) t = (Ok tt, t') ->
  exists tag, names_tag item tag /\
    t' = match operation with
         | TagOperation_Keep => (Keep tag t).2
         | TagOperation_Remove => (Remove tag t).2
         end.
Proof.
  intros Hrun.
  apply bind_Ok in Hrun as (name & s1 & Hname & Hrun).
  apply bind_Ok in Hrun as (tag & s2 & Htag & Hrun).
  unfold eval in Hname, Htag.
  injection Hname as Hname <-. injection Htag as Htag <-.
  exists tag. split; [ by exists name |].
  destruct operation; by injection Hrun as <-.
Qed.

(** A parsed list of tags leaves the replacements and the switches alone,
    and the tags of the other operation. *)
Lemma ParseListOfTags_frame (query : Json) (operation : TagOperation)
    (t t' : DicomModification) (u : unit) :
  tags_parser query operation t = (Ok u, t') ->
  replacements_ t' = replacements_ t /\ same_switches t t' /\
  match operation with
  | TagOperation_Keep => removals_ t' = removals_ t
  | TagOperation_Remove => keeps_ t' = keeps_ t
  end.
Proof.
  unfold ParseListOfTags. destruct (negb (isArray query)); [ discriminate |].
  intros Hrun.
  apply (for_each_keeps _ _
    (fun x => replacements_ x = replacements_ t /\ same_switches t x /\
              match operation with
              | TagOperation_Keep => removals_ x = removals_ t
              | TagOperation_Remove => keeps_ x = keeps_ t
              end) _ _ _) in Hrun; [ exact Hrun | | by destruct operation ].
  intros item s s' _ Hitem Hs.
  apply tag_step_Ok in Hitem as (tag & _ & ->).
  destruct operation; exact Hs.
Qed.

(** A parsed Replace object leaves the tags and the switches alone. *)
Lemma ParseReplacements_frame (replacements : Json)
    (t t' : DicomModification) (u : unit) :
  replacements_parser replacements t = (Ok u, t') ->
  removals_ t' = removals_ t /\ keeps_ t' = keeps_ t /\ same_switches t t'.
Proof.
  unfold ParseReplacements.
  destruct (negb (isObject replacements)); [ discriminate |].
  intros Hrun.
  apply (for_each_keeps _ _
    (fun x => removals_ x = removals_ t /\ keeps_ x = keeps_ t /\
              same_switches t x) _ _ _) in Hrun; [ exact Hrun | | done ].
  intros name s s' _ Hstep Hs.
  apply bind_Ok in Hstep as (value & s1 & Hvalue & Hstep).
  apply bind_Ok in Hstep as (tag & s2 & Htag & Hstep).
  unfold eval in Hvalue, Htag.
  injection Hvalue as _ <-. injection Htag as _ <-.
  unfold Replace in Hstep.
  apply bind_Ok in Hstep as (t0 & s3 & Hread & Hstep).
  injection Hread as <- <-.
  destruct (negb false && negb (allowManualIdentifiers_ s) && _);
    [ discriminate |].
  injection Hstep as <-. exact Hs.
Qed.

(** X17. [ParseListOfTags] rejects a value that is not an array and leaves
    the configuration alone; at the first element that is not the name of a
    tag it throws and leaves the configuration as the elements before it
    made it; and when every element names a tag it returns, having removed
    (or kept) exactly these tags beside the earlier ones. *)
Theorem ParseListOfTags_outcome (operation : TagOperation)
    (t : DicomModification) :
  (forall query, isArray query = false ->
     tags_parser query operation t = (Throw ErrorCode_BadRequest, t)) /\
  (forall pre bad rest e t1,
     tags_parser (Json_array pre) operation t = (Ok tt, t1) ->
     asString bad = Throw e \/
     (exists name, asString bad = Ok name /\ ParseTag name = Throw e) ->
     tags_parser (Json_array (pre ++ bad :: rest)) operation t
     = (Throw e, t1)) /\
  (forall elements tags,
     Forall2 (fun item tag => names_tag item tag) elements tags ->
     exists t',
       tags_parser (Json_array elements) operation t = (Ok tt, t') /\
       match operation with
       | TagOperation_Keep =>
           keeps_ t' = list_to_set tags ∪ keeps_ t /\
           removals_ t' = removals_ t
       | TagOperation_Remove =>
           removals_ t' = list_to_set tags ∪ removals_ t /\
           keeps_ t' = keeps_ t
       end).
Proof.
  split; [| split ].
  - intros query Hquery. unfold ParseListOfTags. by rewrite Hquery.
  - intros pre bad rest e t1 Hpre Hbad.
    unfold ParseListOfTags in *. cbn [isArray negb items] in *.
    rewrite for_each_app. unfold mbind at 1. unfold Stateful_bind at 1.
    unfold bind at 1. rewrite Hpre. cbn [for_each].
    unfold mbind, Stateful_bind, bind, eval.
    destruct Hbad as [-> | (name & -> & ->)]; reflexivity.
  - intros elements tags Hnames. unfold ParseListOfTags.
    cbn [isArray negb items].
    revert t. induction Hnames as [| item tag elements tags Hitem _ IH];
      intros t.
    + exists t. split; [ reflexivity |].
      rewrite list_to_set_nil.
      destruct operation; by rewrite (left_id_L ∅ (∪)).
    + destruct Hitem as (name & Hname & Htag).
      destruct (IH (match operation with
                    | TagOperation_Keep => (Keep tag t).2
                    | TagOperation_Remove => (Remove tag t).2
                    end)) as (t' & Hrun & Hsets).
      exists t'. split.
      * cbn [for_each]. unfold mbind, Stateful_bind, bind, eval.
        rewrite Hname, Htag.
        destruct operation; exact Hrun.
      * rewrite list_to_set_cons.
        destruct operation; destruct Hsets as [-> ->]; cbn;
          (split; [| reflexivity ]);
          by rewrite (assoc_L (∪)), (comm_L (∪) (list_to_set tags)).
Qed.

(** X18. [ParseModifyRequest] answers false to a value that is not an
    object and leaves the configuration alone.  On an object it never
    answers false; when it returns, private tags are removed as soon as the
    member RemovePrivateTags is present, whatever its value, the keeps, the
    level and the manual-identifier switch are as before, and so are the
    removals and the replacements when the object has no member Remove or
    Replace. *)
Theorem ParseModifyRequest_outcome (request : Json)
    (t : DicomModification) :
  (isObject request = false ->
   modify_parser request t = (Ok false, t)) /\
  (forall parsed t',
     isObject request = true ->
     modify_parser request t = (Ok parsed, t') ->
     parsed = true /\
     removePrivateTags_ t'
     = isMember "RemovePrivateTags" request || removePrivateTags_ t /\
     keeps_ t' = keeps_ t /\
     level_ t' = level_ t /\
     allowManualIdentifiers_ t' = allowManualIdentifiers_ t /\
     (isMember "Remove" request = false -> removals_ t' = removals_ t) /\
     (isMember "Replace" request = false ->
      replacements_ t' = replacements_ t)).
Proof.
  unfold ParseModifyRequest. split.
  - by intros ->.
  - intros parsed t' -> Hrun.
    apply bind_Ok in Hrun as ([] & t1 & Hprivate & Hrun).
    apply bind_Ok in Hrun as ([] & t2 & Hremove & Hrun).
    apply bind_Ok in Hrun as ([] & t3 & Hreplace & Hrun).
    injection Hrun as <- <-. split; [ done |].
    assert (H1 : removePrivateTags_ t1
                 = isMember "RemovePrivateTags" request || removePrivateTags_ t
                 /\ keeps_ t1 = keeps_ t /\ level_ t1 = level_ t
                 /\ allowManualIdentifiers_ t1 = allowManualIdentifiers_ t
                 /\ removals_ t1 = removals_ t
                 /\ replacements_ t1 = replacements_ t).
    { destruct (isMember "RemovePrivateTags" request); cbn in Hprivate;
        by injection Hprivate as <-. }
    destruct H1 as (Hp1 & Hk1 & Hl1 & Ha1 & Hr1 & Hx1).
    assert (H2 : replacements_ t2 = replacements_ t1 /\ same_switches t1 t2 /\
                 keeps_ t2 = keeps_ t1 /\
                 (isMember "Remove" request = false ->
                  removals_ t2 = removals_ t1)).
    { destruct (isMember "Remove" request); cbn in Hremove.
      - apply ParseListOfTags_frame in Hremove as (? & ? & ?). done.
      - by injection Hremove as <-. }
    destruct H2 as (Hx2 & (Hp2 & Hl2 & Ha2) & Hk2 & Hr2).
    assert (H3 : removals_ t3 = removals_ t2 /\ keeps_ t3 = keeps_ t2 /\
                 same_switches t2 t3 /\
                 (isMember "Replace" request = false ->
                  replacements_ t3 = replacements_ t2)).
    { destruct (isMember "Replace" request); cbn in Hreplace.
      - apply ParseReplacements_frame in Hreplace as (? & ? & ?). done.
      - by injection Hreplace as <-. }
    destruct H3 as (Hr3 & Hk3 & (Hp3 & Hl3 & Ha3) & Hx3).
    repeat split; try congruence.
    + intros Hno. rewrite Hr3, Hr2; done.
    + intros Hno. rewrite Hx3, Hx2; done.
Qed.

(** The request is not a JSON object: the body is not JSON, or it is a JSON
    value of another kind. *)
Abbreviation not_an_object request :=
  (from_option isObject false request = false).

(** X19. [ParseAnonymizationRequest] sets the configuration up for
    anonymization before it looks at the request: a request that is not a
    JSON object is answered false, but leaves the configuration set up, and
    the context alone.  When the request is parsed, private tags are removed
    unless the member KeepPrivateTags is present, whatever its value, and
    the level and the manual-identifier switch are as before. *)
Theorem ParseAnonymizationRequest_switches (request : option Json)
    (t : DicomModification) (context : ServerContext) :
  (not_an_object request ->
   anonymization_parser request (t, context)
   = (Ok false, ((setup t).2, context))) /\
  (forall json parsed t' context',
     request = Some json -> isObject json = true ->
     anonymization_parser request (t, context)
     = (Ok parsed, (t', context')) ->
     parsed = true /\
     removePrivateTags_ t' = negb (isMember "KeepPrivateTags" json) /\
     level_ t' = level_ t /\
     allowManualIdentifiers_ t' = allowManualIdentifiers_ t).
Proof.
  split.
  - intros Hrequest.
    assert (Hget :
      on_target (GetReplacement DICOM_TAG_PATIENT_NAME) ((setup t).2, context)
      = (Ok randomPatientName, ((setup t).2, context))).
    { unfold on_target, GetReplacement, mbind, Stateful_bind, bind, read.
      cbn [fst snd SetupAnonymization update replacements_].
      by rewrite lookup_insert_eq. }
    unfold ParseAnonymizationRequest.
    unfold mbind at 1. unfold Stateful_bind at 1. unfold bind at 1.
    change (on_target setup (t, context))
      with (Ok tt, ((setup t).2, context)).
    cbv beta iota.
    unfold mbind at 1. unfold Stateful_bind at 1. unfold bind at 1.
    rewrite Hget.
    destruct request as [json |]; [| reflexivity ].
    cbn in Hrequest. by rewrite Hrequest.
  - intros json parsed t' context' -> Hobject Hrun.
    unfold ParseAnonymizationRequest in Hrun.
    apply bind_Ok in Hrun as ([] & s1 & Hsetup & Hrun).
    apply on_target_Ok in Hsetup as [Hsetup _]. cbn in Hsetup.
    injection Hsetup as Ht1.
    apply bind_Ok in Hrun as (patientName & s1' & Hget & Hrun).
    apply on_target_Ok in Hget as [Hget _].
    unfold GetReplacement in Hget.
    apply bind_Ok in Hget as (t0 & t0' & Hread & Hget).
    injection Hread as <- <-.
    destruct (replacements_ s1.1 !! DICOM_TAG_PATIENT_NAME);
      [| discriminate ].
    injection Hget as _ Ht1'.
    rewrite Hobject in Hrun.
    apply bind_Ok in Hrun as ([] & s2 & Hprivate & Hrun).
    apply when_on_target_Ok in Hprivate as [_ Hprivate].
    apply bind_Ok in Hrun as ([] & s3 & Hremove & Hrun).
    apply when_on_target_Ok in Hremove as [_ Hremove].
    apply bind_Ok in Hrun as ([] & s4 & Hreplace & Hrun).
    apply when_on_target_Ok in Hreplace as [_ Hreplace].
    apply bind_Ok in Hrun as ([] & s5 & Hkeep & Hrun).
    apply when_on_target_Ok in Hkeep as [_ Hkeep].
    apply bind_Ok in Hrun as (replaced & s5' & Hreplaced & Hrun).
    apply on_target_Ok in Hreplaced as [Hreplaced _].
    injection Hreplaced as _ Ht5'.
    apply bind_Ok in Hrun as (unchanged & s6 & Hcompare & Hrun).
    apply bind_Ok in Hrun as ([] & s7 & Hwhen & Hrun).
    injection Hrun as <- Hs7. split; [ done |].
    assert (H1 : removePrivateTags_ s1'.1 = true /\
                 level_ s1'.1 = level_ t /\
                 allowManualIdentifiers_ s1'.1 = allowManualIdentifiers_ t).
    { rewrite <- Ht1', <- Ht1. done. }
    assert (H2 : removePrivateTags_ s2.1 = negb (isMember "KeepPrivateTags" json)
                 /\ level_ s2.1 = level_ t /\
                 allowManualIdentifiers_ s2.1 = allowManualIdentifiers_ t).
    { destruct Hprivate as [[-> Hp] | [-> ->]]; [| exact H1 ].
      injection Hp as <-. cbn. by destruct H1 as (_ & ? & ?). }
    assert (H3 : same_switches s2.1 s3.1).
    { destruct Hremove as [[_ Hp] | [_ ->]]; [| done ].
      by apply ParseListOfTags_frame in Hp as (_ & ? & _). }
    assert (H4 : same_switches s3.1 s4.1).
    { destruct Hreplace as [[_ Hp] | [_ ->]]; [| done ].
      by apply ParseReplacements_frame in Hp as (_ & _ & ?). }
    assert (H5 : same_switches s4.1 s5.1).
    { destruct Hkeep as [[_ Hp] | [_ ->]]; [| done ].
      by apply ParseListOfTags_frame in Hp as (_ & ? & _). }
    assert (H6 : s6.1 = s5.1).
    { destruct replaced.
      - apply bind_Ok in Hcompare as (current & s6' & Hget & Hcompare).
        apply on_target_Ok in Hget as [Hget _].
        unfold GetReplacement in Hget.
        apply bind_Ok in Hget as (t0 & t0' & Hread & Hget).
        injection Hread as <- <-.
        destruct (replacements_ s5'.1 !! DICOM_TAG_PATIENT_NAME);
          [| discriminate ].
        injection Hget as _ Hs6'. injection Hcompare as _ Hs6.
        congruence.
      - injection Hcompare as _ Hs6. congruence. }
    assert (H7 : same_switches s6.1 s7.1).
    { destruct unchanged; cbn [when] in Hwhen.
      - apply bind_Ok in Hwhen as (name & s6' & Hgen & Hforce).
        assert (Hs6' : s6'.1 = s6.1).
        { unfold on_context in Hgen. by injection Hgen as _ <-. }
        apply on_target_Ok in Hforce as [Hforce _].
        unfold Replace in Hforce.
        apply bind_Ok in Hforce as (t0 & t0' & Hread & Hforce).
        injection Hread as <- <-. cbn in Hforce.
        injection Hforce as <-. rewrite <- Hs6'. done.
      - by injection Hwhen as <-. }
    rewrite Hs7 in H7. cbn [fst] in H7.
    rewrite H6 in H7.
    destruct H2 as (? & ? & ?), H3 as (? & ? & ?), H4 as (? & ? & ?),
      H5 as (? & ? & ?), H7 as (? & ? & ?).
    repeat split; congruence.
Qed.

(** The tests of [ModifyInstance] on the replaced identifiers, once the
    replacements are known. *)
#[local] Ltac infer_level :=
  unfold mbind, Stateful_bind, bind, on_target, IsReplaced, read;
  cbn [fst snd];
  repeat match goal with
  | H : replacements_ _ !! _ = _ |- _ => rewrite H
  | |- context [bool_decide (is_Some None)] =>
      rewrite bool_decide_eq_false_2 by (by intros [? ?])
  | |- context [bool_decide (is_Some (Some _))] =>
      rewrite bool_decide_eq_true_2 by eauto
  | _ => progress cbn [fst snd]
  end;
  reflexivity.

(** X20. [ModifyInstance] applies the modification at the level of the
    highest identifier that the request replaces: no replaced identifier
    lies above the level, and the level is Instance unless the identifier
    of the level is itself replaced.  The configuration that [Apply] sees
    is the parsed one, with this level. *)
Theorem ModifyInstance_level (request : option Json) (id : string)
    (t t1 : DicomModification) (context context1 : ServerContext)
    (original : ParsedDicomFile) :
  modify_call_parser request (SetAllowManualIdentifiers true t).2
  = (Ok true, t1) ->
  DicomCacheLocker id context = (Ok original, context1) ->
  exists level,
    (forall tag l,
       is_Some (replacements_ t1 !! tag) -> identifier_level tag = Some l ->
       level_rank level <= level_rank l) /\
    (level = ResourceType_Instance \/
     exists tag,
       is_Some (replacements_ t1 !! tag) /\
       identifier_level tag = Some level) /\
    modify_instance request id (t, context)
    = match Apply original (SetLevel level t1).2 with
      | (Ok modified, t2) => (Ok (Some modified), (t2, context1))
      | (Throw e, t2) => (Throw e, (t2, context1))
      end.
Proof.
  intros Hparse Hlock.
  assert (Hrun : forall level,
    (patient ← on_target (IsReplaced DICOM_TAG_PATIENT_ID);
     if patient : bool
     then on_target (SetLevel ResourceType_Patient)
     else
       study ← on_target (IsReplaced DICOM_TAG_STUDY_INSTANCE_UID);
       if study : bool
       then on_target (SetLevel ResourceType_Study)
       else
         series ← on_target (IsReplaced DICOM_TAG_SERIES_INSTANCE_UID);
         if series : bool
         then on_target (SetLevel ResourceType_Series)
         else on_target (SetLevel ResourceType_Instance)) (t1, context)
    = (Ok tt, ((SetLevel level t1).2, context)) ->
    modify_instance request id (t, context)
    = match Apply original (SetLevel level t1).2 with
      | (Ok modified, t2) => (Ok (Some modified), (t2, context1))
      | (Throw e, t2) => (Throw e, (t2, context1))
      end).
  { intros level Hlevel. unfold ModifyInstance.
    unfold mbind at 1. unfold Stateful_bind at 1. unfold bind at 1.
    cbn [on_target SetAllowManualIdentifiers update fst snd].
    unfold mbind at 1. unfold Stateful_bind at 1. unfold bind at 1.
    unfold on_target at 1. cbn [fst snd]. cbn in Hparse. rewrite Hparse.
    cbn [fst snd].
    unfold mbind at 1. unfold Stateful_bind at 1. unfold bind at 1.
    rewrite Hlevel.
    unfold AnonymizeOrModifyInstance, mbind, Stateful_bind, bind,
      on_context, on_target.
    cbn [fst snd]. rewrite Hlock. cbn [fst snd].
    by destruct (Apply original _) as [[modified | e] t2]. }
  destruct (replacements_ t1 !! DICOM_TAG_PATIENT_ID) as [v |] eqn:Hpatient;
    [| destruct (replacements_ t1 !! DICOM_TAG_STUDY_INSTANCE_UID)
         as [v |] eqn:Hstudy;
       [| destruct (replacements_ t1 !! DICOM_TAG_SERIES_INSTANCE_UID)
            as [v |] eqn:Hseries ] ].
  - exists ResourceType_Patient. split; [| split ].
    + intros tag l _ _. destruct l; cbn; lia.
    + right. exists DICOM_TAG_PATIENT_ID. by rewrite Hpatient.
    + apply Hrun. infer_level.
  - exists ResourceType_Study. split; [| split ].
    + intros tag l Htag Hl. unfold identifier_level in Hl.
      repeat case_decide; simplify_eq; cbn; try lia.
      rewrite Hpatient in Htag. by destruct Htag.
    + right. exists DICOM_TAG_STUDY_INSTANCE_UID. by rewrite Hstudy.
    + apply Hrun. infer_level.
  - exists ResourceType_Series. split; [| split ].
    + intros tag l Htag Hl. unfold identifier_level in Hl.
      repeat case_decide; simplify_eq; cbn; try lia.
      * rewrite Hpatient in Htag. by destruct Htag.
      * rewrite Hstudy in Htag. by destruct Htag.
    + right. exists DICOM_TAG_SERIES_INSTANCE_UID. by rewrite Hseries.
    + apply Hrun. infer_level.
  - exists ResourceType_Instance. split; [| split ].
    + intros tag l Htag Hl. unfold identifier_level in Hl.
      repeat case_decide; simplify_eq; cbn; try lia.
      * rewrite Hpatient in Htag. by destruct Htag.
      * rewrite Hstudy in Htag. by destruct Htag.
      * rewrite Hseries in Htag. by destruct Htag.
    + by left.
    + apply Hrun. infer_level.
Qed.

(** X21. A request that is not a JSON object is answered with nothing by
    the four handlers, and no instance is listed, locked, modified or
    stored: the context is as before. *)
Theorem handlers_reject_other_requests (request : option Json)
    (resourceType : ResourceType) (id : string)
    (t : DicomModification) (context : ServerContext) :
  not_an_object request ->
  modify_instance request id (t, context)
  = (Ok None, ((SetAllowManualIdentifiers true t).2, context)) /\
  anonymize_instance request id (t, context)
  = (Ok None, ((setup (SetAllowManualIdentifiers true t).2).2, context)) /\
  modify_resource resourceType request id (t, context)
  = (Ok NoAnswer, (t, context)) /\
  anonymize_resource resourceType request id (t, context)
  = (Ok NoAnswer, ((setup t).2, context)).
Proof.
  intros Hrequest.
  assert (Hmodify : forall t0,
    modify_call_parser request t0 = (Ok false, t0)).
  { intros t0. destruct request as [json |]; [| reflexivity ].
    cbn in Hrequest. unfold ParseModifyRequest_call, ParseModifyRequest.
    by rewrite Hrequest. }
  pose proof (fun t0 =>
    proj1 (ParseAnonymizationRequest_switches request t0 context) Hrequest)
    as Hanonymize.
  repeat split.
  - unfold ModifyInstance, mbind, Stateful_bind, bind, on_target.
    cbn [fst snd SetAllowManualIdentifiers update].
    by rewrite Hmodify.
  - unfold AnonymizeInstance.
    unfold mbind at 1. unfold Stateful_bind at 1. unfold bind at 1.
    cbn [on_target fst snd SetAllowManualIdentifiers update].
    unfold mbind at 1. unfold Stateful_bind at 1. unfold bind at 1.
    by rewrite Hanonymize.
  - unfold ModifyResource, mbind, Stateful_bind, bind, on_target.
    cbn [fst snd]. by rewrite Hmodify.
  - unfold AnonymizeResource.
    unfold mbind at 1. unfold Stateful_bind at 1. unfold bind at 1.
    by rewrite Hanonymize.
Qed.

End RequestParsers.

(** ** What [Store] never undoes *)

Section StoreGrowth.

Import ServerIndex.

Variable lexical_cast_size_t : string -> option N.
Variables HashPatient HashStudy HashSeries HashInstance : DicomMap -> string.
Variables ExtractPatientInformation ExtractStudyInformation
          ExtractSeriesInformation ExtractInstanceInformation
  : DicomMap -> DicomMap.

Abbreviation store_transaction :=
  (Store_transaction lexical_cast_size_t
     HashPatient HashStudy HashSeries HashInstance
     ExtractPatientInformation ExtractStudyInformation
     ExtractSeriesInformation ExtractInstanceInformation).
Abbreviation store_instance :=
  (Store lexical_cast_size_t
     HashPatient HashStudy HashSeries HashInstance
     ExtractPatientInformation ExtractStudyInformation
     ExtractSeriesInformation ExtractInstanceInformation).

(** The database has grown from [db0]: the public ids of [db0] are still
    there, the change log of [db0] starts the change log, and no internal id
    was taken back. *)
Abbreviation grown_from db0 db :=
  ((forall p, known p db0 -> known p db) /\
   Changes db0 `prefix_of` Changes db /\
   Z.le (lastResourceId db0) (lastResourceId db)).

Section From.

Variable db0 : DatabaseWrapper.

Abbreviation grows c := (returns c (fun db => grown_from db0 db)
                                   (fun _ db => grown_from db0 db)).

Lemma LookupResource_grows (q : string) : grows (LookupResource q).
Proof. apply returns_read. auto. Qed.

Lemma LogChange_grows now c id kind : grows (LogChange now c id kind).
Proof.
  apply returns_update. intros s (Hknown & Hlog & Hid).
  split; [ exact Hknown |]. split; [| exact Hid ].
  cbn. by apply prefix_app_r.
Qed.

Lemma CreateResource_grows now q kind : grows (CreateResource now q kind).
Proof.
  unfold CreateResource.
  apply (returns_bind _ _ _
    (fun id db => grown_from db0 db /\ id = (lastResourceId db + 1)%Z)).
  { apply returns_read. auto. }
  intros id. apply (returns_bind _ _ _ (fun _ db => grown_from db0 db)).
  - apply returns_update. intros s ((Hknown & Hlog & Hid) & ->).
    split; [| split; [ exact Hlog | cbn; lia ] ].
    intros p Hp. unfold known in *. cbn.
    apply find_resource_app, Hknown, Hp.
  - intros ?. apply (returns_bind _ _ _ (fun _ db => grown_from db0 db));
      [ apply LogChange_grows |].
    intros ?. apply returns_ret. auto.
Qed.

Lemma SetMainDicomTags_grows id tags : grows (SetMainDicomTags id tags).
Proof. apply returns_update. auto. Qed.

Lemma AttachChild_grows parent child : grows (AttachChild parent child).
Proof.
  apply returns_update. intros s (Hknown & Hlog & Hid).
  split; [| by split ].
  intros p Hp. unfold known in *. cbn.
  apply find_resource_set_parent, Hknown, Hp.
Qed.

Lemma AddAttachment_grows id f : grows (AddAttachment id f).
Proof. apply returns_update. auto. Qed.

Lemma SetMetadata_grows id key value : grows (SetMetadata id key value).
Proof. apply returns_update. auto. Qed.

Lemma GetSeriesStatus_grows id :
  grows (GetSeriesStatus lexical_cast_size_t id).
Proof.
  intros s Hs.
  destruct (GetSeriesStatus_reads lexical_cast_size_t s id) as [status Hrun].
  exists status, s. by split.
Qed.

#[local] Ltac grows_step :=
  first
    [ apply returns_ret; solve [ auto ]
    | apply LookupResource_grows
    | apply CreateResource_grows
    | apply SetMainDicomTags_grows
    | apply AttachChild_grows
    | apply AddAttachment_grows
    | apply SetMetadata_grows
    | apply LogChange_grows
    | apply GetSeriesStatus_grows
    | apply returns_when
    | apply returns_for_each; intros ?
    | apply (returns_bind _ _ _ (fun _ db => grown_from db0 db));
      [| intros ? ]
    | match goal with
      | |- returns (match ?x with _ => _ end) _ _ => destruct x
      | |- returns (let (_, _) := ?x in _) _ _ => destruct x
      end ].

Lemma Store_transaction_grows now dicomSummary attachments remoteAet :
  grows (store_transaction now dicomSummary attachments remoteAet).
Proof. unfold Store_transaction, Store_hierarchy. repeat grows_step. Qed.

(** From the creation of the instance on, the transaction runs to its
    [Commit], and only adds to what the creation left. *)
Lemma Store_transaction_from_creation now dicomSummary attachments remoteAet
    (db : DatabaseWrapper) :
  ~ known (HashInstance dicomSummary) db ->
  (CreateResource now (HashInstance dicomSummary) ResourceType_Instance db).2
  = db0 ->
  exists db',
    store_transaction now dicomSummary attachments remoteAet db
    = (Ok (StoreStatus_Success, true), db') /\
    grown_from db0 db'.
Proof.
  intros Hfresh Hcreated.
  unfold Store_transaction.
  unfold mbind at 1. unfold Stateful_bind at 1. unfold bind at 1.
  unfold LookupResource at 1, read at 1.
  unfold known in Hfresh.
  destruct (find_resource _ _); [ exfalso; eauto |].
  unfold mbind at 1. unfold Stateful_bind at 1. unfold bind at 1.
  destruct (CreateResource now _ _ db) as [[instance | e] db1] eqn:Hcreate;
    [| discriminate ].
  cbn in Hcreated. subst db1.
  match goal with
  | |- exists db', ?c db0 = _ /\ _ =>
      enough (Hrest : returns c (fun db => grown_from db0 db)
                (fun a db => a = (StoreStatus_Success, true) /\
                             grown_from db0 db))
  end.
  { destruct (Hrest db0) as (a & db' & Hrun & -> & Hgrown); [ done |].
    by exists db'. }
  unfold Store_hierarchy.
  repeat (apply (returns_bind _ _ _ (fun _ db => grown_from db0 db));
          [ solve [ repeat grows_step ] | intros ? ]).
  apply returns_ret. auto.
Qed.

End From.

(** X22. [Store] leaves the listener alone and never takes anything back:
    every public id of the index is still there, the change log is extended
    and no internal id is reused.  When it answers Success, the instance has
    a new internal id, its creation is the first change logged after the
    earlier ones, and its public id is in the index; when it answers
    anything else, the index is as before. *)
Theorem Store_only_adds (now : string) (dicomSummary : DicomMap)
    (attachments : Attachments) (remoteAet : string) (index : ServerIndex) :
  let result := store_instance now dicomSummary attachments remoteAet index in
  let db := db_ index in
  let db' := db_ result.2 in
  listener_ result.2 = listener_ index /\
  grown_from db db' /\
  (result.1 = StoreStatus_Success ->
   known (HashInstance dicomSummary) db' /\
   Z.lt (lastResourceId db) (lastResourceId db') /\
   Changes db ++
     [ {| changeSeq := (Z.of_nat (List.length (Changes db)) + 1)%Z;
          changeType := ChangeType_NewInstance;
          changeResource := (lastResourceId db + 1)%Z;
          changeKind := ResourceType_Instance;
          changeDate := now |} ] `prefix_of` Changes db') /\
  (result.1 <> StoreStatus_Success -> result.2 = index).
Proof.
  destruct (decide (known (HashInstance dicomSummary) (db_ index)))
    as [[r Hr] | Hfresh].
  - assert (Hrun :
      store_transaction now dicomSummary attachments remoteAet (db_ index)
      = (Ok (StoreStatus_AlreadyStored, false), db_ index)).
    { unfold Store_transaction, mbind, Stateful_bind, bind, LookupResource,
        read. by rewrite Hr. }
    unfold Store. rewrite Hrun. cbn [fst snd].
    repeat split; try done.
  - destruct (Store_transaction_from_creation
                _ now dicomSummary attachments remoteAet (db_ index)
                Hfresh eq_refl)
      as (db' & Hrun & Hknown & Hlog & Hid).
    unfold Store. rewrite Hrun. cbn [fst snd db_ listener_ with_db].
    unfold CreateResource, LogChange, mbind, mret, Stateful_bind,
      Stateful_ret, bind, ret, read, update in Hknown, Hlog, Hid.
    cbn in Hknown, Hlog, Hid.
    split; [ done |]. split; [ split; [| split ] |]; [ | | | split ].
    + intros p Hp. apply Hknown. unfold known in *. cbn.
      by apply find_resource_app.
    + etrans; [| exact Hlog ]. by apply prefix_app_r.
    + lia.
    + intros _. split; [| split; [ lia | exact Hlog ] ].
      apply Hknown. unfold known. cbn. by apply find_resource_new.
    + done.
Qed.

End StoreGrowth.

(** ** The further properties at concrete inputs *)

(** A response without declared length is done after its first body. *)
Lemma single_shot_body_witness :
  let first := HttpOutput.SendBody Samples.reason_phrase "Not found" 9
                 (HttpOutput.new false) in
  first.1 = Ok tt /\
  HttpOutput.state_ first.2 = HttpOutput.State_Done /\
  HttpOutput.SendBody Samples.reason_phrase "more" 4 first.2
  = (Throw ErrorCode_BadSequenceOfCalls, first.2).
Proof.
  destruct (single_shot_body Samples.reason_phrase (HttpOutput.new false)
              "Not found" "more" 9 4 eq_refl (or_introl eq_refl))
    as (Hfirst & Hdone & Hmore).
  split; [ exact Hfirst |]. split; [ exact Hdone |].
  apply Hmore. discriminate.
Defined.

(** The header Allow of a fresh response. *)
Lemma header_lines_witness :
  HttpOutput.header_prefix Samples.reason_phrase
    (HttpOutput.AddHeader "Allow" "GET" (HttpOutput.new true)).2
  = HttpOutput.header_prefix Samples.reason_phrase (HttpOutput.new true)
    +:+ ("Allow" +:+ ": " +:+ "GET" +:+ CRLF).
Proof.
  exact (proj1 (header_lines Samples.reason_phrase (HttpOutput.new true)
                  eq_refl) "Allow" "GET").
Defined.

(** Ten declared bytes, sent as five, none and five: the stream receives
    the status, the header block and the two non-empty chunks. *)
Lemma chunks_meet_declared_length_witness :
  let m := (HttpOutput.SetContentLength 10 (HttpOutput.new false)).2 in
  let r := for_each [("hello", 5); (EmptyString, 0); ("world", 5)]
             (fun c => HttpOutput.SendBody Samples.reason_phrase c.1 c.2) m in
  let text := "HTTP/1.1 200 OK" +:+ CRLF +:+
              "Content-Length: 10" +:+ CRLF +:+ CRLF in
  r.1 = Ok tt /\
  HttpOutput.state_ r.2 = HttpOutput.State_Done /\
  HttpOutput.contentPosition_ r.2 = 10 /\
  HttpOutput.stream_ r.2
  = [ HttpOutput.OnHttpStatusReceived 200;
      HttpOutput.Send true text (N.of_nat (String.length text));
      HttpOutput.Send false "hello" 5;
      HttpOutput.Send false "world" 5 ].
Proof.
  pose proof (chunks_meet_declared_length Samples.reason_phrase
                [("hello", 5); (EmptyString, 0); ("world", 5)]
                (HttpOutput.SetContentLength 10 (HttpOutput.new false)).2
                eq_refl eq_refl eq_refl eq_refl eq_refl) as H.
  assert (Hsome : [("hello", 5); (EmptyString, 0); ("world", 5)]
                  <> ([] : list (string * N))) by discriminate.
  destruct (H Hsome eq_refl) as (Hok & Hdone & Hpos & Hstream & _).
  cbn zeta. split; [ exact Hok |]. split; [ exact Hdone |].
  split; [ exact Hpos |]. rewrite Hstream. reflexivity.
Defined.

(** Two remaining patients: the first one is reported. *)
Lemma listener_keeps_first_minimum_witness :
  let l := ServerIndex.deliver_all (ServerIndex.Reset ServerIndex.new_listener)
             [ ServerIndex.FileDeleted "file";
               ServerIndex.RemainingAncestor ResourceType_Series "series";
               ServerIndex.RemainingAncestor ResourceType_Patient "first";
               ServerIndex.RemainingAncestor ResourceType_Patient "second";
               ServerIndex.RemainingAncestor ResourceType_Study "study" ] in
  ServerIndex.HasRemainingLevel l = true /\
  ServerIndex.GetRemainingType l = ResourceType_Patient /\
  ServerIndex.GetRemainingPublicId l = "first".
Proof.
  apply (listener_keeps_first_minimum
           [ ServerIndex.FileDeleted "file";
             ServerIndex.RemainingAncestor ResourceType_Series "series" ]
           [ ServerIndex.RemainingAncestor ResourceType_Patient "second";
             ServerIndex.RemainingAncestor ResourceType_Study "study" ]
           ResourceType_Patient "first" ServerIndex.new_listener).
  - repeat constructor.
  - repeat (constructor; [ discriminate |]). constructor.
Defined.

(** The series "series" is answered: it has instances. *)
Lemma AnonymizeOrModifyResource_answer_witness :
  match
    Samples.handler_sample Samples.new_series
      ServerIndex.MetadataType_ModifiedFrom ResourceType_Series "series"
      (AnonymizeModify.new_modification, Samples.context0)
  with
  | (Ok (AnonymizeModify.AnswerJson result), _) =>
      exists instances context,
        Samples.children "series" Samples.context0 = (Ok instances, context) /\
        instances <> []
  | _ => False
  end.
Proof.
  destruct (Samples.handler_sample Samples.new_series
              ServerIndex.MetadataType_ModifiedFrom ResourceType_Series
              "series" (AnonymizeModify.new_modification, Samples.context0))
    as [[[| result] | e] s'] eqn:Hrun.
  - vm_compute in Hrun. discriminate.
  - destruct (AnonymizeOrModifyResource_answer Samples.Context (list string)
                Samples.children Samples.lock Samples.store_file
                Samples.new_series (Samples.identifier 0) _ _
                (Samples.identifier 3) Samples.kind_name Samples.base_path
                _ _ _ _ _ _ Hrun)
      as (instances & context & Hchildren & Hsome & _).
    exists instances, context. split; [ exact Hchildren | exact Hsome ].
  - vm_compute in Hrun. discriminate.
Defined.

(** The instance "a" of the series "series" is handed to the store with
    metadata that end with its own entry. *)
Lemma instances_loop_metadata_shape_witness :
  let start := (AnonymizeModify.new_modification, Samples.context0) in
  let run := Samples.loop_sample Samples.new_series
               ServerIndex.MetadataType_ModifiedFrom ResourceType_Series
               ["gone"; "a"; "b"] true [] start in
  exists attached,
    last attached
    = Some (ResourceType_Instance, ServerIndex.MetadataType_ModifiedFrom, "a") /\
    head (Samples.stored run.2.2)
    = Some {| AnonymizeModify.parsedDicomFile := ["P"; "St"; "new-series"; "a"];
              AnonymizeModify.metadata := attached |}.
Proof.
  cbn zeta.
  destruct (instances_loop_metadata_shape Samples.Context (list string)
              Samples.lock Samples.store_file Samples.new_series
              (Samples.identifier 0)
              (fun f => Samples.identifier 0 f +:+ "/" +:+ Samples.identifier 1 f)
              (fun f => Samples.identifier 0 f +:+ "/" +:+ Samples.identifier 1 f
                        +:+ "/" +:+ Samples.identifier 2 f)
              Samples.kind_name Samples.base_path
              ServerIndex.MetadataType_ModifiedFrom ResourceType_Series
              ["gone"] ["b"] "a" true true [] []
              (AnonymizeModify.new_modification, Samples.context0)
              AnonymizeModify.new_modification AnonymizeModify.new_modification
              Samples.context0 Samples.context0
              ["P"; "St"; "Se"; "a"] ["P"; "St"; "new-series"; "a"]
              eq_refl eq_refl eq_refl)
    as (attached & Hlast & _ & _ & _ & Hrun).
  exists attached. split; [ exact Hlast |].
  unfold Samples.loop_sample. cbn [app] in Hrun. rewrite Hrun.
  reflexivity.
Defined.

(** With an empty DICOM cache no instance of "series" can be locked: the
    answer is the empty object. *)
Lemma AnonymizeOrModifyResource_all_removed_witness :
  let context := {| Samples.sequence := 0; Samples.cached := [];
                    Samples.stored := [] |} in
  Samples.handler_sample Samples.new_series
    ServerIndex.MetadataType_ModifiedFrom ResourceType_Series "series"
    (AnonymizeModify.new_modification, context)
  = (Ok (AnonymizeModify.AnswerJson []),
     (AnonymizeModify.new_modification, context)).
Proof.
  apply (AnonymizeOrModifyResource_all_removed Samples.Context (list string)
           Samples.children Samples.lock Samples.store_file
           Samples.new_series (Samples.identifier 0) _ _
           Samples.kind_name Samples.base_path
           ServerIndex.MetadataType_ModifiedFrom ResourceType_Series "series"
           ["gone"; "a"; "b"]).
  - reflexivity.
  - discriminate.
  - intros it _. exists ErrorCode_InexistentItem. reflexivity.
Defined.

(** The series "series" handled at the kind Instance: the instance "a" is
    stored, then the handler throws. *)
Lemma AnonymizeOrModifyResource_instance_level_witness :
  exists context',
    Samples.handler_sample Samples.new_series
      ServerIndex.MetadataType_ModifiedFrom ResourceType_Instance "series"
      (AnonymizeModify.new_modification, Samples.context0)
    = (Throw ErrorCode_InternalError,
       (AnonymizeModify.new_modification, context')) /\
    List.length (Samples.stored context') = 1%nat.
Proof.
  eexists. split.
  - refine (AnonymizeOrModifyResource_instance_level Samples.Context
              (list string) Samples.children Samples.lock Samples.store_file
              Samples.new_series (Samples.identifier 0) _ _
              Samples.kind_name Samples.base_path
              ServerIndex.MetadataType_ModifiedFrom "series" "a" ["gone"] ["b"]
              [] _ _ AnonymizeModify.new_modification
              AnonymizeModify.new_modification Samples.context0
              Samples.context0 _
              ["P"; "St"; "Se"; "a"] ["P"; "St"; "new-series"; "a"] "a"
              _ _ _ _ _).
    + reflexivity.
    + reflexivity.
    + reflexivity.
    + reflexivity.
    + reflexivity.
  - reflexivity.
Defined.

(** A request that replaces the patient id is applied at the level
    Patient. *)
Lemma ModifyInstance_level_witness :
  let request :=
    Some (AnonymizeModify.Json_object
            [ ("Replace",
               AnonymizeModify.Json_object
                 [ ("PatientID", AnonymizeModify.Json_string "X") ]) ]) in
  let r := AnonymizeModify.ModifyInstance Samples.Context (list string)
             Samples.text_of Samples.tag_of Samples.lock Samples.new_series
             request "a" (AnonymizeModify.new_modification, Samples.context0) in
  r.1 = Ok (Some ["P"; "St"; "new-series"; "a"]) /\
  AnonymizeModify.level_ r.2.1 = ResourceType_Patient.
Proof.
  cbn zeta.
  destruct (AnonymizeModify.ParseModifyRequest_call Samples.text_of
              Samples.tag_of
              (Some (AnonymizeModify.Json_object
                       [ ("Replace",
                          AnonymizeModify.Json_object
                            [ ("PatientID",
                               AnonymizeModify.Json_string "X") ]) ]))
              (AnonymizeModify.SetAllowManualIdentifiers true
                 AnonymizeModify.new_modification).2)
    as [[[|] | e] t1] eqn:Hparse;
    [| vm_compute in Hparse; discriminate
     | vm_compute in Hparse; discriminate ].
  destruct (ModifyInstance_level Samples.Context (list string)
              Samples.text_of Samples.tag_of Samples.lock Samples.new_series
              _ "a" AnonymizeModify.new_modification t1
              Samples.context0 Samples.context0 ["P"; "St"; "Se"; "a"]
              Hparse eq_refl) as (level & Hhighest & _ & ->).
  assert (Hlevel : level = ResourceType_Patient).
  { pose proof (Hhighest AnonymizeModify.DICOM_TAG_PATIENT_ID
                  ResourceType_Patient) as Hle.
    assert (Hreplaced :
      is_Some (AnonymizeModify.replacements_ t1
               !! AnonymizeModify.DICOM_TAG_PATIENT_ID)).
    { injection Hparse as <-. vm_compute. eauto. }
    specialize (Hle Hreplaced eq_refl).
    destruct level; cbn in Hle; first [ reflexivity | lia ]. }
  rewrite Hlevel. split; reflexivity.
Defined.

(** An array is no request: the series handler answers nothing. *)
Lemma handlers_reject_other_requests_witness :
  AnonymizeModify.ModifyResource Samples.Context (list string)
    Samples.text_of Samples.tag_of Samples.children Samples.lock
    Samples.store_file Samples.new_series
    (Samples.identifier 0) (Samples.identifier 1) (Samples.identifier 2)
    Samples.kind_name Samples.base_path ResourceType_Series
    (Some (AnonymizeModify.Json_array [])) "series"
    (AnonymizeModify.new_modification, Samples.context0)
  = (Ok AnonymizeModify.NoAnswer,
     (AnonymizeModify.new_modification, Samples.context0)).
Proof.
  exact (proj1 (proj2 (proj2
    (handlers_reject_other_requests Samples.Context (list string)
       Samples.text_of Samples.tag_of Samples.increment Samples.children
       Samples.lock Samples.store_file Samples.new_series
       (Samples.identifier 0) (Samples.identifier 1) (Samples.identifier 2)
       Samples.kind_name Samples.base_path ∅ "random" "random-id"
       (Some (AnonymizeModify.Json_array [])) ResourceType_Series "series"
       AnonymizeModify.new_modification Samples.context0 eq_refl)))).
Defined.
